(** * StorySky backend: a shallow embedding of the two servers

    The repository holds two versions of [backend/server.js]:
    - the in-memory server ([src/server.js]), module [InMemory] below;
    - the file-backed server ([src/unnamed/part_000]), module [FileBacked],
      which adds the [data.json] document, author-name enrichment, the like
      route and the activity log with its recommendation route.

    Modelling conventions.
    - Entities are records typed as the data model has them: texts are
      [string], the [likes] counter is an integer ([Z]) that a double holds,
      and [+= 1] gives the double nearest to the sum ([Double.add1], which
      is the sum for integers below 2^53).  Request bodies of another shape
      are outside the model.
    - [FileBacked] keeps of [data.json] the document that its text holds.
      The text itself, as [fs.writeJson] writes it and [fs.readJsonSync]
      reads it, and the values that JavaScript may store, with the numbers
      that are not finite, are the subject of [Json] and [Gateway].
    - A property that may be missing from a request body ([undefined]) is an
      [option]; [truthy] is JavaScript's truthiness on such a value.
    - Text is ASCII: [toLowerCase] and [trim] are the ASCII parts of the
      JavaScript functions, and the results that rest on them are stated
      for text in the ASCII range ([Charset]).
    - A handler is a function from the state of the process (the module-level
      variables and the files) and a request to a response and a new state.
      [uuidv4()] and [new Date().toISOString()] are read from an [env] that
      the caller supplies for each request.  Requests are handled one at a
      time and file writes succeed.  The file-backed server is taken after
      its start, with the push keys loaded. *)

From Stdlib Require Import String Ascii List ZArith Bool Arith Lia.
From Stdlib Require DecimalString DecimalPos.
Import ListNotations.

Local Open Scope string_scope.
Local Open Scope list_scope.

(** ** JavaScript text functions *)

Module Text.

Definition lower_char (c : ascii) : ascii :=
  let n := nat_of_ascii c in
  if ((65 <=? n) && (n <=? 90))%nat then ascii_of_nat (n + 32) else c.

(** [String.prototype.toLowerCase] *)
Fixpoint toLowerCase (s : string) : string :=
  match s with
  | EmptyString => EmptyString
  | String c s' => String (lower_char c) (toLowerCase s')
  end.

(** [String.prototype.includes] *)
Fixpoint includes (s q : string) : bool :=
  String.prefix q s ||
  match s with
  | EmptyString => false
  | String _ s' => includes s' q
  end.

(** White space and line terminators: TAB, LF, VT, FF, CR and space. *)
Definition is_space (c : ascii) : bool :=
  let n := nat_of_ascii c in
  (((9 <=? n) && (n <=? 13)) || (n =? 32))%nat.

Fixpoint trimStart (s : string) : string :=
  match s with
  | EmptyString => EmptyString
  | String c s' => if is_space c then trimStart s' else s
  end.

Fixpoint trimEnd (s : string) : string :=
  match s with
  | EmptyString => EmptyString
  | String c s' =>
      match trimEnd s' with
      | EmptyString => if is_space c then EmptyString else String c EmptyString
      | t => String c t
      end
  end.

(** [String.prototype.trim] *)
Definition trim (s : string) : string := trimEnd (trimStart s).

(** [String.prototype.split] with a one-character separator: the pieces
    between the separators, so the empty text splits into one empty piece. *)
Fixpoint split (sep : ascii) (s : string) : list string :=
  match s with
  | EmptyString => [EmptyString]
  | String c s' =>
      if Ascii.eqb c sep then EmptyString :: split sep s'
      else match split sep s' with
           | piece :: rest => String c piece :: rest
           | [] => [String c EmptyString]
           end
  end.

Definition LF : ascii := ascii_of_nat 10.

End Text.

(** ** JavaScript values that may be [undefined] *)

(** [!x] is false exactly on a present, non-empty text. *)
Definition truthy (x : option string) : bool :=
  match x with
  | Some (String _ _) => true
  | _ => false
  end.

(** [x || ""] *)
Definition or_empty (x : option string) : string :=
  match x with
  | Some s => s
  | None => EmptyString
  end.

(** ** Array functions *)

(** [Array.prototype.findIndex]; [None] is the source's [-1]. *)
Fixpoint findIndex {A : Type} (p : A -> bool) (l : list A) : option nat :=
  match l with
  | [] => None
  | x :: l' => if p x then Some 0%nat
               else match findIndex p l' with
                    | Some i => Some (S i)
                    | None => None
                    end
  end.

(** Assignment to fields of the object at index [idx]: the array keeps its
    length and its other elements. *)
Fixpoint update_nth {A : Type} (idx : nat) (f : A -> A) (l : list A) : list A :=
  match l, idx with
  | [], _ => []
  | x :: l', O => f x :: l'
  | x :: l', S i => x :: update_nth i f l'
  end.

(** ** Data model *)

Module Story.
Record t := mk
  { id : string; title : string; body : string; authorId : string;
    genre : string; likes : Z; createdAt : string }.

Definition set_title (v : string) (s : t) : t :=
  mk (id s) v (body s) (authorId s) (genre s) (likes s) (createdAt s).
Definition set_body (v : string) (s : t) : t :=
  mk (id s) (title s) v (authorId s) (genre s) (likes s) (createdAt s).
Definition set_genre (v : string) (s : t) : t :=
  mk (id s) (title s) (body s) (authorId s) v (likes s) (createdAt s).
Definition set_likes (v : Z) (s : t) : t :=
  mk (id s) (title s) (body s) (authorId s) (genre s) v (createdAt s).
End Story.

Module User.
(** The seed user has no [email], a created user has no [avatarUrl]. *)
Record t := mk
  { id : string; name : string; email : option string; bio : string;
    avatarUrl : option string }.
End User.

Module Comment.
Record t := mk
  { id : string; storyId : string; authorId : string; text : string;
    createdAt : string }.
End Comment.

Module Activity.
Record t := mk
  { userId : string; viewedStoryId : string; timestamp : string }.
End Activity.

(** ** Requests *)

(** Body of [POST /api/stories]. *)
Record story_body := mk_story_body
  { b_title : option string; b_body : option string;
    b_authorId : option string; b_genre : option string }.

(** Body of [PUT /api/stories/:id]. *)
Record story_patch := mk_story_patch
  { p_title : option string; p_body : option string;
    p_genre : option string; p_likes : option Z }.

(** Body of [POST /api/stories/:id/comments]. *)
Record comment_body := mk_comment_body
  { cb_authorId : option string; cb_text : option string }.

(** Body of [POST /api/users]. *)
Record user_body := mk_user_body
  { ub_name : option string; ub_email : option string }.

(** Body of [POST /api/userActivity]. *)
Record activity_body := mk_activity_body
  { ab_userId : option string; ab_viewedStoryId : option string }.

(** What the process reads from its environment while it handles one
    request: the result of [uuidv4()] and of [new Date().toISOString()]. *)
Record env := mk_env { uuidv4 : string; now : string }.

(** ** Responses *)

(** [Reply status payload] is [res.status(status).json(payload)] (or
    [.send()]); [Fail status msg] is [res.status(status).json({error: msg})]. *)
Inductive response (P : Type) : Type :=
| Reply (status : nat) (payload : P)
| Fail (status : nat) (msg : string).
Arguments Reply {P} status payload.
Arguments Fail {P} status msg.

Definition status_of {P : Type} (r : response P) : nat :=
  match r with
  | Reply s _ => s
  | Fail s _ => s
  end.

(** The error taxonomy: 400, 404 and 500. *)
Definition ValidationError {P : Type} (msg : string) : response P := Fail 400 msg.
Definition NotFound {P : Type} (msg : string) : response P := Fail 404 msg.
Definition InternalError {P : Type} : response P := Fail 500 "Internal server error".

(** The seed data of both servers; [createdAt] is the time of the start. *)
Definition seed_story (start : string) : Story.t :=
  Story.mk "s1" "A Moonlit Night" "Once upon a moonlit night..." "u1"
           "Fantasy" 3 start.

Definition seed_user : User.t :=
  User.mk "u1" "Meghana M" None "Student" (Some EmptyString).

(** Predicates of the routes. *)
Definition story_has_id (i : string) (s : Story.t) : bool := String.eqb (Story.id s) i.
Definition user_has_id (i : string) (u : User.t) : bool := String.eqb (User.id u) i.
Definition comment_has_id (i : string) (c : Comment.t) : bool := String.eqb (Comment.id c) i.
Definition comment_of_story (i : string) (c : Comment.t) : bool := String.eqb (Comment.storyId c) i.

(** The search of [GET /api/stories?q=]. *)
Definition matches_query (q : string) (s : Story.t) : bool :=
  Text.includes (Text.toLowerCase (Story.title s ++ " " ++ Story.body s)) q.

Definition search (q : option string) (stories : list Story.t) : list Story.t :=
  let q := Text.toLowerCase (or_empty q) in
  match q with
  | EmptyString => stories
  | _ => filter (matches_query q) stories
  end.

(** The body of [PUT /api/stories/:id] applied to the stored story. *)
Definition assign {A : Type} (v : option A) (set : A -> Story.t -> Story.t)
    (s : Story.t) : Story.t :=
  match v with
  | Some x => set x s
  | None => s
  end.

(** ** The in-memory server ([src/server.js]) *)

Module InMemory.

(** The module-level variables [stories], [users] and [comments]. *)
Record state := mk_state
  { stories : list Story.t; users : list User.t; comments : list Comment.t }.

Definition init (start : string) : state :=
  mk_state [seed_story start] [seed_user] [].

Inductive payload : Type :=
| Empty
| StoryList (data : list Story.t) (total : nat)
| StoryDetail (s : Story.t) (cs : list Comment.t)
| OneStory (s : Story.t)
| CommentList (cs : list Comment.t)
| OneComment (c : Comment.t)
| OneUser (u : User.t).

(** What a handler that assigns to the variables gives back. *)
Definition outcome : Type := response payload * state.

(** [GET /api/stories] *)
Definition listStories (st : state) (q : option string) : response payload :=
  let result := search q (stories st) in
  Reply 200 (StoryList result (length result)).

(** [GET /api/stories/:id] *)
Definition getStory (st : state) (i : string) : response payload :=
  match find (story_has_id i) (stories st) with
  | None => NotFound "Story not found"
  | Some story =>
      let storyComments := filter (comment_of_story (Story.id story)) (comments st) in
      Reply 200 (StoryDetail story storyComments)
  end.

(** [POST /api/stories] *)
Definition createStory (e : env) (st : state) (b : story_body) : outcome :=
  if negb (truthy (b_title b)) || negb (truthy (b_body b))
     || negb (truthy (b_authorId b))
  then (ValidationError "title, body, authorId required", st)
  else
    let newStory :=
      Story.mk (uuidv4 e) (or_empty (b_title b)) (or_empty (b_body b))
               (or_empty (b_authorId b)) (or_empty (b_genre b)) 0 (now e) in
    (Reply 201 (OneStory newStory),
     mk_state (newStory :: stories st) (users st) (comments st)).

(** The assignments of [PUT /api/stories/:id]: this server reads [title],
    [body] and [genre] from the body, and nothing else. *)
Definition apply_patch (p : story_patch) (s : Story.t) : Story.t :=
  assign (p_genre p) Story.set_genre
    (assign (p_body p) Story.set_body
       (assign (p_title p) Story.set_title s)).

(** [PUT /api/stories/:id].  [stories[idx]] is an element of the array, as
    [idx] was found in it; were it [undefined], the handler would throw. *)
Definition updateStory (st : state) (i : string) (p : story_patch) : outcome :=
  match findIndex (story_has_id i) (stories st) with
  | None => (NotFound "Story not found", st)
  | Some idx =>
      let stories' := update_nth idx (apply_patch p) (stories st) in
      let st' := mk_state stories' (users st) (comments st) in
      match nth_error stories' idx with
      | Some s => (Reply 200 (OneStory s), st')
      | None => (InternalError, st')
      end
  end.

(** [DELETE /api/stories/:id]: the comments are filtered after the check. *)
Definition deleteStory (st : state) (i : string) : outcome :=
  let before := length (stories st) in
  let stories' := filter (fun s => negb (story_has_id i s)) (stories st) in
  if (length stories' =? before)%nat
  then (NotFound "Story not found", mk_state stories' (users st) (comments st))
  else
    let comments' := filter (fun c => negb (comment_of_story i c)) (comments st) in
    (Reply 204 Empty, mk_state stories' (users st) comments').

(** [GET /api/stories/:id/comments] *)
Definition listComments (st : state) (i : string) : response payload :=
  match find (story_has_id i) (stories st) with
  | None => NotFound "Story not found"
  | Some story =>
      Reply 200 (CommentList (filter (comment_of_story (Story.id story)) (comments st)))
  end.

(** [POST /api/stories/:id/comments] *)
Definition createComment (e : env) (st : state) (i : string) (b : comment_body)
  : outcome :=
  match find (story_has_id i) (stories st) with
  | None => (NotFound "Story not found", st)
  | Some story =>
      if negb (truthy (cb_authorId b)) || negb (truthy (cb_text b))
      then (ValidationError "authorId and text required", st)
      else
        let newComment :=
          Comment.mk (uuidv4 e) (Story.id story) (or_empty (cb_authorId b))
                     (or_empty (cb_text b)) (now e) in
        (Reply 201 (OneComment newComment),
         mk_state (stories st) (users st) (comments st ++ [newComment]))
  end.

(** [DELETE /api/comments/:commentId] *)
Definition deleteComment (st : state) (i : string) : outcome :=
  let before := length (comments st) in
  let comments' := filter (fun c => negb (comment_has_id i c)) (comments st) in
  let st' := mk_state (stories st) (users st) comments' in
  if (length comments' =? before)%nat
  then (NotFound "Comment not found", st')
  else (Reply 204 Empty, st').

(** [GET /api/users/:id] *)
Definition getUser (st : state) (i : string) : response payload :=
  match find (user_has_id i) (users st) with
  | None => NotFound "User not found"
  | Some user => Reply 200 (OneUser user)
  end.

(** [POST /api/users] *)
Definition createUser (e : env) (st : state) (b : user_body) : outcome :=
  if negb (truthy (ub_name b))
  then (ValidationError "name required", st)
  else
    let newUser :=
      User.mk (uuidv4 e) (or_empty (ub_name b)) (Some (or_empty (ub_email b)))
              EmptyString None in
    (Reply 201 (OneUser newUser),
     mk_state (stories st) (users st ++ [newUser]) (comments st)).

(** The routes of the server. *)
Inductive request : Type :=
| ListStories (q : option string)
| GetStory (i : string)
| CreateStory (b : story_body)
| UpdateStory (i : string) (p : story_patch)
| DeleteStory (i : string)
| ListComments (i : string)
| CreateComment (i : string) (b : comment_body)
| DeleteComment (i : string)
| GetUser (i : string)
| CreateUser (b : user_body).

Definition step (e : env) (st : state) (r : request) : outcome :=
  match r with
  | ListStories q => (listStories st q, st)
  | GetStory i => (getStory st i, st)
  | CreateStory b => createStory e st b
  | UpdateStory i p => updateStory st i p
  | DeleteStory i => deleteStory st i
  | ListComments i => (listComments st i, st)
  | CreateComment i b => createComment e st i b
  | DeleteComment i => deleteComment st i
  | GetUser i => (getUser st i, st)
  | CreateUser b => createUser e st b
  end.

End InMemory.

(** ** JavaScript numbers that hold integers *)

(** The counters of the store are doubles that hold integers.  A sum of
    two of them is the double nearest to the exact sum, the even one of two
    that are equally near. *)
Module Double.

(** The integers from -2^53 to 2^53, each of which is a double. *)
Definition exact (z : Z) : Prop := (- 2 ^ 53 <= z <= 2 ^ 53)%Z.

(** The double nearest to the integer [z], ties to even, for [z] of a
    magnitude below 2^1024: the 53 leading bits [q] of [|z|] are kept, and
    rounded up when the [k] bits [r] that are cut are more than half, or
    are half with [q] odd. *)
Definition to_double (z : Z) : Z :=
  let a := Z.abs z in
  if (a <? 2 ^ 53)%Z then z
  else
    let k := (Z.log2 a - 52)%Z in
    let q := Z.shiftr a k in
    let r := (a - Z.shiftl q k)%Z in
    let half := Z.shiftl 1 (k - 1) in
    let q' := if (r <? half)%Z then q
              else if (half <? r)%Z then (q + 1)%Z
              else if Z.even q then q else (q + 1)%Z in
    (Z.sgn z * Z.shiftl q' k)%Z.

(** [n + 1], as in [story.likes += 1]. *)
Definition add1 (n : Z) : Z := to_double (n + 1).

End Double.

(** ** The file-backed server ([src/unnamed/part_000]) *)

(** [JSON.parse] and [JSON.stringify] on the lines of the activity log,
    which hold one record each.  [JSON_parse line] is [None] when
    [JSON.parse(line)] throws, as it does on the empty text. *)
Class JsonLines : Type := mk_JsonLines
  { JSON_parse : string -> option Activity.t;
    JSON_stringify : Activity.t -> string;
    JSON_parse_empty : JSON_parse EmptyString = None }.

Module FileBacked.

(** The document of [data.json]. *)
Record document := mk_document
  { doc_stories : list Story.t; doc_users : list User.t;
    doc_comments : list Comment.t }.

(** The module-level variables [stories], [users] and [comments], and the two
    files: [data_file] is the document that [data.json] holds ([None] when
    [readJsonSync] gives [null]: no file, or no JSON in it), [activity_file]
    is the text of [userActivity.json] ([None] when the file does not exist).
    The text of [data.json] and the values that do not pass through it
    unchanged are the subject of [Json] and [Gateway].
    The variable [db] is read by [saveDB] alone, after its three properties
    have been assigned, so it is not part of the state. *)
Record state := mk_state
  { stories : list Story.t; users : list User.t; comments : list Comment.t;
    data_file : option document; activity_file : option string }.

Definition seed (start : string) : document :=
  mk_document [seed_story start] [seed_user] [].

(** [fs.readJsonSync(DATA_FILE, { throws: false }) || { ...seed }] *)
Definition load (file : option document) (start : string) : document :=
  match file with
  | Some db => db
  | None => seed start
  end.

(** The start of the process: [let { stories, users, comments } = db]. *)
Definition init (data : option document) (activity : option string)
    (start : string) : state :=
  let db := load data start in
  mk_state (doc_stories db) (doc_users db) (doc_comments db) data activity.

(** [saveDB]: the three variables are assigned to [db], which is written. *)
Definition saveDB (st : state) : state :=
  let db := mk_document (stories st) (users st) (comments st) in
  mk_state (stories st) (users st) (comments st) (Some db) (activity_file st).

(** Responses carry [authorName], which no stored record has. *)
Record story_view := mk_story_view
  { sv_story : Story.t; sv_authorName : string }.

Record comment_view := mk_comment_view
  { cv_comment : Comment.t; cv_authorName : string }.

(** [author ? author.name : "Unknown"] *)
Definition authorName (us : list User.t) (i : string) : string :=
  match find (user_has_id i) us with
  | Some author => User.name author
  | None => "Unknown"
  end.

Definition enrich (us : list User.t) (s : Story.t) : story_view :=
  mk_story_view s (authorName us (Story.authorId s)).

Definition enrich_comment (us : list User.t) (c : Comment.t) : comment_view :=
  mk_comment_view c (authorName us (Comment.authorId c)).

Inductive payload : Type :=
| Empty
| StoryList (data : list story_view) (total : nat)
| StoryDetail (s : story_view) (cs : list comment_view)
| OneStory (s : story_view)
| CommentList (cs : list comment_view)
| OneComment (c : comment_view)
| OneUser (u : User.t)
| Message (m : string)
| Recommendations (l : list Story.t).

(** What a handler that assigns to the variables or writes a file gives back. *)
Definition outcome : Type := response payload * state.

Definition with_stories (l : list Story.t) (st : state) : state :=
  mk_state l (users st) (comments st) (data_file st) (activity_file st).
Definition with_users (l : list User.t) (st : state) : state :=
  mk_state (stories st) l (comments st) (data_file st) (activity_file st).
Definition with_comments (l : list Comment.t) (st : state) : state :=
  mk_state (stories st) (users st) l (data_file st) (activity_file st).
Definition with_activity_file (f : option string) (st : state) : state :=
  mk_state (stories st) (users st) (comments st) (data_file st) f.

(** [POST /subscribe]; the test notification is sent outside the process. *)
Definition subscribe (endpoint : option string) : response payload :=
  if negb (truthy endpoint)
  then ValidationError "Invalid subscription object"
  else Reply 201 Empty.

(** [GET /api/stories] *)
Definition listStories (st : state) (q : option string) : response payload :=
  let result := search q (stories st) in
  let result := map (enrich (users st)) result in
  Reply 200 (StoryList result (length result)).

Definition storyComments (st : state) (story : Story.t) : list comment_view :=
  map (enrich_comment (users st))
      (filter (comment_of_story (Story.id story)) (comments st)).

(** [GET /api/stories/:id] *)
Definition getStory (st : state) (i : string) : response payload :=
  match find (story_has_id i) (stories st) with
  | None => NotFound "Story not found"
  | Some story =>
      Reply 200 (StoryDetail (enrich (users st) story) (storyComments st story))
  end.

(** [POST /api/stories] *)
Definition createStory (e : env) (st : state) (b : story_body) : outcome :=
  if negb (truthy (b_title b)) || negb (truthy (b_body b))
     || negb (truthy (b_authorId b))
  then (ValidationError "title, body, authorId required", st)
  else
    let newStory :=
      Story.mk (uuidv4 e) (or_empty (b_title b)) (or_empty (b_body b))
               (or_empty (b_authorId b)) (or_empty (b_genre b)) 0 (now e) in
    let st' := saveDB (with_stories (newStory :: stories st) st) in
    (Reply 201 (OneStory (enrich (users st') newStory)), st').

(** The assignments of [PUT /api/stories/:id]: [title], [body], [genre] and
    [likes], each when it is not [undefined]. *)
Definition apply_patch (p : story_patch) (s : Story.t) : Story.t :=
  assign (p_likes p) Story.set_likes
    (assign (p_genre p) Story.set_genre
       (assign (p_body p) Story.set_body
          (assign (p_title p) Story.set_title s))).

(** [PUT /api/stories/:id].  [stories[idx]] is an element of the array, as
    [idx] was found in it; were it [undefined], the handler would throw. *)
Definition updateStory (st : state) (i : string) (p : story_patch) : outcome :=
  match findIndex (story_has_id i) (stories st) with
  | None => (NotFound "Story not found", st)
  | Some idx =>
      let st' := saveDB (with_stories (update_nth idx (apply_patch p) (stories st)) st) in
      match nth_error (stories st') idx with
      | Some s => (Reply 200 (OneStory (enrich (users st') s)), st')
      | None => (InternalError, st')
      end
  end.

(** [DELETE /api/stories/:id]: both variables are assigned before the check. *)
Definition deleteStory (st : state) (i : string) : outcome :=
  let before := length (stories st) in
  let stories' := filter (fun s => negb (story_has_id i s)) (stories st) in
  let comments' := filter (fun c => negb (comment_of_story i c)) (comments st) in
  let st' := with_comments comments' (with_stories stories' st) in
  if (length stories' =? before)%nat
  then (NotFound "Story not found", st')
  else (Reply 204 Empty, saveDB st').

(** [POST /api/stories/:id/like]: [find] gives the first story with the id,
    and [story.likes += 1] assigns to that element of the array. *)
Definition likeStory (st : state) (i : string) : outcome :=
  match findIndex (story_has_id i) (stories st) with
  | None => (NotFound "Story not found", st)
  | Some idx =>
      let like := fun s => Story.set_likes (Double.add1 (Story.likes s)) s in
      let st' := saveDB (with_stories (update_nth idx like (stories st)) st) in
      match nth_error (stories st') idx with
      | Some s => (Reply 200 (OneStory (enrich (users st') s)), st')
      | None => (InternalError, st')
      end
  end.

(** [GET /api/stories/:id/comments] *)
Definition listComments (st : state) (i : string) : response payload :=
  match find (story_has_id i) (stories st) with
  | None => NotFound "Story not found"
  | Some story => Reply 200 (CommentList (storyComments st story))
  end.

(** [POST /api/stories/:id/comments] *)
Definition createComment (e : env) (st : state) (i : string) (b : comment_body)
  : outcome :=
  match find (story_has_id i) (stories st) with
  | None => (NotFound "Story not found", st)
  | Some story =>
      if negb (truthy (cb_authorId b)) || negb (truthy (cb_text b))
      then (ValidationError "authorId and text required", st)
      else
        let newComment :=
          Comment.mk (uuidv4 e) (Story.id story) (or_empty (cb_authorId b))
                     (or_empty (cb_text b)) (now e) in
        let st' := saveDB (with_comments (comments st ++ [newComment]) st) in
        (Reply 201 (OneComment (enrich_comment (users st') newComment)), st')
  end.

(** [DELETE /api/comments/:commentId] *)
Definition deleteComment (st : state) (i : string) : outcome :=
  let before := length (comments st) in
  let comments' := filter (fun c => negb (comment_has_id i c)) (comments st) in
  let st' := with_comments comments' st in
  if (length comments' =? before)%nat
  then (NotFound "Comment not found", st')
  else (Reply 204 Empty, saveDB st').

Section ActivityLog.

Context {json : JsonLines}.

(** [POST /api/userActivity]: the handler first reads the log into a local
    array inside [try]/[catch], which changes nothing, and then appends one
    line to the file, which [appendFileSync] creates when it is missing. *)
Definition recordActivity (e : env) (st : state) (b : activity_body) : outcome :=
  if negb (truthy (ab_userId b)) || negb (truthy (ab_viewedStoryId b))
  then (ValidationError "userId and viewedStoryId are required", st)
  else
    let record :=
      Activity.mk (or_empty (ab_userId b)) (or_empty (ab_viewedStoryId b)) (now e) in
    let line := (JSON_stringify record ++ String Text.LF EmptyString)%string in
    (Reply 200 (Message "User activity recorded"),
     with_activity_file (Some (or_empty (activity_file st) ++ line)%string) st).

(** [lines.map((line) => JSON.parse(line))]; [None] when a call throws. *)
Fixpoint parse_lines (lines : list string) : option (list Activity.t) :=
  match lines with
  | [] => Some []
  | line :: rest =>
      match JSON_parse line with
      | None => None
      | Some a =>
          match parse_lines rest with
          | None => None
          | Some l => Some (a :: l)
          end
      end
  end.

(** [getUserHistory(userId)]; [None] when it throws. *)
Definition getUserHistory (file : option string) (userId : string)
  : option (list Activity.t) :=
  match file with
  | None => Some []
  | Some content =>
      let lines := Text.split Text.LF (Text.trim content) in
      match parse_lines lines with
      | None => None
      | Some allActivity =>
          Some (filter (fun a => String.eqb (Activity.userId a) userId) allActivity)
      end
  end.

(** [GET /api/recommend/:userId].  The handler is synchronous: what it
    throws ([getUserHistory] on a line that does not parse, a property read
    on [undefined]) reaches the error handler of the application, which
    answers 500. *)
Definition recommend (st : state) (userId : string) : response payload :=
  match getUserHistory (activity_file st) userId with
  | None => InternalError
  | Some userHistory =>
      if (length userHistory =? 0)%nat then Reply 200 (Recommendations [])
      else
        match nth_error userHistory (length userHistory - 1) with
        | None => InternalError
        | Some lastViewed =>
            match find (story_has_id (Activity.viewedStoryId lastViewed)) (stories st) with
            | None => Reply 200 (Recommendations [])
            | Some viewedStory =>
                let lastGenre := Story.genre viewedStory in
                let recommendations :=
                  firstn 3
                    (filter (fun s => String.eqb (Story.genre s) lastGenre
                                      && negb (String.eqb (Story.id s) (Story.id viewedStory)))
                            (stories st)) in
                Reply 200 (Recommendations recommendations)
            end
        end
  end.

End ActivityLog.

(** [GET /api/users/:id] *)
Definition getUser (st : state) (i : string) : response payload :=
  match find (user_has_id i) (users st) with
  | None => NotFound "User not found"
  | Some user => Reply 200 (OneUser user)
  end.

(** [POST /api/users] *)
Definition createUser (e : env) (st : state) (b : user_body) : outcome :=
  if negb (truthy (ub_name b))
  then (ValidationError "name required", st)
  else
    let newUser :=
      User.mk (uuidv4 e) (or_empty (ub_name b)) (Some (or_empty (ub_email b)))
              EmptyString None in
    (Reply 201 (OneUser newUser), saveDB (with_users (users st ++ [newUser]) st)).

(** The routes of the server. *)
Inductive request : Type :=
| Subscribe (endpoint : option string)
| ListStories (q : option string)
| GetStory (i : string)
| CreateStory (b : story_body)
| UpdateStory (i : string) (p : story_patch)
| DeleteStory (i : string)
| LikeStory (i : string)
| ListComments (i : string)
| CreateComment (i : string) (b : comment_body)
| DeleteComment (i : string)
| RecordActivity (b : activity_body)
| Recommend (userId : string)
| GetUser (i : string)
| CreateUser (b : user_body).

Definition step {json : JsonLines} (e : env) (st : state) (r : request) : outcome :=
  match r with
  | Subscribe endpoint => (subscribe endpoint, st)
  | ListStories q => (listStories st q, st)
  | GetStory i => (getStory st i, st)
  | CreateStory b => createStory e st b
  | UpdateStory i p => updateStory st i p
  | DeleteStory i => deleteStory st i
  | LikeStory i => likeStory st i
  | ListComments i => (listComments st i, st)
  | CreateComment i b => createComment e st i b
  | DeleteComment i => deleteComment st i
  | RecordActivity b => recordActivity e st b
  | Recommend userId => (recommend st userId, st)
  | GetUser i => (getUser st i, st)
  | CreateUser b => createUser e st b
  end.

(** A run of the server: the requests are handled in turn, each with what
    the environment gives it. *)
Fixpoint run {json : JsonLines} (st : state) (rs : list (env * request)) : state :=
  match rs with
  | [] => st
  | (e, r) :: rs' => run (snd (step e st r)) rs'
  end.

End FileBacked.

(** ** A codec for the lines the server writes *)

(** The lines of the activity log as [JSON.stringify] writes them, for
    fields that hold no quote and no backslash.  The development is stated
    for every [JsonLines]; this one runs the examples. *)
Module Lines.

Definition quote : ascii := ascii_of_nat 34.
Definition backslash : ascii := ascii_of_nat 92.

Definition member (k v : string) : string :=
  String quote k ++ String quote (String ":" (String quote v))
  ++ String quote EmptyString.

Definition stringify (a : Activity.t) : string :=
  "{" ++ member "userId" (Activity.userId a)
  ++ "," ++ member "viewedStoryId" (Activity.viewedStoryId a)
  ++ "," ++ member "timestamp" (Activity.timestamp a) ++ "}".

(** [strip p s] is [s] without its prefix [p]. *)
Fixpoint strip (p s : string) : option string :=
  match p, s with
  | EmptyString, _ => Some s
  | String a p', String b s' => if Ascii.eqb a b then strip p' s' else None
  | String _ _, EmptyString => None
  end.

(** The text up to the closing quote, and what follows the quote. *)
Fixpoint quoted (s : string) : option (string * string) :=
  match s with
  | EmptyString => None
  | String c s' =>
      if Ascii.eqb c quote then Some (EmptyString, s')
      else if Ascii.eqb c backslash then None
      else match quoted s' with
           | Some (v, rest) => Some (String c v, rest)
           | None => None
           end
  end.

Definition read_member (k s : string) : option (string * string) :=
  match strip (String quote k ++ String quote (String ":" (String quote EmptyString))) s with
  | Some s' => quoted s'
  | None => None
  end.

Definition parse (line : string) : option Activity.t :=
  match strip "{" line with
  | None => None
  | Some s1 =>
  match read_member "userId" s1 with
  | None => None
  | Some (u, s2) =>
  match strip "," s2 with
  | None => None
  | Some s3 =>
  match read_member "viewedStoryId" s3 with
  | None => None
  | Some (v, s4) =>
  match strip "," s4 with
  | None => None
  | Some s5 =>
  match read_member "timestamp" s5 with
  | None => None
  | Some (t, s6) =>
      if String.eqb s6 "}" then Some (Activity.mk u v t) else None
  end end end end end end.

End Lines.

Definition plain_lines : JsonLines :=
  mk_JsonLines Lines.parse Lines.stringify eq_refl.

(** ** The text of [data.json] *)

(** [fs.writeJson(DATA_FILE, db, { spaces: 2 })] writes
    [JSON.stringify(db, null, 2)] and a line feed, and
    [fs.readJsonSync(DATA_FILE, { throws: false })] gives [JSON.parse] of
    the text of the file, or [null] when there is no file or no JSON in
    it.  [Json] has the values that pass through them, the text
    [JSON.stringify] writes and the value [JSON.parse] reads.

    A number is an integer that a double holds, or one of the three
    numbers that are not finite ([NaN], the sum of [undefined] and 1;
    [Infinity], as [JSON.parse] reads 1e999); fractions and the negative
    zero are outside the model.  A string is its UTF-8 text.  An object
    lists its members in the order of its properties; integer-like keys,
    which JavaScript moves to the front, are set aside by [proper]. *)
Module Json.
#[local] Set Warnings "-register-all".

Inductive number : Set :=
| Finite (z : Z)
| NaN
| Infinity
| NegInfinity.

Inductive value : Set :=
| Null
| Bool (b : bool)
| Num (n : number)
| Str (s : string)
| Arr (items : list value)
| Obj (members : list (string * value)).

Definition quote : ascii := ascii_of_nat 34.
Definition backslash : ascii := ascii_of_nat 92.
Definition BS : ascii := ascii_of_nat 8.
Definition TAB : ascii := ascii_of_nat 9.
Definition LF : ascii := ascii_of_nat 10.
Definition FF : ascii := ascii_of_nat 12.
Definition CR : ascii := ascii_of_nat 13.

(** [o[k]] and [o[k] = v] on the members of an object. *)
Fixpoint lookup (k : string) (m : list (string * value)) : option value :=
  match m with
  | [] => None
  | (k', v) :: m' => if String.eqb k' k then Some v else lookup k m'
  end.

(** [v.k] for a key that no array and no string has of its own; [None] is
    [undefined]. *)
Definition get (k : string) (v : value) : option value :=
  match v with
  | Obj m => lookup k m
  | _ => None
  end.

Fixpoint define (k : string) (v : value) (m : list (string * value))
    : list (string * value) :=
  match m with
  | [] => [(k, v)]
  | (k', v') :: m' =>
      if String.eqb k' k then (k, v) :: m' else (k', v') :: define k v m'
  end.

(** Truthiness, as [||] tests it. *)
Definition truthy (v : value) : bool :=
  match v with
  | Null => false
  | Bool b => b
  | Num (Finite z) => negb (z =? 0)%Z
  | Num NaN => false
  | Num _ => true
  | Str s => negb (String.eqb s EmptyString)
  | Arr _ | Obj _ => true
  end.

(** *** [JSON.stringify(v, null, 2)] *)

(** [QuoteJSONString]: the quote and the backslash are escaped, the control
    characters below 32 are written by their short escape or as a code
    unit in lower-case hexadecimal. *)

Definition hex_digit (n : N) : ascii :=
  if (n <? 10)%N then ascii_of_N (48 + n) else ascii_of_N (87 + n).

Definition escape_char (c : ascii) : string :=
  let n := N_of_ascii c in
  if Ascii.eqb c quote then String backslash (String quote EmptyString)
  else if Ascii.eqb c backslash then String backslash (String backslash EmptyString)
  else if Ascii.eqb c BS then String backslash "b"
  else if Ascii.eqb c FF then String backslash "f"
  else if Ascii.eqb c LF then String backslash "n"
  else if Ascii.eqb c CR then String backslash "r"
  else if Ascii.eqb c TAB then String backslash "t"
  else if (n <? 32)%N then
    String backslash
      (String "u" (String "0" (String "0"
         (String (hex_digit (n / 16)) (String (hex_digit (n mod 16)) EmptyString)))))
  else String c EmptyString.

Fixpoint escape (s : string) : string :=
  match s with
  | EmptyString => EmptyString
  | String c s' => (escape_char c ++ escape s')%string
  end.

Definition quoted (s : string) : string :=
  String quote (escape s ++ String quote EmptyString)%string.

(** [Number::toString] of an integer below 10^21 in magnitude. *)
Definition digits (z : Z) : string :=
  DecimalString.NilZero.string_of_int (Z.to_int z).

(** A number that is not finite is written as [null]. *)
Definition number_text (n : number) : string :=
  match n with
  | Finite z => digits z
  | _ => "null"
  end.

(** The gap of two spaces, once for each level. *)
Fixpoint indent (level : nat) : string :=
  match level with
  | O => EmptyString
  | S level' => String " " (String " " (indent level'))
  end.

Definition newline (level : nat) : string := String LF (indent level).

(** The parts of an array or of an object, one to a line, between the
    brackets; no line when there is no part. *)
Fixpoint join (sep : string) (parts : list string) : string :=
  match parts with
  | [] => EmptyString
  | p :: ps =>
      match ps with
      | [] => p
      | _ :: _ => (p ++ sep ++ join sep ps)%string
      end
  end.

Definition block (opening closing : string) (level : nat) (parts : list string)
    : string :=
  match parts with
  | [] => (opening ++ closing)%string
  | _ :: _ =>
      (opening ++ newline (S level)
       ++ join ("," ++ newline (S level)) parts
       ++ newline level ++ closing)%string
  end.

Fixpoint write (level : nat) (v : value) {struct v} : string :=
  match v with
  | Null => "null"
  | Bool true => "true"
  | Bool false => "false"
  | Num n => number_text n
  | Str s => quoted s
  | Arr l => block "[" "]" level (map (write (S level)) l)
  | Obj m =>
      block "{" "}" level
            (map (fun kv => match kv with
                            | (k, x) => (quoted k ++ ": " ++ write (S level) x)%string
                            end) m)
  end.

(** What the text keeps of a value: a number that is not finite has
    become [null]. *)
Fixpoint as_written (v : value) : value :=
  match v with
  | Num (Finite z) => Num (Finite z)
  | Num _ => Null
  | Arr l => Arr (map as_written l)
  | Obj m => Obj (map (fun kv => match kv with (k, x) => (k, as_written x) end) m)
  | _ => v
  end.

(** *** [JSON.parse] *)

(** A parser returns what it has read and the text that follows, or [None]
    for a syntax error.  White space is the space, the tab, the line feed
    and the carriage return. *)

Definition is_ws (c : ascii) : bool :=
  Ascii.eqb c " " || Ascii.eqb c TAB || Ascii.eqb c LF || Ascii.eqb c CR.

Fixpoint skip_ws (s : string) : string :=
  match s with
  | String c s' => if is_ws c then skip_ws s' else s
  | EmptyString => EmptyString
  end.

Fixpoint strip (p s : string) : option string :=
  match p, s with
  | EmptyString, _ => Some s
  | String a p', String b s' => if Ascii.eqb a b then strip p' s' else None
  | String _ _, EmptyString => None
  end.

Definition literal (p : string) (v : value) (s : string) : option (value * string) :=
  match strip p s with
  | Some rest => Some (v, rest)
  | None => None
  end.

(** The escapes of a string: [\uXXXX] gives the UTF-8 text of the code
    unit (a surrogate is outside the model), the others one character. *)
Definition hex_value (c : ascii) : option N :=
  let n := N_of_ascii c in
  if ((48 <=? n) && (n <=? 57))%N then Some (n - 48)%N
  else if ((97 <=? n) && (n <=? 102))%N then Some (n - 87)%N
  else if ((65 <=? n) && (n <=? 70))%N then Some (n - 55)%N
  else None.

Definition code_unit (a b c d : ascii) : option N :=
  match hex_value a, hex_value b, hex_value c, hex_value d with
  | Some x, Some y, Some z, Some w => Some (((x * 16 + y) * 16 + z) * 16 + w)%N
  | _, _, _, _ => None
  end.

Definition utf8 (n : N) : option string :=
  if (n <? 128)%N then Some (String (ascii_of_N n) EmptyString)
  else if (n <? 2048)%N then
    Some (String (ascii_of_N (192 + n / 64))
            (String (ascii_of_N (128 + n mod 64)) EmptyString))
  else if ((55296 <=? n) && (n <=? 57343))%N then None
  else
    Some (String (ascii_of_N (224 + n / 4096))
            (String (ascii_of_N (128 + (n / 64) mod 64))
               (String (ascii_of_N (128 + n mod 64)) EmptyString))).

Definition unescape (c : ascii) : option ascii :=
  if Ascii.eqb c quote then Some quote
  else if Ascii.eqb c backslash then Some backslash
  else if Ascii.eqb c "/" then Some "/"%char
  else if Ascii.eqb c "b" then Some BS
  else if Ascii.eqb c "f" then Some FF
  else if Ascii.eqb c "n" then Some LF
  else if Ascii.eqb c "r" then Some CR
  else if Ascii.eqb c "t" then Some TAB
  else None.

Definition prepend (p : string) (r : option (string * string))
    : option (string * string) :=
  match r with
  | Some (s, rest) => Some ((p ++ s)%string, rest)
  | None => None
  end.

(** The characters of a string after its opening quote, up to the
    closing quote; a control character below 32 is a syntax error. *)
Fixpoint parse_chars (s : string) : option (string * string) :=
  match s with
  | EmptyString => None
  | String c s1 =>
      if Ascii.eqb c quote then Some (EmptyString, s1)
      else if Ascii.eqb c backslash then
        match s1 with
        | EmptyString => None
        | String e s2 =>
            if Ascii.eqb e "u" then
              match s2 with
              | String h1 (String h2 (String h3 (String h4 s3))) =>
                  match code_unit h1 h2 h3 h4 with
                  | Some n =>
                      match utf8 n with
                      | Some bytes => prepend bytes (parse_chars s3)
                      | None => None
                      end
                  | None => None
                  end
              | _ => None
              end
            else
              match unescape e with
              | Some x => prepend (String x EmptyString) (parse_chars s2)
              | None => None
              end
        end
      else if (N_of_ascii c <? 32)%N then None
      else prepend (String c EmptyString) (parse_chars s1)
  end.

Definition is_digit (c : ascii) : bool :=
  ((48 <=? N_of_ascii c) && (N_of_ascii c <=? 57))%N.

Fixpoint span_digits (s : string) : string * string :=
  match s with
  | String c s' =>
      if is_digit c
      then let (ds, rest) := span_digits s' in (String c ds, rest)
      else (EmptyString, s)
  | EmptyString => (EmptyString, EmptyString)
  end.

Definition continues_number (rest : string) : bool :=
  match rest with
  | String c _ => Ascii.eqb c "." || Ascii.eqb c "e" || Ascii.eqb c "E"
  | EmptyString => false
  end.

(** The double nearest to an integer, which from 2^1024 - 2^970 on is an
    infinity. *)
Definition number_of_Z (n : Z) : number :=
  if (Z.abs n <? 2 ^ 1024 - 2 ^ 970)%Z then Finite (Double.to_double n)
  else if (n <? 0)%Z then NegInfinity else Infinity.

(** The digits of a number: no zero before another digit.  A fraction or
    an exponent is outside the model and reads as no value. *)
Definition parse_unsigned (s : string) : option (Z * string) :=
  let (ds, rest) := span_digits s in
  match ds with
  | EmptyString => None
  | String d more =>
      if Ascii.eqb d "0" && negb (String.eqb more EmptyString) then None
      else if continues_number rest then None
      else match DecimalString.NilEmpty.uint_of_string ds with
           | Some u => Some (Z.of_uint u, rest)
           | None => None
           end
  end.

Definition parse_number (s : string) : option (value * string) :=
  match s with
  | EmptyString => None
  | String c s' =>
      if Ascii.eqb c "-" then
        match parse_unsigned s' with
        | Some (n, rest) => Some (Num (number_of_Z (- n)), rest)
        | None => None
        end
      else
        match parse_unsigned s with
        | Some (n, rest) => Some (Num (number_of_Z n), rest)
        | None => None
        end
  end.

(** A value, the items of an array after its bracket and the members of
    an object after its brace, each at the first character that is no
    white space.  The last of two members with one key is the one kept. *)
Fixpoint parse_value (fuel : nat) (s : string) {struct fuel}
    : option (value * string) :=
  match fuel with
  | O => None
  | S fuel' =>
      match s with
      | EmptyString => None
      | String c s1 =>
          if Ascii.eqb c "n" then literal "ull" Null s1
          else if Ascii.eqb c "t" then literal "rue" (Bool true) s1
          else if Ascii.eqb c "f" then literal "alse" (Bool false) s1
          else if Ascii.eqb c quote then
            match parse_chars s1 with
            | Some (str, rest) => Some (Str str, rest)
            | None => None
            end
          else if Ascii.eqb c "[" then
            match skip_ws s1 with
            | EmptyString => None
            | String c2 s2 =>
                if Ascii.eqb c2 "]" then Some (Arr [], s2)
                else
                  match parse_items fuel' (String c2 s2) with
                  | Some (l, rest) => Some (Arr l, rest)
                  | None => None
                  end
            end
          else if Ascii.eqb c "{" then
            match skip_ws s1 with
            | EmptyString => None
            | String c2 s2 =>
                if Ascii.eqb c2 "}" then Some (Obj [], s2)
                else
                  match parse_members fuel' (String c2 s2) with
                  | Some (m, rest) =>
                      Some (Obj (fold_left (fun o kv => define (fst kv) (snd kv) o)
                                           m []), rest)
                  | None => None
                  end
            end
          else parse_number s
      end
  end
with parse_items (fuel : nat) (s : string) {struct fuel}
    : option (list value * string) :=
  match fuel with
  | O => None
  | S fuel' =>
      match parse_value fuel' s with
      | None => None
      | Some (v, rest) =>
          match skip_ws rest with
          | EmptyString => None
          | String c s1 =>
              if Ascii.eqb c "]" then Some ([v], s1)
              else if Ascii.eqb c "," then
                match parse_items fuel' (skip_ws s1) with
                | Some (l, rest') => Some (v :: l, rest')
                | None => None
                end
              else None
          end
      end
  end
with parse_members (fuel : nat) (s : string) {struct fuel}
    : option (list (string * value) * string) :=
  match fuel with
  | O => None
  | S fuel' =>
      match s with
      | EmptyString => None
      | String c s1 =>
          if Ascii.eqb c quote then
            match parse_chars s1 with
            | None => None
            | Some (k, rest) =>
                match skip_ws rest with
                | EmptyString => None
                | String c2 s2 =>
                    if Ascii.eqb c2 ":" then
                      match parse_value fuel' (skip_ws s2) with
                      | None => None
                      | Some (v, rest2) =>
                          match skip_ws rest2 with
                          | EmptyString => None
                          | String c3 s3 =>
                              if Ascii.eqb c3 "}" then Some ([(k, v)], s3)
                              else if Ascii.eqb c3 "," then
                                match parse_members fuel' (skip_ws s3) with
                                | Some (m, r) => Some ((k, v) :: m, r)
                                | None => None
                                end
                              else None
                          end
                      end
                    else None
                end
            end
          else None
      end
  end.

(** The whole text is one value; its length is fuel enough. *)
Definition parse (text : string) : option value :=
  match parse_value (String.length text) (skip_ws text) with
  | Some (v, rest) =>
      match skip_ws rest with
      | EmptyString => Some v
      | String _ _ => None
      end
  | None => None
  end.

(** *** The values of the model *)

(** An integer that a double holds and [Number::toString] writes with its
    digits alone (from 10^21 on it writes an exponent). *)
Definition representable (z : Z) : bool :=
  (Double.to_double z =? z)%Z && (Z.abs z <? 10 ^ 21)%Z.

(** An array index as a property key: JavaScript lists such keys first,
    in ascending order. *)
Definition is_index (k : string) : bool :=
  match span_digits k with
  | (String d more, EmptyString) =>
      (negb (Ascii.eqb d "0") || String.eqb more EmptyString)
      && match DecimalString.NilEmpty.uint_of_string k with
         | Some u => (N.of_uint u <? 4294967295)%N
         | None => false
         end
  | _ => false
  end.

(** The values that stand for a JavaScript value of the model: their
    finite numbers are [representable], and the keys of each object are
    distinct and no array indices. *)
Fixpoint distinct (ks : list string) : bool :=
  match ks with
  | [] => true
  | k :: ks' => negb (existsb (String.eqb k) ks') && distinct ks'
  end.

Fixpoint proper (v : value) : bool :=
  match v with
  | Num (Finite z) => representable z
  | Arr l => forallb proper l
  | Obj m =>
      distinct (map fst m)
      && forallb (fun kv => negb (is_index (fst kv))) m
      && forallb (fun kv => match kv with (_, x) => proper x end) m
  | _ => true
  end.

(** The values that hold no number that is not finite. *)
Fixpoint finite (v : value) : bool :=
  match v with
  | Num (Finite _) => true
  | Num _ => false
  | Arr l => forallb finite l
  | Obj m => forallb (fun kv => match kv with (_, x) => finite x end) m
  | _ => true
  end.

End Json.

(** ** The persistence gateway on the text of the file *)

(** The variables [db], [stories], [users] and [comments] as JavaScript
    values, and the text of [data.json] ([None] when the file does not
    exist).  A variable is [None] when it holds [undefined], as after
    [let { stories, users, comments } = db] on a document that lacks the
    property.  [db] is read by [saveDB] alone, after its three properties
    have been assigned, so what it shares with the variables makes no
    difference.  The records of [FileBacked] are the values that [story],
    [user] and [comment] give them. *)
Module Gateway.

Record store := mk_store
  { db : Json.value;
    stories : option Json.value;
    users : option Json.value;
    comments : option Json.value;
    data_json : option string }.


Definition story (s : Story.t) : Json.value :=
  Json.Obj [("id", Json.Str (Story.id s));
            ("title", Json.Str (Story.title s));
            ("body", Json.Str (Story.body s));
            ("authorId", Json.Str (Story.authorId s));
            ("genre", Json.Str (Story.genre s));
            ("likes", Json.Num (Json.Finite (Story.likes s)));
            ("createdAt", Json.Str (Story.createdAt s))].

Definition optional (k : string) (v : option string)
    : list (string * Json.value) :=
  match v with
  | Some x => [(k, Json.Str x)]
  | None => []
  end.

Definition user (u : User.t) : Json.value :=
  Json.Obj ([("id", Json.Str (User.id u)); ("name", Json.Str (User.name u))]
            ++ optional "email" (User.email u)
            ++ [("bio", Json.Str (User.bio u))]
            ++ optional "avatarUrl" (User.avatarUrl u)).

Definition comment (c : Comment.t) : Json.value :=
  Json.Obj [("id", Json.Str (Comment.id c));
            ("storyId", Json.Str (Comment.storyId c));
            ("authorId", Json.Str (Comment.authorId c));
            ("text", Json.Str (Comment.text c));
            ("createdAt", Json.Str (Comment.createdAt c))].

Definition document (d : FileBacked.document) : Json.value :=
  Json.Obj [("stories", Json.Arr (map story (FileBacked.doc_stories d)));
            ("users", Json.Arr (map user (FileBacked.doc_users d)));
            ("comments", Json.Arr (map comment (FileBacked.doc_comments d)))].


(** [fs.writeJson(DATA_FILE, db, { spaces: 2 })] *)
Definition writeJson (v : Json.value) : string :=
  (Json.write 0 v ++ String Json.LF EmptyString)%string.

(** The byte order mark, which [readJsonSync] drops. *)
Definition BOM : string :=
  String (ascii_of_nat 239) (String (ascii_of_nat 187)
    (String (ascii_of_nat 191) EmptyString)).

Definition stripBom (text : string) : string :=
  match Json.strip BOM text with
  | Some rest => rest
  | None => text
  end.

(** [fs.readJsonSync(DATA_FILE, { throws: false })] *)
Definition readJsonSync (file : option string) : Json.value :=
  match file with
  | Some text =>
      match Json.parse (stripBom text) with
      | Some v => v
      | None => Json.Null
      end
  | None => Json.Null
  end.

(** [let db = fs.readJsonSync(...) || { ...seed }] and
    [let { stories, users, comments } = db]. *)
Definition boot (file : option string) (start : string) : store :=
  let read := readJsonSync file in
  let db := if Json.truthy read then read else document (FileBacked.seed start) in
  mk_store db (Json.get "stories" db) (Json.get "users" db)
           (Json.get "comments" db) file.

(** [db.k = x], as far as [writeJson] sees it: a property that holds
    [undefined] is not written, and neither is a named property of an
    array; on a number, a string or a boolean the assignment does
    nothing. *)
Definition assign (k : string) (x : option Json.value) (db : Json.value)
    : Json.value :=
  match db with
  | Json.Obj m =>
      match x with
      | Some v => Json.Obj (Json.define k v m)
      | None => Json.Obj (filter (fun kv => negb (String.eqb (fst kv) k)) m)
      end
  | _ => db
  end.

(** [saveDB] *)
Definition saveDB (st : store) : store :=
  let db' := assign "comments" (comments st)
               (assign "users" (users st)
                  (assign "stories" (stories st) (db st))) in
  mk_store db' (stories st) (users st) (comments st) (Some (writeJson db')).

End Gateway.

(** ** The operations as the specification words them *)

Module Spec.

(** The first at most [n] stories of [l] that satisfy [p], in the order of [l]. *)
Fixpoint first_matching (n : nat) (p : Story.t -> bool) (l : list Story.t)
  : list Story.t :=
  match l with
  | [] => []
  | s :: l' =>
      match n with
      | O => []
      | S n' => if p s then s :: first_matching n' p l' else first_matching n p l'
      end
  end.

(** [recommend]: nothing for an empty history; otherwise the last record of
    the history is resolved against the stories, nothing is recommended when
    no story has its [viewedStoryId], and otherwise the first at most three
    stories of the viewed story's genre, the viewed story left out. *)
Definition recommend (stories : list Story.t) (history : list Activity.t)
  : list Story.t :=
  match history with
  | [] => []
  | a :: history' =>
      let lastRecord := last history' a in
      match find (story_has_id (Activity.viewedStoryId lastRecord)) stories with
      | None => []
      | Some viewed =>
          first_matching 3
            (fun s => String.eqb (Story.genre s) (Story.genre viewed)
                      && negb (String.eqb (Story.id s) (Story.id viewed)))
            stories
      end
  end.

(** A field of a patch applied to a stored value. *)
Definition patched_field {A : Type} (v : option A) (old : A) : A :=
  match v with
  | Some x => x
  | None => old
  end.

(** [updateStory]: the fields present in the patch among title, body, genre
    and likes are applied, the others keep the stored value. *)
Definition patched (p : story_patch) (old new : Story.t) : Prop :=
  Story.title new = patched_field (p_title p) (Story.title old) /\
  Story.body new = patched_field (p_body p) (Story.body old) /\
  Story.genre new = patched_field (p_genre p) (Story.genre old) /\
  Story.likes new = patched_field (p_likes p) (Story.likes old) /\
  Story.id new = Story.id old /\
  Story.authorId new = Story.authorId old /\
  Story.createdAt new = Story.createdAt old.

(** The same with [likes] left as stored, whatever the patch holds. *)
Definition patched_but_likes (p : story_patch) (old new : Story.t) : Prop :=
  Story.title new = patched_field (p_title p) (Story.title old) /\
  Story.body new = patched_field (p_body p) (Story.body old) /\
  Story.genre new = patched_field (p_genre p) (Story.genre old) /\
  Story.likes new = Story.likes old /\
  Story.id new = Story.id old /\
  Story.authorId new = Story.authorId old /\
  Story.createdAt new = Story.createdAt old.

(** The input of a story creation is valid: title, body and authorId are
    present and not empty. *)
Definition valid_story_body (b : story_body) : Prop :=
  truthy (b_title b) = true /\ truthy (b_body b) = true
  /\ truthy (b_authorId b) = true.

(** Every [likes] counter of the store is a non-negative integer. *)
Definition likes_nonneg (stories : list Story.t) : Prop :=
  Forall (fun s => (0 <= Story.likes s)%Z) stories.

(** The document on disk reflects the collections in memory. *)
Definition flushed (st : FileBacked.state) : Prop :=
  FileBacked.data_file st
  = Some (FileBacked.mk_document (FileBacked.stories st) (FileBacked.users st)
                                 (FileBacked.comments st)).

(** An update whose patch holds likes holds a non-negative integer. *)
Definition likes_patch_nonneg (r : FileBacked.request) : Prop :=
  match r with
  | FileBacked.UpdateStory _ p =>
      match p_likes p with
      | Some n => (0 <= n)%Z
      | None => True
      end
  | _ => True
  end.

(** Every comment names a story of the store. *)
Definition no_orphans (st : FileBacked.state) : Prop :=
  forall c, In c (FileBacked.comments st) ->
            In (Comment.storyId c) (map Story.id (FileBacked.stories st)).

(** The response is a ValidationError or a NotFound. *)
Definition refused {P : Type} (r : response P) : Prop :=
  status_of r = 400%nat \/ status_of r = 404%nat.

(** The requests that assign to the collections when they succeed. *)
Definition mutation (r : FileBacked.request) : bool :=
  match r with
  | FileBacked.CreateStory _ | FileBacked.UpdateStory _ _
  | FileBacked.DeleteStory _ | FileBacked.LikeStory _
  | FileBacked.CreateComment _ _ | FileBacked.DeleteComment _
  | FileBacked.CreateUser _ => true
  | _ => false
  end.

End Spec.

(** ** Sample data *)

Module Sample.

Definition start : string := "2025-01-01T00:00:00.000Z".
Definition e1 : env := mk_env "7c9e6679-7425-40de-944b-e07fc1f90ae7" "2025-01-02T10:00:00.000Z".

Definition fantasy2 : Story.t :=
  Story.mk "s2" "Dragons" "A dragon slept." "u1" "Fantasy" 0 start.
Definition horror : Story.t :=
  Story.mk "s3" "The Cellar" "Do not go down." "u1" "Horror" 1 start.
Definition c1 : Comment.t :=
  Comment.mk "c1" "s1" "u1" "Lovely" start.

(** A document whose comment [c9] names a story that the document lacks. *)
Definition c9 : Comment.t :=
  Comment.mk "c9" "s9" "u1" "Where did it go?" start.
Definition orphan_document : FileBacked.document :=
  FileBacked.mk_document [seed_story start] [seed_user] [c9].

Definition library : FileBacked.state :=
  FileBacked.mk_state [fantasy2; horror; seed_story start] [seed_user] [c1]
                      None None.

Definition library_in_memory : InMemory.state :=
  InMemory.mk_state [fantasy2; horror; seed_story start] [seed_user] [c1].

Definition a_story : story_body :=
  mk_story_body (Some "T") (Some "B") (Some "u1") None.
Definition ghost_story : story_body :=
  mk_story_body (Some "T") (Some "B") (Some "ghost") None.
Definition likes_only (n : Z) : story_patch :=
  mk_story_patch None None None (Some n).
Definition retitle : story_patch :=
  mk_story_patch (Some "Wyverns") None None (Some 5%Z).
Definition no_fields : comment_body := mk_comment_body None None.

End Sample.

(** ** Text in the ASCII range *)

(** On text whose characters are all below 128, [Text.toLowerCase] and
    [Text.trim] are the functions of JavaScript; beyond it JavaScript also
    lowers and trims characters that the model leaves alone. *)
Module Charset.

Fixpoint is_ascii (s : string) : bool :=
  match s with
  | EmptyString => true
  | String c s' => (nat_of_ascii c <? 128)%nat && is_ascii s'
  end.

Definition ascii_story (s : Story.t) : Prop :=
  is_ascii (Story.title s) = true /\ is_ascii (Story.body s) = true.

End Charset.

(** ** A store that holds the id that the generator gives next *)

Module Collision.

(** A story of [data.json] with the id that [uuidv4()] returns in
    [Sample.e1]. *)
Definition stored : Story.t :=
  Story.mk (uuidv4 Sample.e1) "Old" "An older story." "u1" "Fantasy" 2
           Sample.start.

Definition document : FileBacked.document :=
  FileBacked.mk_document [stored] [seed_user] [].

Definition store : FileBacked.state :=
  FileBacked.init (Some document) None Sample.start.

End Collision.

(** The seed store after [PUT /api/stories/s1] with the body
    [{ "likes": 1e999 }]: [JSON.parse] reads the number as [Infinity], and
    the handler assigns it to the story. *)
Module Overflow.

Definition story (likes : Json.value) : Json.value :=
  Json.Obj [("id", Json.Str "s1");
            ("title", Json.Str "A Moonlit Night");
            ("body", Json.Str "Once upon a moonlit night...");
            ("authorId", Json.Str "u1");
            ("genre", Json.Str "Fantasy");
            ("likes", likes);
            ("createdAt", Json.Str Sample.start)].

Definition store : Gateway.store :=
  let st := Gateway.boot None Sample.start in
  Gateway.mk_store
    (Gateway.assign "stories" (Some (Json.Arr [story (Json.Num Json.Infinity)]))
                    (Gateway.db st))
    (Some (Json.Arr [story (Json.Num Json.Infinity)]))
    (Gateway.users st) (Gateway.comments st) None.

End Overflow.

(** ** The activity log as a run of the server writes it *)

Module Log.

(** The record that [POST /api/userActivity] appends for a request, when it
    accepts the request. *)
Definition accepted_activity (e : env) (r : FileBacked.request)
  : option Activity.t :=
  match r with
  | FileBacked.RecordActivity b =>
      if negb (truthy (ab_userId b)) || negb (truthy (ab_viewedStoryId b))
      then None
      else Some (Activity.mk (or_empty (ab_userId b))
                             (or_empty (ab_viewedStoryId b)) (now e))
  | _ => None
  end.

(** The records that a run appends, in the order of the requests. *)
Fixpoint recorded (rs : list (env * FileBacked.request)) : list Activity.t :=
  match rs with
  | [] => []
  | (e, r) :: rs' =>
      match accepted_activity e r with
      | Some a => a :: recorded rs'
      | None => recorded rs'
      end
  end.

(** The text of a file in which each line is followed by a line feed. *)
Fixpoint log_text (lines : list string) : string :=
  match lines with
  | [] => EmptyString
  | line :: rest => line ++ String Text.LF (log_text rest)
  end.

Definition starts_clean (s : string) : bool :=
  match s with
  | EmptyString => false
  | String c _ => negb (Text.is_space c)
  end.

(** A line as [JSON.stringify] writes an object: it begins and ends with a
    character that is no white space, and holds no line feed. *)
Definition clean_line (s : string) : Prop :=
  starts_clean s = true /\ Text.trimEnd s = s /\ Text.split Text.LF s = [s].

(** The codec writes the record as a clean line and reads it back. *)
Definition faithful {json : JsonLines} (a : Activity.t) : Prop :=
  JSON_parse (JSON_stringify a) = Some a /\ clean_line (JSON_stringify a).

End Log.

(** ** The file-backed server seen as the in-memory server *)

Module Erase.

(** The three collections of the file-backed server. *)
Definition memory (st : FileBacked.state) : InMemory.state :=
  InMemory.mk_state (FileBacked.stories st) (FileBacked.users st)
                    (FileBacked.comments st).

(** A payload without its author names; the payloads of the routes that
    the in-memory server lacks have no counterpart. *)
Definition bare (p : FileBacked.payload) : option InMemory.payload :=
  match p with
  | FileBacked.Empty => Some InMemory.Empty
  | FileBacked.StoryList data total =>
      Some (InMemory.StoryList (map FileBacked.sv_story data) total)
  | FileBacked.StoryDetail s cs =>
      Some (InMemory.StoryDetail (FileBacked.sv_story s)
                                 (map FileBacked.cv_comment cs))
  | FileBacked.OneStory s => Some (InMemory.OneStory (FileBacked.sv_story s))
  | FileBacked.CommentList cs =>
      Some (InMemory.CommentList (map FileBacked.cv_comment cs))
  | FileBacked.OneComment c => Some (InMemory.OneComment (FileBacked.cv_comment c))
  | FileBacked.OneUser u => Some (InMemory.OneUser u)
  | FileBacked.Message _ => None
  | FileBacked.Recommendations _ => None
  end.

Definition bare_response (r : response FileBacked.payload)
  : option (response InMemory.payload) :=
  match r with
  | Reply status p =>
      match bare p with
      | Some p' => Some (Reply status p')
      | None => None
      end
  | Fail status msg => Some (Fail status msg)
  end.

(** The routes that both servers have. *)
Definition shared (r : FileBacked.request) : option InMemory.request :=
  match r with
  | FileBacked.ListStories q => Some (InMemory.ListStories q)
  | FileBacked.GetStory i => Some (InMemory.GetStory i)
  | FileBacked.CreateStory b => Some (InMemory.CreateStory b)
  | FileBacked.UpdateStory i p => Some (InMemory.UpdateStory i p)
  | FileBacked.DeleteStory i => Some (InMemory.DeleteStory i)
  | FileBacked.ListComments i => Some (InMemory.ListComments i)
  | FileBacked.CreateComment i b => Some (InMemory.CreateComment i b)
  | FileBacked.DeleteComment i => Some (InMemory.DeleteComment i)
  | FileBacked.GetUser i => Some (InMemory.GetUser i)
  | FileBacked.CreateUser b => Some (InMemory.CreateUser b)
  | _ => None
  end.

End Erase.

(** * Properties *)

(** ** Facts about the doubles that hold integers *)

Lemma to_double_exact (z : Z) : Double.exact z -> Double.to_double z = z.
Proof.
  unfold Double.exact, Double.to_double.
  change (2 ^ 53)%Z with 9007199254740992%Z. intros Hz.
  destruct (Z.ltb_spec (Z.abs z) 9007199254740992) as [H|H]; [reflexivity|].
  assert (z = 9007199254740992 \/ z = - 9007199254740992)%Z as [-> | ->] by lia;
    reflexivity.
Qed.

Lemma to_double_nonneg (z : Z) : (0 <= z -> 0 <= Double.to_double z)%Z.
Proof.
  intros Hz. unfold Double.to_double.
  destruct (Z.abs z <? 2 ^ 53)%Z; [exact Hz|]. cbv zeta.
  apply Z.mul_nonneg_nonneg; [now apply Z.sgn_nonneg|].
  apply Z.shiftl_nonneg.
  assert (0 <= Z.shiftr (Z.abs z) (Z.log2 (Z.abs z) - 52))%Z as Hq
    by (apply Z.shiftr_nonneg, Z.abs_nonneg).
  repeat match goal with |- context [if ?c then _ else _] => destruct c end; lia.
Qed.

(** Below 2^53 a counter is raised by exactly one. *)
Lemma add1_exact (n : Z) : (- 2 ^ 53 <= n < 2 ^ 53)%Z -> Double.add1 n = (n + 1)%Z.
Proof.
  intros Hn. apply to_double_exact. unfold Double.exact. lia.
Qed.

Lemma add1_nonneg (n : Z) : (0 <= n -> 0 <= Double.add1 n)%Z.
Proof. intros Hn. apply to_double_nonneg. lia. Qed.

(** At 2^53 the sum is rounded: the counter stays, or moves by two. *)
Lemma add1_rounds :
  Double.add1 (2 ^ 53) = (2 ^ 53)%Z
  /\ Double.add1 (2 ^ 53 + 2) = (2 ^ 53 + 4)%Z
  /\ Double.add1 (2 ^ 54) = (2 ^ 54)%Z
  /\ Double.add1 (- 2 ^ 53 - 2) = (- 2 ^ 53)%Z.
Proof. repeat split; vm_compute; reflexivity. Qed.

(** ** Facts about the array functions *)

Section ArrayFacts.

Context {A : Type}.
Implicit Types (p : A -> bool) (l : list A).

Lemma filter_keeps_all p l :
  (forall x, In x l -> p x = true) -> filter p l = l.
Proof.
  induction l as [|x l IH]; intros H; simpl; [reflexivity|].
  rewrite (H x (or_introl eq_refl)). f_equal. apply IH.
  intros y Hy. apply H. now right.
Qed.

Lemma filter_same_length p l :
  length (filter p l) = length l -> forall x, In x l -> p x = true.
Proof.
  induction l as [|y l IH]; simpl; intros Hlen x Hx; [contradiction|].
  pose proof (filter_length_le p l) as Hle.
  destruct (p y) eqn:Hy; simpl in Hlen.
  - destruct Hx as [<-|Hx]; [assumption|]. apply IH; [lia|assumption].
  - lia.
Qed.

Lemma filter_same_length_eq p l :
  length (filter p l) = length l -> filter p l = l.
Proof.
  intros H. apply filter_keeps_all, filter_same_length, H.
Qed.

Lemma filter_shorter p l x :
  In x l -> p x = false -> length (filter p l) <> length l.
Proof.
  intros Hx Hp Hlen.
  rewrite (filter_same_length p l Hlen x Hx) in Hp. discriminate.
Qed.

Lemma findIndex_None p l :
  findIndex p l = None <-> (forall x, In x l -> p x = false).
Proof.
  induction l as [|y l IH]; simpl.
  - split; [intros _ x []|reflexivity].
  - destruct (p y) eqn:Hy.
    + split; [discriminate|]. intros H.
      rewrite (H y (or_introl eq_refl)) in Hy. discriminate.
    + destruct (findIndex p l) as [i|].
      * split; [discriminate|]. intros H.
        assert (Some i = None) as Hi; [|discriminate].
        apply IH. intros x Hx. apply H. now right.
      * split; [|reflexivity]. intros _ x [<-|Hx]; [assumption|].
        now apply IH.
Qed.

Lemma findIndex_Some p l idx :
  findIndex p l = Some idx ->
  exists x, nth_error l idx = Some x /\ p x = true.
Proof.
  revert idx. induction l as [|y l IH]; simpl; intros idx H; [discriminate|].
  destruct (p y) eqn:Hy.
  - injection H as <-. exists y. now split.
  - destruct (findIndex p l) as [i|]; [|discriminate].
    injection H as <-. apply (IH i eq_refl).
Qed.

(** [find] gives the element at the index that [findIndex] gives. *)
Lemma find_findIndex p l :
  find p l = match findIndex p l with
             | Some idx => nth_error l idx
             | None => None
             end.
Proof.
  induction l as [|y l IH]; simpl; [reflexivity|].
  destruct (p y); [reflexivity|].
  rewrite IH. now destruct (findIndex p l).
Qed.

Lemma update_nth_length idx (f : A -> A) l :
  length (update_nth idx f l) = length l.
Proof.
  revert idx. induction l as [|y l IH]; intros [|i]; simpl; auto.
Qed.

Lemma nth_error_update_nth idx (f : A -> A) l x :
  nth_error l idx = Some x ->
  nth_error (update_nth idx f l) idx = Some (f x).
Proof.
  revert idx. induction l as [|y l IH]; intros [|i]; simpl; try discriminate.
  - now intros [= ->].
  - apply IH.
Qed.

Lemma nth_error_update_nth_other idx (f : A -> A) l j :
  j <> idx -> nth_error (update_nth idx f l) j = nth_error l j.
Proof.
  revert idx j. induction l as [|y l IH]; intros [|i] [|j] H; simpl;
    try reflexivity; try congruence.
  apply IH. congruence.
Qed.

Lemma last_cons_default (z d d' : A) l : last (z :: l) d = last (z :: l) d'.
Proof.
  revert z. induction l as [|y l IH]; intros z; [reflexivity|].
  change (last (y :: l) d = last (y :: l) d'). apply IH.
Qed.

(** The last element is the one at index [length - 1]. *)
Lemma nth_error_last (a : A) l :
  nth_error (a :: l) (length (a :: l) - 1) = Some (last l a).
Proof.
  simpl. rewrite Nat.sub_0_r.
  revert a. induction l as [|y l IH]; intros a; [reflexivity|].
  change (nth_error (y :: l) (length l) = Some (last (y :: l) a)).
  rewrite IH. destruct l as [|z l]; [reflexivity|].
  f_equal. exact (last_cons_default z y a l).
Qed.

End ArrayFacts.

Lemma firstn_filter (n : nat) (p : Story.t -> bool) (l : list Story.t) :
  firstn n (filter p l) = Spec.first_matching n p l.
Proof.
  revert n. induction l as [|s l IH]; intros n.
  - now destruct n.
  - destruct n as [|n]; [reflexivity|].
    cbn [filter Spec.first_matching]. destruct (p s).
    + cbn [firstn]. f_equal. apply IH.
    + apply IH.
Qed.

Lemma find_story_absent (i : string) (l : list Story.t) :
  find (story_has_id i) l = None <-> ~ In i (map Story.id l).
Proof.
  unfold story_has_id. induction l as [|s l IH]; simpl.
  - tauto.
  - destruct (String.eqb_spec (Story.id s) i) as [E|E].
    + split; [discriminate|]. intros H. exfalso. apply H. now left.
    + rewrite IH. tauto.
Qed.

Lemma find_story_present (i : string) (l : list Story.t) :
  In i (map Story.id l) ->
  exists s, find (story_has_id i) l = Some s /\ Story.id s = i /\ In s l.
Proof.
  intros Hin. destruct (find (story_has_id i) l) as [s|] eqn:E.
  - exists s. apply find_some in E as [Hs He]. unfold story_has_id in He.
    apply String.eqb_eq in He. auto.
  - apply find_story_absent in E. contradiction.
Qed.

Lemma findIndex_story_absent (i : string) (l : list Story.t) :
  findIndex (story_has_id i) l = None <-> ~ In i (map Story.id l).
Proof.
  rewrite <- find_story_absent, find_findIndex.
  destruct (findIndex (story_has_id i) l) as [idx|] eqn:E; [|tauto].
  apply findIndex_Some in E as (x & -> & _). split; discriminate.
Qed.

(** ** The persistence gateway *)

Lemma append_assoc (a b c : string) :
  ((a ++ b) ++ c)%string = (a ++ (b ++ c))%string.
Proof. induction a as [|x a IH]; [reflexivity|]. cbn. now rewrite IH. Qed.

Lemma length_append (a b : string) :
  String.length (a ++ b) = String.length a + String.length b.
Proof. induction a as [|x a IH]; [reflexivity|]. cbn. now rewrite IH. Qed.

(** ** The JSON text of [data.json] *)

Lemma value_induction (P : Json.value -> Prop) :
  P Json.Null ->
  (forall b, P (Json.Bool b)) ->
  (forall n, P (Json.Num n)) ->
  (forall s, P (Json.Str s)) ->
  (forall l, Forall P l -> P (Json.Arr l)) ->
  (forall m, Forall (fun kv => P (snd kv)) m -> P (Json.Obj m)) ->
  forall v, P v.
Proof.
  intros HNull HBool HNum HStr HArr HObj. fix IH 1.
  intros [|b|n|s|l|m].
  - exact HNull.
  - apply HBool.
  - apply HNum.
  - apply HStr.
  - apply HArr. induction l as [|x l IHl]; constructor; [apply IH|exact IHl].
  - apply HObj. induction m as [|[k x] m IHm]; constructor; [apply IH|exact IHm].
Qed.

Lemma parse_chars_escape_char (c : ascii) (t : string) :
  Json.parse_chars (Json.escape_char c ++ t)
  = Json.prepend (String c EmptyString) (Json.parse_chars t).
Proof.
  destruct c as [[] [] [] [] [] [] [] []]; reflexivity.
Qed.

Lemma parse_chars_escape (s rest : string) :
  Json.parse_chars (Json.escape s ++ String Json.quote rest) = Some (s, rest).
Proof.
  induction s as [|c s IH]; [reflexivity|].
  cbn [Json.escape]. rewrite append_assoc, parse_chars_escape_char, IH.
  reflexivity.
Qed.

(** Numbers. *)

Lemma digit_opens (d : ascii) :
  Json.is_digit d = true \/ d = "-"%char ->
  Json.is_ws d = false /\ Ascii.eqb d "]" = false /\ Ascii.eqb d "}" = false
  /\ forall fuel t,
      Json.parse_value (S fuel) (String d t) = Json.parse_number (String d t).
Proof.
  intros Hd.
  destruct d as [[] [] [] [] [] [] [] []];
    try (destruct Hd as [Hd|Hd]; discriminate Hd);
    repeat split; reflexivity.
Qed.

Lemma digit_not_minus (d : ascii) :
  Json.is_digit d = true -> Ascii.eqb d "-" = false.
Proof.
  destruct d as [[] [] [] [] [] [] [] []]; intros H;
    try discriminate H; reflexivity.
Qed.

Lemma span_digits_uint (u : Decimal.uint) (c : ascii) (r : string) :
  Json.is_digit c = false ->
  Json.span_digits (DecimalString.NilEmpty.string_of_uint u ++ String c r)
  = (DecimalString.NilEmpty.string_of_uint u, String c r).
Proof.
  intros Hc.
  induction u as [|u IH|u IH|u IH|u IH|u IH|u IH|u IH|u IH|u IH|u IH];
    cbn [DecimalString.NilEmpty.string_of_uint append Json.span_digits];
    [now rewrite Hc|..];
    change (Json.is_digit _) with true; cbv iota; now rewrite IH.
Qed.

Lemma nzhead_not_D0 (d d' : Decimal.uint) : Decimal.nzhead d <> Decimal.D0 d'.
Proof.
  induction d; cbn; try discriminate. exact IHd.
Qed.

Lemma to_uint_head (p : positive) :
  exists d more,
    DecimalString.NilEmpty.string_of_uint (Pos.to_uint p) = String d more
    /\ Json.is_digit d = true /\ Ascii.eqb d "0" = false.
Proof.
  assert (Pos.to_uint p = Decimal.unorm (Pos.to_uint p)) as Hnorm.
  { rewrite <- (DecimalPos.Unsigned.to_of (Pos.to_uint p)).
    now rewrite DecimalPos.Unsigned.of_to. }
  pose proof (DecimalPos.Unsigned.to_uint_nonzero p) as Hzero.
  pose proof (DecimalPos.Unsigned.to_uint_nonnil p) as Hnil.
  destruct (Pos.to_uint p) as [|u|u|u|u|u|u|u|u|u|u] eqn:E;
    [contradiction|
     |eexists; eexists; (split; [reflexivity|split; reflexivity])..].
  exfalso. unfold Decimal.unorm in Hnorm. cbn [Decimal.nzhead] in Hnorm.
  destruct (Decimal.nzhead u) eqn:Eh;
    try (symmetry in Hnorm; revert Hnorm; rewrite <- Eh; apply nzhead_not_D0).
  apply Hzero. exact Hnorm.
Qed.

Lemma digits_pos (p : positive) :
  Json.digits (Zpos p) = DecimalString.NilEmpty.string_of_uint (Pos.to_uint p).
Proof.
  unfold Json.digits. cbn [Z.to_int DecimalString.NilZero.string_of_int].
  pose proof (DecimalPos.Unsigned.to_uint_nonnil p) as Hnil.
  unfold DecimalString.NilZero.string_of_uint.
  now destruct (Pos.to_uint p).
Qed.

Lemma digits_neg (p : positive) :
  Json.digits (Zneg p)
  = String "-" (DecimalString.NilEmpty.string_of_uint (Pos.to_uint p)).
Proof.
  unfold Json.digits. cbn [Z.to_int DecimalString.NilZero.string_of_int].
  pose proof (DecimalPos.Unsigned.to_uint_nonnil p) as Hnil.
  unfold DecimalString.NilZero.string_of_uint.
  now destruct (Pos.to_uint p).
Qed.

Lemma ends_number (c : ascii) :
  c = ","%char \/ c = Json.LF ->
  Json.is_digit c = false
  /\ forall r, Json.continues_number (String c r) = false.
Proof.
  intros [->| ->]; split; reflexivity.
Qed.

Lemma parse_unsigned_pos (p : positive) (c : ascii) (r : string) :
  c = ","%char \/ c = Json.LF ->
  Json.parse_unsigned
    (DecimalString.NilEmpty.string_of_uint (Pos.to_uint p) ++ String c r)
  = Some (Zpos p, String c r).
Proof.
  intros Hc. destruct (ends_number c Hc) as (Hdigit & Hcont).
  unfold Json.parse_unsigned. rewrite span_digits_uint by exact Hdigit.
  destruct (to_uint_head p) as (d & more & Htext & _ & Hd).
  pose proof (DecimalString.NilEmpty.usu (Pos.to_uint p)) as Hback.
  rewrite Htext in *. rewrite Hd, Hcont, Hback. cbn [andb].
  unfold Z.of_uint. now rewrite DecimalPos.Unsigned.of_to.
Qed.

Lemma parse_number_digits (z : Z) (c : ascii) (r : string) :
  c = ","%char \/ c = Json.LF ->
  Json.parse_number (Json.digits z ++ String c r)
  = Some (Json.Num (Json.number_of_Z z), String c r).
Proof.
  intros Hc. destruct z as [|p|p].
  - destruct (ends_number c Hc) as (Hdigit & Hcont).
    change (Json.digits 0) with "0". cbn [append Json.parse_number].
    change (Ascii.eqb "0" "-") with false. cbv iota.
    unfold Json.parse_unsigned. cbn [Json.span_digits].
    change (Json.is_digit "0") with true. cbv iota.
    cbn [Json.span_digits]. rewrite Hdigit, Hcont. reflexivity.
  - rewrite digits_pos.
    destruct (to_uint_head p) as (d & more & Htext & Hd & _).
    pose proof (parse_unsigned_pos p c r Hc) as H.
    rewrite Htext in *. cbn [append Json.parse_number] in *.
    now rewrite (digit_not_minus d Hd), H.
  - rewrite digits_neg. cbn [append Json.parse_number].
    change (Ascii.eqb "-" "-") with true. cbv iota.
    now rewrite (parse_unsigned_pos p c r Hc).
Qed.

Lemma digits_head (z : Z) :
  exists d more, Json.digits z = String d more
                 /\ (Json.is_digit d = true \/ d = "-"%char).
Proof.
  destruct z as [|p|p].
  - exists "0"%char, EmptyString. split; [reflexivity|now left].
  - rewrite digits_pos. destruct (to_uint_head p) as (d & more & H & Hd & _).
    exists d, more. auto.
  - rewrite digits_neg. eexists; eexists. split; [reflexivity|now right].
Qed.

Lemma representable_number (z : Z) :
  Json.representable z = true -> Json.number_of_Z z = Json.Finite z.
Proof.
  unfold Json.representable, Json.number_of_Z. intros H.
  apply andb_true_iff in H as (Hd & Hsmall).
  apply Z.eqb_eq in Hd. apply Z.ltb_lt in Hsmall.
  assert ((Z.abs z <? 2 ^ 1024 - 2 ^ 970)%Z = true) as ->.
  { apply Z.ltb_lt. eapply Z.lt_trans; [exact Hsmall|]. reflexivity. }
  now rewrite Hd.
Qed.

(** White space and the first character of a value. *)

Lemma skip_ws_indent (n : nat) (t : string) :
  Json.skip_ws (Json.indent n ++ t) = Json.skip_ws t.
Proof.
  induction n as [|n IH]; [reflexivity|]. exact IH.
Qed.

Lemma skip_ws_newline (n : nat) (t : string) :
  Json.skip_ws (Json.newline n ++ t) = Json.skip_ws t.
Proof.
  exact (skip_ws_indent n t).
Qed.

Lemma write_opens (level : nat) (v : Json.value) :
  exists c t, Json.write level v = String c t
              /\ Json.is_ws c = false
              /\ Ascii.eqb c "]" = false /\ Ascii.eqb c "}" = false.
Proof.
  destruct v as [|[]|[z| | |]|s|[|x l]|[|[k x] m]];
    try (eexists; eexists; split; [reflexivity|repeat split; reflexivity]).
  cbn [Json.write Json.number_text].
  destruct (digits_head z) as (d & more & -> & Hd).
  destruct (digit_opens d Hd) as (H1 & H2 & H3 & _).
  exists d, more. auto.
Qed.

Lemma skip_ws_write (level : nat) (v : Json.value) (t : string) :
  Json.skip_ws (Json.write level v ++ t) = (Json.write level v ++ t)%string.
Proof.
  destruct (write_opens level v) as (c & s & -> & Hc & _).
  cbn [append Json.skip_ws]. now rewrite Hc.
Qed.

Lemma write_length (level : nat) (v : Json.value) :
  1 <= String.length (Json.write level v).
Proof.
  destruct (write_opens level v) as (c & s & -> & _). cbn. lia.
Qed.

(** Arrays and objects, line by line. *)

Lemma join_cons (sep p q : string) (ps : list string) :
  Json.join sep (p :: q :: ps) = (p ++ sep ++ Json.join sep (q :: ps))%string.
Proof. reflexivity. Qed.

Lemma parse_items_join (level closing : nat) (rest : string) (l : list Json.value) :
  Forall (fun v => forall level fuel c r,
            Json.proper v = true ->
            String.length (Json.write level v) <= fuel ->
            c = ","%char \/ c = Json.LF ->
            Json.parse_value fuel (Json.write level v ++ String c r)
            = Some (Json.as_written v, String c r)) l ->
  l <> [] ->
  forallb Json.proper l = true ->
  forall fuel,
    S (String.length (Json.join ("," ++ Json.newline level)
                                (map (Json.write level) l))) <= fuel ->
    Json.parse_items fuel
      (Json.join ("," ++ Json.newline level) (map (Json.write level) l)
       ++ Json.newline closing ++ String "]" rest)
    = Some (map Json.as_written l, rest).
Proof.
  induction 1 as [|x l Hx Hl IH]; [congruence|]. intros _ Hproper fuel Hfuel.
  cbn [forallb] in Hproper. apply andb_true_iff in Hproper as (Hpx & Hpl).
  destruct fuel as [|fuel]; [lia|].
  destruct l as [|y l'].
  - cbn [map Json.join] in *. cbn [Json.parse_items].
    change (Json.newline closing ++ String "]" rest)%string
      with (String Json.LF (Json.indent closing ++ String "]" rest)).
    rewrite (Hx level fuel Json.LF _ Hpx) by (lia || auto).
    change (String Json.LF (Json.indent closing ++ String "]" rest))
      with (Json.newline closing ++ String "]" rest)%string.
    rewrite skip_ws_newline. reflexivity.
  - cbn [map] in *. rewrite join_cons in *.
    rewrite !length_append in Hfuel.
    pose proof (write_length level x) as Hlen.
    replace ((Json.write level x
              ++ ("," ++ Json.newline level)
              ++ Json.join ("," ++ Json.newline level)
                   (Json.write level y :: map (Json.write level) l'))
             ++ Json.newline closing ++ String "]" rest)%string
      with (Json.write level x
            ++ String ","
                 (Json.newline level
                  ++ Json.join ("," ++ Json.newline level)
                       (Json.write level y :: map (Json.write level) l')
                  ++ Json.newline closing ++ String "]" rest))%string
      by (rewrite !append_assoc; reflexivity).
    cbn [Json.parse_items].
    rewrite (Hx level fuel ","%char _ Hpx) by (lia || auto).
    cbn [Json.skip_ws]. change (Json.is_ws ",") with false. cbv iota.
    change (Ascii.eqb "," "]") with false.
    change (Ascii.eqb "," ",") with true. cbv iota.
    rewrite skip_ws_newline.
    assert (Json.skip_ws
              (Json.join ("," ++ Json.newline level)
                 (Json.write level y :: map (Json.write level) l')
               ++ Json.newline closing ++ String "]" rest)
            = (Json.join ("," ++ Json.newline level)
                 (Json.write level y :: map (Json.write level) l')
               ++ Json.newline closing ++ String "]" rest)%string) as ->.
    { destruct l' as [|z l''].
      - cbn [map Json.join]. apply skip_ws_write.
      - cbn [map]. rewrite join_cons, !append_assoc. apply skip_ws_write. }
    rewrite IH; [reflexivity|discriminate|exact Hpl|].
    change (String.length ",") with 1 in Hfuel. lia.
Qed.

Lemma parse_members_join (level closing : nat) (rest : string)
    (m : list (string * Json.value)) :
  Forall (fun kv => forall level fuel c r,
            Json.proper (snd kv) = true ->
            String.length (Json.write level (snd kv)) <= fuel ->
            c = ","%char \/ c = Json.LF ->
            Json.parse_value fuel (Json.write level (snd kv) ++ String c r)
            = Some (Json.as_written (snd kv), String c r)) m ->
  m <> [] ->
  forallb (fun kv => match kv with (_, x) => Json.proper x end) m = true ->
  let line := fun kv : string * Json.value =>
                match kv with
                | (k, x) => (Json.quoted k ++ ": " ++ Json.write level x)%string
                end in
  forall fuel,
    S (String.length (Json.join ("," ++ Json.newline level) (map line m))) <= fuel ->
    Json.parse_members fuel
      (Json.join ("," ++ Json.newline level) (map line m)
       ++ Json.newline closing ++ String "}" rest)
    = Some (map (fun kv => match kv with (k, x) => (k, Json.as_written x) end) m,
            rest).
Proof.
  intros HP. induction HP as [|[k x] m Hx Hm IH]; [congruence|].
  intros _ Hproper line fuel Hfuel. cbn [snd] in Hx.
  cbn [forallb] in Hproper. apply andb_true_iff in Hproper as (Hpx & Hpm).
  destruct fuel as [|fuel]; [lia|].
  pose proof (write_length level x) as Hlen.
  assert (forall t,
            Json.parse_members (S fuel) (line (k, x) ++ t)
            = match Json.parse_value fuel (Json.write level x ++ t) with
              | None => None
              | Some (v, rest2) =>
                  match Json.skip_ws rest2 with
                  | EmptyString => None
                  | String c3 s3 =>
                      if Ascii.eqb c3 "}" then Some ([(k, v)], s3)
                      else if Ascii.eqb c3 "," then
                        match Json.parse_members fuel (Json.skip_ws s3) with
                        | Some (m, r) => Some ((k, v) :: m, r)
                        | None => None
                        end
                      else None
                  end
              end) as Hline.
  { intros t. unfold line, Json.quoted.
    cbn [append Json.parse_members].
    change (Ascii.eqb Json.quote Json.quote) with true. cbv iota.
    rewrite !append_assoc. cbn [append].
    rewrite parse_chars_escape.
    cbn [Json.skip_ws]. change (Json.is_ws ":") with false. cbv iota.
    change (Ascii.eqb ":" ":") with true. cbv iota.
    change (Json.skip_ws (String " " (Json.write level x ++ t)))
      with (Json.skip_ws (Json.write level x ++ t)).
    now rewrite skip_ws_write. }
  destruct m as [|[k' y] m'].
  - cbn [map Json.join] in *. rewrite Hline.
    change (Json.newline closing ++ String "}" rest)%string
      with (String Json.LF (Json.indent closing ++ String "}" rest)).
    rewrite (Hx level fuel Json.LF _ Hpx); [|unfold line in Hfuel|auto].
    + change (String Json.LF (Json.indent closing ++ String "}" rest))
        with (Json.newline closing ++ String "}" rest)%string.
      rewrite skip_ws_newline. reflexivity.
    + rewrite !length_append in Hfuel. lia.
  - cbn [map] in *. rewrite join_cons in *.
    rewrite !length_append in Hfuel.
    replace ((line (k, x)
              ++ ("," ++ Json.newline level)
              ++ Json.join ("," ++ Json.newline level)
                   (line (k', y) :: map line m'))
             ++ Json.newline closing ++ String "}" rest)%string
      with (line (k, x)
            ++ String ","
                 (Json.newline level
                  ++ Json.join ("," ++ Json.newline level)
                       (line (k', y) :: map line m')
                  ++ Json.newline closing ++ String "}" rest))%string
      by (rewrite !append_assoc; reflexivity).
    rewrite Hline.
    assert (String.length (line (k, x))
            = String.length (Json.quoted k) + (2 + String.length (Json.write level x)))
      as Hk by (unfold line; now rewrite !length_append).
    rewrite (Hx level fuel ","%char _ Hpx) by (lia || auto).
    cbn [Json.skip_ws]. change (Json.is_ws ",") with false. cbv iota.
    change (Ascii.eqb "," "}") with false.
    change (Ascii.eqb "," ",") with true. cbv iota.
    rewrite skip_ws_newline.
    assert (Json.skip_ws
              (Json.join ("," ++ Json.newline level)
                 (line (k', y) :: map line m')
               ++ Json.newline closing ++ String "}" rest)
            = (Json.join ("," ++ Json.newline level)
                 (line (k', y) :: map line m')
               ++ Json.newline closing ++ String "}" rest)%string) as ->.
    { assert (forall kv t, Json.skip_ws (line kv ++ t) = (line kv ++ t)%string)
        as Hopen by (intros [a b] t; reflexivity).
      destruct m' as [|z m'']; [cbn [map Json.join]|cbn [map]; rewrite join_cons];
        rewrite ?append_assoc; apply Hopen. }
    fold line in IH. rewrite IH; [reflexivity|discriminate|exact Hpm|].
    change (String.length ",") with 1 in Hfuel. change (Json.quoted k' ++ ": " ++ Json.write level y)%string with (line (k', y)).
    lia.
Qed.

(** Distinct keys are kept as they come. *)

Lemma distinct_NoDup (ks : list string) :
  Json.distinct ks = true -> NoDup ks.
Proof.
  induction ks as [|k ks IH]; [constructor|].
  cbn [Json.distinct]. intros H. apply andb_true_iff in H as (Hk & Hks).
  constructor; [|auto]. intros Hin. apply negb_true_iff in Hk.
  assert (existsb (String.eqb k) ks = true) as E; [|congruence].
  apply existsb_exists. exists k. split; [assumption|apply String.eqb_refl].
Qed.

Lemma define_fresh (k : string) (v : Json.value)
    (m : list (string * Json.value)) :
  ~ In k (map fst m) -> Json.define k v m = m ++ [(k, v)].
Proof.
  induction m as [|[k' v'] m IH]; [reflexivity|]. cbn [map fst In Json.define].
  intros H. destruct (String.eqb_spec k' k) as [->|_]; [tauto|].
  cbn [app]. f_equal. apply IH. tauto.
Qed.

Lemma fold_define (m acc : list (string * Json.value)) :
  NoDup (map fst (acc ++ m)) ->
  fold_left (fun o kv => Json.define (fst kv) (snd kv) o) m acc = acc ++ m.
Proof.
  revert acc. induction m as [|[k v] m IH]; intros acc H.
  - cbn. now rewrite app_nil_r.
  - cbn [fold_left fst snd]. rewrite define_fresh.
    + rewrite IH; rewrite <- app_assoc; [reflexivity|exact H].
    + rewrite map_app in H. cbn [map fst] in H.
      apply NoDup_remove_2 in H. intros Hin. apply H, in_or_app. now left.
Qed.

Lemma newline_length (n : nat) : 1 <= String.length (Json.newline n).
Proof. cbn. lia. Qed.

Lemma parse_value_array (fuel n : nat) (text : string) :
  (exists a t, text = String a t /\ Json.is_ws a = false
               /\ Ascii.eqb a "]" = false) ->
  Json.parse_value (S fuel) (String "[" (Json.newline n ++ text))
  = match Json.parse_items fuel text with
    | Some (l, rest) => Some (Json.Arr l, rest)
    | None => None
    end.
Proof.
  intros (a & t & -> & Hws & Hclose).
  change (Json.parse_value (S fuel)
            (String "[" (Json.newline n ++ String a t)))
    with (match Json.skip_ws (Json.newline n ++ String a t) with
          | EmptyString => None
          | String c2 s2 =>
              if Ascii.eqb c2 "]" then Some (Json.Arr [], s2)
              else match Json.parse_items fuel (String c2 s2) with
                   | Some (l, rest) => Some (Json.Arr l, rest)
                   | None => None
                   end
          end).
  rewrite skip_ws_newline. cbn [Json.skip_ws]. now rewrite Hws, Hclose.
Qed.

Lemma parse_value_object (fuel n : nat) (text : string) :
  (exists a t, text = String a t /\ Json.is_ws a = false
               /\ Ascii.eqb a "}" = false) ->
  Json.parse_value (S fuel) (String "{" (Json.newline n ++ text))
  = match Json.parse_members fuel text with
    | Some (m, rest) =>
        Some (Json.Obj (fold_left (fun o kv => Json.define (fst kv) (snd kv) o)
                                  m []), rest)
    | None => None
    end.
Proof.
  intros (a & t & -> & Hws & Hclose).
  change (Json.parse_value (S fuel)
            (String "{" (Json.newline n ++ String a t)))
    with (match Json.skip_ws (Json.newline n ++ String a t) with
          | EmptyString => None
          | String c2 s2 =>
              if Ascii.eqb c2 "}" then Some (Json.Obj [], s2)
              else match Json.parse_members fuel (String c2 s2) with
                   | Some (m, rest) =>
                       Some (Json.Obj
                               (fold_left
                                  (fun o kv => Json.define (fst kv) (snd kv) o)
                                  m []), rest)
                   | None => None
                   end
          end).
  rewrite skip_ws_newline. cbn [Json.skip_ws]. now rewrite Hws, Hclose.
Qed.

Lemma join_opens (sep p t : string) (ps : list string) :
  exists u, (Json.join sep (p :: ps) ++ t = p ++ u)%string.
Proof.
  destruct ps as [|q ps].
  - now exists t.
  - rewrite join_cons, append_assoc. eexists. reflexivity.
Qed.

(** The text of a value reads back as the value, its numbers that are not
    finite as [null]. *)
Lemma parse_write (v : Json.value) :
  forall level fuel c r,
    Json.proper v = true ->
    String.length (Json.write level v) <= fuel ->
    c = ","%char \/ c = Json.LF ->
    Json.parse_value fuel (Json.write level v ++ String c r)
    = Some (Json.as_written v, String c r).
Proof.
  induction v as [|b|n|s|l IH|m IH] using value_induction;
    intros level fuel c r Hproper Hfuel Hc;
    (destruct fuel as [|fuel];
     [match type of Hfuel with
      | String.length (Json.write _ ?v) <= _ =>
          pose proof (write_length level v) as Hlen; lia
      end|]).
  - reflexivity.
  - destruct b; reflexivity.
  - destruct n as [z| | |]; try reflexivity.
    cbn [Json.write Json.number_text Json.as_written].
    destruct (digits_head z) as (d & more & Hz & Hd).
    destruct (digit_opens d Hd) as (_ & _ & _ & Hnum).
    pose proof (parse_number_digits z c r Hc) as H.
    rewrite Hz in *. cbn [append] in *. rewrite Hnum, H.
    now rewrite (representable_number z Hproper).
  - cbn [Json.write Json.as_written]. unfold Json.quoted.
    cbn [append].
    change (Json.parse_value (S fuel) (String Json.quote ?t))
      with (match Json.parse_chars t with
            | Some (str, rest) => Some (Json.Str str, rest)
            | None => None
            end).
    rewrite append_assoc. cbn [append]. now rewrite parse_chars_escape.
  - destruct l as [|x l]; [reflexivity|].
    cbn [Json.write Json.as_written Json.proper] in *.
    unfold Json.block in *. cbn [map] in *.
    rewrite !length_append in Hfuel. change (String.length "]") with 1 in Hfuel.
    rewrite !append_assoc. cbn [append].
    change (String Json.LF (Json.indent (S level) ++ ?t))%string
      with (Json.newline (S level) ++ t)%string.
    rewrite parse_value_array.
    + rewrite (parse_items_join (S level) level (String c r) (x :: l) IH);
        [reflexivity|discriminate|exact Hproper|].
      cbn [map]. pose proof (newline_length level). lia.
    + destruct (join_opens ("," ++ Json.newline (S level))
                  (Json.write (S level) x)
                  (Json.newline level ++ String "]" (String c r))
                  (map (Json.write (S level)) l)) as (u & Hu).
      destruct (write_opens (S level) x) as (a & t & Ha & Hws & Hclose & _).
      exists a, (t ++ u)%string. split; [|auto].
      cbn [append] in Hu. rewrite Hu, Ha. reflexivity.
  - destruct m as [|[k x] m]; [reflexivity|].
    cbn [Json.write Json.as_written Json.proper] in *.
    apply andb_true_iff in Hproper as (Hkeys & Hproper).
    apply andb_true_iff in Hkeys as (Hkeys & _).
    unfold Json.block in *. cbn [map] in *.
    rewrite !length_append in Hfuel. change (String.length "}") with 1 in Hfuel.
    rewrite !append_assoc. cbn [append].
    change (String Json.LF (Json.indent (S level) ++ ?t))%string
      with (Json.newline (S level) ++ t)%string.
    rewrite parse_value_object.
    + pose proof (parse_members_join (S level) level (String c r)
                    ((k, x) :: m) IH) as Hmembers.
      cbv zeta in Hmembers. cbn [map] in Hmembers.
      rewrite Hmembers;
        [|discriminate|exact Hproper|pose proof (newline_length level); lia].
      rewrite fold_define.
      * reflexivity.
      * cbn [app]. apply distinct_NoDup.
        replace (map fst _) with (map fst ((k, x) :: m)); [exact Hkeys|].
        cbn [map fst]. f_equal. rewrite map_map. apply map_ext.
        now intros [a b].
    + exists Json.quote. unfold Json.quoted. cbn [append].
      destruct m as [|[k' y] m].
      * cbn [map Json.join]. eexists. split; [reflexivity|split; reflexivity].
      * cbn [map]. rewrite join_cons. cbn [append].
        eexists. split; [reflexivity|split; reflexivity].
Qed.

Lemma parse_stringify (v : Json.value) :
  Json.proper v = true ->
  Json.parse (Json.write 0 v ++ String Json.LF EmptyString)
  = Some (Json.as_written v).
Proof.
  intros Hproper. unfold Json.parse.
  rewrite skip_ws_write, parse_write; [reflexivity|exact Hproper| |now right].
  rewrite length_append. lia.
Qed.

Lemma map_fixed {A : Type} (f : A -> A) (l : list A) :
  map f l = l <-> Forall (fun x => f x = x) l.
Proof.
  induction l as [|x l IH]; cbn [map].
  - split; [constructor|reflexivity].
  - split.
    + intros H. injection H as Hx Hl. constructor; [exact Hx|now apply IH].
    + intros H. inversion H as [|? ? Hx Hl]; subst.
      rewrite Hx. f_equal. now apply IH.
Qed.

(** What the text keeps of a value is the whole value exactly when the
    value holds no number that is not finite. *)
Lemma as_written_fixed (v : Json.value) :
  Json.as_written v = v <-> Json.finite v = true.
Proof.
  induction v as [|b|n|s|l IH|m IH] using value_induction;
    cbn [Json.as_written Json.finite]; try tauto.
  - destruct n; split; (reflexivity || discriminate).
  - rewrite forallb_forall, <- Forall_forall.
    split.
    + intros H. injection H as H. apply map_fixed in H.
      rewrite Forall_forall in *. intros x Hx. now apply IH, H.
    + intros H. f_equal. apply map_fixed.
      rewrite Forall_forall in *. intros x Hx. now apply IH, H.
  - rewrite forallb_forall, <- Forall_forall.
    split.
    + intros H. injection H as H. apply map_fixed in H.
      rewrite Forall_forall in *. intros [k x] Hx.
      pose proof (IH (k, x) Hx) as Hi. cbn [snd] in Hi. apply Hi.
      pose proof (H (k, x) Hx) as E. now injection E.
    + intros H. f_equal. apply map_fixed.
      rewrite Forall_forall in *. intros [k x] Hx. f_equal.
      pose proof (IH (k, x) Hx) as Hi. cbn [snd] in Hi. apply Hi.
      exact (H (k, x) Hx).
Qed.

(** The properties of an object. *)















Lemma readJsonSync_writeJson (m : list (string * Json.value)) :
  Json.proper (Json.Obj m) = true ->
  Gateway.readJsonSync (Some (Gateway.writeJson (Json.Obj m)))
  = Json.as_written (Json.Obj m).
Proof.
  intros Hproper. unfold Gateway.readJsonSync.
  assert (Gateway.stripBom (Gateway.writeJson (Json.Obj m))
          = Gateway.writeJson (Json.Obj m)) as ->
    by (destruct m as [|[k x] m]; reflexivity).
  unfold Gateway.writeJson. now rewrite parse_stringify.
Qed.

Lemma story_finite (l : list Story.t) :
  Json.finite (Json.Arr (map Gateway.story l)) = true.
Proof.
  cbn [Json.finite]. induction l as [|s l IH]; [reflexivity|exact IH].
Qed.

Lemma user_finite (l : list User.t) :
  Json.finite (Json.Arr (map Gateway.user l)) = true.
Proof.
  cbn [Json.finite]. induction l as [|u l IH]; [reflexivity|].
  cbn [map forallb]. rewrite IH, andb_true_r.
  destruct u as [i n [e|] b [a|]]; reflexivity.
Qed.

Lemma comment_finite (l : list Comment.t) :
  Json.finite (Json.Arr (map Gateway.comment l)) = true.
Proof.
  cbn [Json.finite]. induction l as [|c l IH]; [reflexivity|exact IH].
Qed.


Lemma story_proper (l : list Story.t) :
  Forall (fun s => Json.representable (Story.likes s) = true) l ->
  Json.proper (Json.Arr (map Gateway.story l)) = true.
Proof.
  cbn [Json.proper]. induction 1 as [|s l Hs _ IH]; [reflexivity|].
  cbn [map forallb]. rewrite IH, andb_true_r.
  unfold Gateway.story. cbn [Json.proper map fst forallb].
  rewrite Hs. reflexivity.
Qed.

Lemma user_proper (l : list User.t) :
  Json.proper (Json.Arr (map Gateway.user l)) = true.
Proof.
  cbn [Json.proper]. induction l as [|u l IH]; [reflexivity|].
  cbn [map forallb]. rewrite IH, andb_true_r.
  destruct u as [i n [e|] b [a|]]; reflexivity.
Qed.

Lemma comment_proper (l : list Comment.t) :
  Json.proper (Json.Arr (map Gateway.comment l)) = true.
Proof.
  cbn [Json.proper]. induction l as [|c l IH]; [reflexivity|exact IH].
Qed.

(** The document of [FileBacked] stands for a text that reads back as the
    document: the records are written and read field for field. *)
Lemma document_read_back (d : FileBacked.document) :
  Forall (fun s => Json.representable (Story.likes s) = true)
         (FileBacked.doc_stories d) ->
  Gateway.readJsonSync (Some (Gateway.writeJson (Gateway.document d)))
  = Gateway.document d.
Proof.
  intros Hlikes. unfold Gateway.document.
  assert (Json.proper (Json.Arr (map Gateway.story (FileBacked.doc_stories d)))
          = true) as Hs by now apply story_proper.
  pose proof (user_proper (FileBacked.doc_users d)) as Hu.
  pose proof (comment_proper (FileBacked.doc_comments d)) as Hc.
  rewrite readJsonSync_writeJson.
  - apply as_written_fixed. cbn [Json.finite forallb].
    pose proof (story_finite (FileBacked.doc_stories d)) as Fs.
    pose proof (user_finite (FileBacked.doc_users d)) as Fu.
    pose proof (comment_finite (FileBacked.doc_comments d)) as Fc.
    cbn [Json.finite] in Fs, Fu, Fc. now rewrite Fs, Fu, Fc.
  - cbn [Json.proper map fst forallb] in *. now rewrite Hs, Hu, Hc.
Qed.




Lemma saveDB_flushed (st : FileBacked.state) :
  Spec.flushed (FileBacked.saveDB st).
Proof. reflexivity. Qed.

(** ** The recommendation resolver *)

(** C2 — For every userId, [recommend] answers as the specification words
    it: with the history that [getUserHistory] returns, the response is the
    array that [Spec.recommend] describes (empty for an empty history and
    for a last record whose story is gone, otherwise the first at most three
    stories of the viewed story's genre, in the order of the collection, the
    viewed story left out); when [getUserHistory] throws, the response is
    the 500 of the error handler. *)
Theorem C2_recommend_follows_spec {json : JsonLines}
    (st : FileBacked.state) (userId : string) :
  FileBacked.recommend st userId =
  match FileBacked.getUserHistory (FileBacked.activity_file st) userId with
  | Some history =>
      Reply 200 (FileBacked.Recommendations
                   (Spec.recommend (FileBacked.stories st) history))
  | None => InternalError
  end.
Proof.
  unfold FileBacked.recommend.
  destruct (FileBacked.getUserHistory _ userId) as [[|a history]|];
    [reflexivity| |reflexivity].
  change (length (a :: history) =? 0)%nat with false. cbv iota.
  rewrite nth_error_last. unfold Spec.recommend.
  destruct (find _ (FileBacked.stories st)) as [viewed|]; [|reflexivity].
  now rewrite firstn_filter.
Qed.

(** Without a log there is no history, and nothing is recommended. *)
Lemma recommend_without_log {json : JsonLines} (st : FileBacked.state)
    (userId : string) :
  FileBacked.activity_file st = None ->
  FileBacked.recommend st userId = Reply 200 (FileBacked.Recommendations []).
Proof.
  intros H. unfold FileBacked.recommend, FileBacked.getUserHistory.
  rewrite H. reflexivity.
Qed.

(** The response of [recommend] is the 500 of the error handler or an array
    of at most three stories. *)
Lemma recommend_answers {json : JsonLines} (st : FileBacked.state)
    (userId : string) :
  FileBacked.recommend st userId = InternalError
  \/ exists l, FileBacked.recommend st userId
               = Reply 200 (FileBacked.Recommendations l)
               /\ (length l <= 3)%nat.
Proof.
  unfold FileBacked.recommend.
  destruct (FileBacked.getUserHistory _ userId) as [history|]; [|now left].
  destruct (length history =? 0)%nat.
  - right. exists []. split; [reflexivity|]. simpl. lia.
  - destruct (nth_error history _) as [lastViewed|]; [right|now left].
    destruct (find _ (FileBacked.stories st)) as [viewed|].
    + eexists. split; [reflexivity|]. apply firstn_le_length.
    + exists []. split; [reflexivity|]. simpl. lia.
Qed.

(** C8 — On a log file that exists and is empty, [recommend] answers with
    an error and not with an array: the empty text trims and splits to one
    empty line, [JSON.parse] throws on it, [getUserHistory] has no [try]
    around the call, and the error handler answers 500, for every userId
    and every state of the store. *)
Theorem C8_recommend_fails_on_empty_log {json : JsonLines}
    (st : FileBacked.state) (userId : string) :
  let st0 := FileBacked.with_activity_file (Some EmptyString) st in
  FileBacked.getUserHistory (FileBacked.activity_file st0) userId = None
  /\ FileBacked.recommend st0 userId = Fail 500 "Internal server error".
Proof.
  unfold FileBacked.recommend. cbn. rewrite JSON_parse_empty. split; reflexivity.
Qed.

(** ** Deletion of a story *)

Lemma deleteStory_present (st : FileBacked.state) (X : string) :
  In X (map Story.id (FileBacked.stories st)) ->
  FileBacked.deleteStory st X
  = (Reply 204 FileBacked.Empty,
     FileBacked.saveDB
       (FileBacked.with_comments
          (filter (fun c => negb (comment_of_story X c)) (FileBacked.comments st))
          (FileBacked.with_stories
             (filter (fun s => negb (story_has_id X s)) (FileBacked.stories st))
             st))).
Proof.
  intros Hin. unfold FileBacked.deleteStory.
  apply in_map_iff in Hin as (s & Hid & Hs).
  destruct (Nat.eqb_spec
              (length (filter (fun s => negb (story_has_id X s)) (FileBacked.stories st)))
              (length (FileBacked.stories st))) as [E|E]; [|reflexivity].
  exfalso. revert E. apply (filter_shorter _ _ s Hs).
  unfold story_has_id. rewrite Hid, String.eqb_refl. reflexivity.
Qed.

Lemma filter_absent_story (X : string) (l : list Story.t) :
  ~ In X (map Story.id l) ->
  filter (fun s => negb (story_has_id X s)) l = l.
Proof.
  intros Hout. apply filter_keeps_all. intros s Hs. unfold story_has_id.
  destruct (String.eqb_spec (Story.id s) X) as [E|E]; [|reflexivity].
  exfalso. apply Hout. apply in_map_iff. now exists s.
Qed.

Lemma deleteStory_absent (st : FileBacked.state) (X : string) :
  ~ In X (map Story.id (FileBacked.stories st)) ->
  FileBacked.deleteStory st X
  = (NotFound "Story not found",
     FileBacked.with_comments
       (filter (fun c => negb (comment_of_story X c)) (FileBacked.comments st))
       st).
Proof.
  intros Hout. unfold FileBacked.deleteStory.
  rewrite (filter_absent_story X _ Hout), Nat.eqb_refl.
  now destruct st.
Qed.

(** C3 — For every story id X present in the store, [deleteStory] answers
    204, removes every story with id X and every comment whose storyId is X
    and nothing else, writes the document, and [listComments] for X then
    fails with NotFound; for an id that is absent, [deleteStory] fails with
    NotFound. *)
Theorem C3_deleteStory_cascades (st : FileBacked.state) (X : string) :
  (In X (map Story.id (FileBacked.stories st)) ->
   let st' := snd (FileBacked.deleteStory st X) in
   fst (FileBacked.deleteStory st X) = Reply 204 FileBacked.Empty
   /\ (forall s, In s (FileBacked.stories st')
                 <-> In s (FileBacked.stories st) /\ Story.id s <> X)
   /\ (forall c, In c (FileBacked.comments st')
                 <-> In c (FileBacked.comments st) /\ Comment.storyId c <> X)
   /\ FileBacked.users st' = FileBacked.users st
   /\ Spec.flushed st'
   /\ FileBacked.listComments st' X = NotFound "Story not found")
  /\ (~ In X (map Story.id (FileBacked.stories st)) ->
      fst (FileBacked.deleteStory st X) = NotFound "Story not found").
Proof.
  split.
  - intros Hin. rewrite (deleteStory_present st X Hin). cbn.
    assert (forall s, In s (filter (fun s => negb (story_has_id X s))
                                   (FileBacked.stories st))
                      <-> In s (FileBacked.stories st) /\ Story.id s <> X) as Hs.
    { intros s. rewrite filter_In. unfold story_has_id.
      destruct (String.eqb_spec (Story.id s) X); simpl; intuition congruence. }
    assert (forall c, In c (filter (fun c => negb (comment_of_story X c))
                                   (FileBacked.comments st))
                      <-> In c (FileBacked.comments st) /\ Comment.storyId c <> X) as Hc.
    { intros c. rewrite filter_In. unfold comment_of_story.
      destruct (String.eqb_spec (Comment.storyId c) X); simpl; intuition congruence. }
    split; [reflexivity|]. split; [exact Hs|]. split; [exact Hc|].
    split; [reflexivity|]. split; [reflexivity|].
    unfold FileBacked.listComments. cbn.
    replace (find (story_has_id X) _) with (@None Story.t); [reflexivity|].
    symmetry. apply find_story_absent. intros Hx.
    apply in_map_iff in Hx as (s & Hid & Hx). apply Hs in Hx. tauto.
  - intros Hout. now rewrite (deleteStory_absent st X Hout).
Qed.

Lemma C3_deleteStory_cascades_witness :
  In "s1" (map Story.id (FileBacked.stories Sample.library))
  /\ fst (FileBacked.deleteStory Sample.library "s1") = Reply 204 FileBacked.Empty
  /\ FileBacked.listComments (snd (FileBacked.deleteStory Sample.library "s1")) "s1"
     = NotFound "Story not found"
  /\ ~ In "s7" (map Story.id (FileBacked.stories Sample.library))
  /\ fst (FileBacked.deleteStory Sample.library "s7") = NotFound "Story not found".
Proof.
  assert (In "s1" (map Story.id (FileBacked.stories Sample.library))) as Hin
    by (simpl; tauto).
  assert (~ In "s7" (map Story.id (FileBacked.stories Sample.library))) as Hout
    by (simpl; intuition discriminate).
  destruct (C3_deleteStory_cascades Sample.library "s1") as [Hpresent _].
  destruct (C3_deleteStory_cascades Sample.library "s7") as [_ Habsent].
  destruct (Hpresent Hin) as (H204 & _ & _ & _ & _ & H404).
  exact (conj Hin (conj H204 (conj H404 (conj Hout (Habsent Hout))))).
Defined.

(** ** Creation of a story *)


Lemma valid_story_body_accepted (b : story_body) :
  Spec.valid_story_body b ->
  negb (truthy (b_title b)) || negb (truthy (b_body b))
  || negb (truthy (b_authorId b)) = false.
Proof. intros (-> & -> & ->). reflexivity. Qed.

Lemma invalid_story_body_refused (b : story_body) :
  ~ Spec.valid_story_body b ->
  negb (truthy (b_title b)) || negb (truthy (b_body b))
  || negb (truthy (b_authorId b)) = true.
Proof.
  unfold Spec.valid_story_body. intros H.
  destruct (truthy (b_title b)), (truthy (b_body b)), (truthy (b_authorId b));
    try reflexivity.
  exfalso. apply H. repeat split.
Qed.




(** User ids, as [find] sees them. *)
Lemma find_user_absent (i : string) (l : list User.t) :
  find (user_has_id i) l = None <-> ~ In i (map User.id l).
Proof.
  unfold user_has_id. induction l as [|u l IH]; simpl.
  - tauto.
  - destruct (String.eqb_spec (User.id u) i) as [E|E].
    + split; [discriminate|]. intros H. exfalso. apply H. now left.
    + rewrite IH. tauto.
Qed.

(** C9 — [createStory] does not look the authorId up
    among the users before it creates: a request whose authorId is the id
    of no user succeeds with 201 exactly when title, body and authorId are
    present and not empty, the story is stored with that authorId, and the
    response carries the author name "Unknown"; otherwise it fails with
    ValidationError. *)
Theorem C9_createStory_unknown_author (e : env) (st : FileBacked.state)
    (b : story_body) :
  ~ In (or_empty (b_authorId b)) (map User.id (FileBacked.users st)) ->
  (Spec.valid_story_body b ->
   exists s st',
     FileBacked.createStory e st b
     = (Reply 201 (FileBacked.OneStory (FileBacked.mk_story_view s "Unknown")), st')
     /\ Story.authorId s = or_empty (b_authorId b)
     /\ FileBacked.stories st' = s :: FileBacked.stories st)
  /\ (~ Spec.valid_story_body b ->
      FileBacked.createStory e st b
      = (ValidationError "title, body, authorId required", st)).
Proof.
  intros Hnone. split; intros Hb; unfold FileBacked.createStory.
  - rewrite (valid_story_body_accepted b Hb).
    apply find_user_absent in Hnone.
    unfold FileBacked.enrich, FileBacked.authorName.
    cbn [FileBacked.users FileBacked.saveDB FileBacked.with_stories Story.authorId].
    rewrite Hnone. eexists. eexists. split; [reflexivity|]. split; reflexivity.
  - now rewrite (invalid_story_body_refused b Hb).
Qed.

Lemma C9_createStory_unknown_author_witness :
  ~ In (or_empty (b_authorId Sample.ghost_story))
       (map User.id (FileBacked.users Sample.library))
  /\ Spec.valid_story_body Sample.ghost_story
  /\ exists s st',
      FileBacked.createStory Sample.e1 Sample.library Sample.ghost_story
      = (Reply 201 (FileBacked.OneStory (FileBacked.mk_story_view s "Unknown")), st')
      /\ Story.authorId s = "ghost".
Proof.
  assert (~ In (or_empty (b_authorId Sample.ghost_story))
               (map User.id (FileBacked.users Sample.library))) as Hnone
    by (simpl; intuition discriminate).
  assert (Spec.valid_story_body Sample.ghost_story) as Hvalid
    by (repeat split; reflexivity).
  split; [exact Hnone|]. split; [exact Hvalid|].
  destruct (C9_createStory_unknown_author Sample.e1 Sample.library
              Sample.ghost_story Hnone) as [Hcreated _].
  destruct (Hcreated Hvalid) as (s & st' & H201 & Hauthor & _).
  exists s, st'. split; [exact H201|exact Hauthor].
Defined.

(** C9 — The seed store has the one user "u1", and the creation of a story
    whose authorId is "ghost" succeeds all the same and stores the story. *)
Lemma C9_counterexample :
  let st := FileBacked.init None None Sample.start in
  b_authorId Sample.ghost_story = Some "ghost"
  /\ ~ In "ghost" (map User.id (FileBacked.users st))
  /\ exists s st',
      FileBacked.createStory Sample.e1 st Sample.ghost_story
      = (Reply 201 (FileBacked.OneStory s), st')
      /\ In (FileBacked.sv_story s) (FileBacked.stories st').
Proof.
  split; [reflexivity|]. split; [simpl; intuition discriminate|].
  eexists. eexists. split; [reflexivity|]. simpl. left. reflexivity.
Qed.

(** ** Creation of a comment *)

(** C10 — In both servers the creation of a comment looks for the story
    first: for a story id that matches no story it fails with NotFound and
    changes nothing, whatever the body holds, missing authorId or text
    included; it answers 400 only when the story exists (and authorId or
    text is missing or empty). *)
Theorem C10_createComment_checks_story_first (e : env) (i : string)
    (b : comment_body) :
  (forall st : FileBacked.state,
      (~ In i (map Story.id (FileBacked.stories st)) ->
       FileBacked.createComment e st i b = (NotFound "Story not found", st))
      /\ (status_of (fst (FileBacked.createComment e st i b)) = 400%nat ->
          In i (map Story.id (FileBacked.stories st))
          /\ (truthy (cb_authorId b) = false \/ truthy (cb_text b) = false)))
  /\ (forall st : InMemory.state,
      (~ In i (map Story.id (InMemory.stories st)) ->
       InMemory.createComment e st i b = (NotFound "Story not found", st))
      /\ (status_of (fst (InMemory.createComment e st i b)) = 400%nat ->
          In i (map Story.id (InMemory.stories st))
          /\ (truthy (cb_authorId b) = false \/ truthy (cb_text b) = false))).
Proof.
  split; intros st; split.
  - intros Hout. unfold FileBacked.createComment.
    apply find_story_absent in Hout. now rewrite Hout.
  - unfold FileBacked.createComment.
    destruct (find (story_has_id i) (FileBacked.stories st)) as [story|] eqn:E.
    + apply find_some in E as [Hin Hid]. apply String.eqb_eq in Hid.
      destruct (truthy (cb_authorId b)), (truthy (cb_text b)); cbn;
        try discriminate; intros _; (split; [|auto]);
        apply in_map_iff; now exists story.
    + cbn. discriminate.
  - intros Hout. unfold InMemory.createComment.
    apply find_story_absent in Hout. now rewrite Hout.
  - unfold InMemory.createComment.
    destruct (find (story_has_id i) (InMemory.stories st)) as [story|] eqn:E.
    + apply find_some in E as [Hin Hid]. apply String.eqb_eq in Hid.
      destruct (truthy (cb_authorId b)), (truthy (cb_text b)); cbn;
        try discriminate; intros _; (split; [|auto]);
        apply in_map_iff; now exists story.
    + cbn. discriminate.
Qed.

Lemma C10_createComment_checks_story_first_witness :
  ~ In "s7" (map Story.id (FileBacked.stories Sample.library))
  /\ FileBacked.createComment Sample.e1 Sample.library "s7" Sample.no_fields
     = (NotFound "Story not found", Sample.library)
  /\ status_of (fst (FileBacked.createComment Sample.e1 Sample.library "s1"
                                              Sample.no_fields)) = 400%nat
  /\ In "s1" (map Story.id (FileBacked.stories Sample.library)).
Proof.
  assert (~ In "s7" (map Story.id (FileBacked.stories Sample.library))) as Hout
    by (simpl; intuition discriminate).
  assert (status_of (fst (FileBacked.createComment Sample.e1 Sample.library "s1"
                                                   Sample.no_fields)) = 400%nat)
    as H400 by reflexivity.
  split; [exact Hout|].
  split.
  - exact (proj1 (proj1 (C10_createComment_checks_story_first
                           Sample.e1 "s7" Sample.no_fields) Sample.library) Hout).
  - split; [exact H400|].
    exact (proj1 (proj2 (proj1 (C10_createComment_checks_story_first
                                  Sample.e1 "s1" Sample.no_fields) Sample.library)
                        H400)).
Defined.

(** ** Update of a story *)

Lemma apply_patch_patched (p : story_patch) (old : Story.t) :
  Spec.patched p old (FileBacked.apply_patch p old).
Proof.
  destruct p as [[t|] [b|] [g|] [n|]]; repeat split.
Qed.

Lemma apply_patch_but_likes (p : story_patch) (old : Story.t) :
  Spec.patched_but_likes p old (InMemory.apply_patch p old).
Proof.
  destruct p as [[t|] [b|] [g|] [n|]]; repeat split.
Qed.

(** The story that a route addresses by id: the first one with the id. *)
Lemma first_story_with_id (i : string) (l : list Story.t) :
  In i (map Story.id l) ->
  exists idx old,
    findIndex (story_has_id i) l = Some idx
    /\ find (story_has_id i) l = Some old
    /\ nth_error l idx = Some old
    /\ Story.id old = i.
Proof.
  intros Hin.
  destruct (findIndex (story_has_id i) l) as [idx|] eqn:E.
  - pose proof (find_findIndex (story_has_id i) l) as Hfind. rewrite E in Hfind.
    apply findIndex_Some in E as (old & Hnth & Hid).
    exists idx, old. rewrite Hfind. repeat split; try assumption.
    now apply String.eqb_eq.
  - apply findIndex_story_absent in E. contradiction.
Qed.

(** C6 — [updateStory] fails with NotFound, and changes
    nothing, when no story has the id.  Otherwise it answers 200 with the
    first story of that id as updated, and only that story changes: the
    file-backed server assigns the fields that the patch holds among title,
    body, genre and likes; the in-memory server assigns those among title,
    body and genre and leaves likes as stored, whatever the patch holds; in
    both, a field that the patch does not hold keeps its stored value, and
    id, authorId and createdAt are kept. *)
Theorem C6_updateStory_applies_patch (i : string) (p : story_patch) :
  (forall st : FileBacked.state,
      (~ In i (map Story.id (FileBacked.stories st)) ->
       FileBacked.updateStory st i p = (NotFound "Story not found", st))
      /\ (In i (map Story.id (FileBacked.stories st)) ->
          exists idx old new st',
            find (story_has_id i) (FileBacked.stories st) = Some old
            /\ nth_error (FileBacked.stories st) idx = Some old
            /\ FileBacked.updateStory st i p
               = (Reply 200 (FileBacked.OneStory
                               (FileBacked.enrich (FileBacked.users st) new)), st')
            /\ Spec.patched p old new
            /\ nth_error (FileBacked.stories st') idx = Some new
            /\ length (FileBacked.stories st') = length (FileBacked.stories st)
            /\ (forall j, j <> idx ->
                  nth_error (FileBacked.stories st') j
                  = nth_error (FileBacked.stories st) j)
            /\ FileBacked.users st' = FileBacked.users st
            /\ FileBacked.comments st' = FileBacked.comments st
            /\ Spec.flushed st'))
  /\ (forall st : InMemory.state,
      (~ In i (map Story.id (InMemory.stories st)) ->
       InMemory.updateStory st i p = (NotFound "Story not found", st))
      /\ (In i (map Story.id (InMemory.stories st)) ->
          exists idx old new st',
            find (story_has_id i) (InMemory.stories st) = Some old
            /\ nth_error (InMemory.stories st) idx = Some old
            /\ InMemory.updateStory st i p
               = (Reply 200 (InMemory.OneStory new), st')
            /\ Spec.patched_but_likes p old new
            /\ nth_error (InMemory.stories st') idx = Some new
            /\ length (InMemory.stories st') = length (InMemory.stories st)
            /\ (forall j, j <> idx ->
                  nth_error (InMemory.stories st') j
                  = nth_error (InMemory.stories st) j)
            /\ InMemory.users st' = InMemory.users st
            /\ InMemory.comments st' = InMemory.comments st)).
Proof.
  split; intros st; split.
  - intros Hout. unfold FileBacked.updateStory.
    apply findIndex_story_absent in Hout. now rewrite Hout.
  - intros Hin.
    destruct (first_story_with_id i _ Hin) as (idx & old & Hidx & Hfind & Hnth & _).
    exists idx, old, (FileBacked.apply_patch p old).
    unfold FileBacked.updateStory. rewrite Hidx.
    cbn [FileBacked.stories FileBacked.users FileBacked.saveDB
         FileBacked.with_stories].
    rewrite (nth_error_update_nth idx _ _ old Hnth).
    eexists. split; [exact Hfind|]. split; [exact Hnth|].
    split; [reflexivity|]. split; [apply apply_patch_patched|].
    cbn [FileBacked.stories FileBacked.users FileBacked.comments].
    split; [apply (nth_error_update_nth idx _ _ old Hnth)|].
    split; [apply update_nth_length|].
    split; [intros j Hj; now apply nth_error_update_nth_other|].
    repeat split.
  - intros Hout. unfold InMemory.updateStory.
    apply findIndex_story_absent in Hout. now rewrite Hout.
  - intros Hin.
    destruct (first_story_with_id i _ Hin) as (idx & old & Hidx & Hfind & Hnth & _).
    exists idx, old, (InMemory.apply_patch p old).
    unfold InMemory.updateStory. rewrite Hidx.
    rewrite (nth_error_update_nth idx _ _ old Hnth).
    eexists. split; [exact Hfind|]. split; [exact Hnth|].
    split; [reflexivity|]. split; [apply apply_patch_but_likes|].
    cbn [InMemory.stories InMemory.users InMemory.comments].
    split; [apply (nth_error_update_nth idx _ _ old Hnth)|].
    split; [apply update_nth_length|].
    split; [intros j Hj; now apply nth_error_update_nth_other|].
    repeat split.
Qed.

Lemma C6_updateStory_applies_patch_witness :
  In "s2" (map Story.id (FileBacked.stories Sample.library))
  /\ In "s2" (map Story.id (InMemory.stories Sample.library_in_memory))
  /\ (exists new st',
        FileBacked.updateStory Sample.library "s2" Sample.retitle
        = (Reply 200 (FileBacked.OneStory
                        (FileBacked.enrich (FileBacked.users Sample.library) new)), st')
        /\ Spec.patched Sample.retitle Sample.fantasy2 new)
  /\ (exists new st',
        InMemory.updateStory Sample.library_in_memory "s2" Sample.retitle
        = (Reply 200 (InMemory.OneStory new), st')
        /\ Spec.patched_but_likes Sample.retitle Sample.fantasy2 new).
Proof.
  assert (In "s2" (map Story.id (FileBacked.stories Sample.library))) as Hfile
    by (simpl; tauto).
  assert (In "s2" (map Story.id (InMemory.stories Sample.library_in_memory)))
    as Hmem by (simpl; tauto).
  destruct (C6_updateStory_applies_patch "s2" Sample.retitle) as [HF HM].
  destruct (proj2 (HF Sample.library) Hfile)
    as (idx & old & new & st' & Hfind & _ & Hput & Hpatched & _).
  destruct (proj2 (HM Sample.library_in_memory) Hmem)
    as (idx' & old' & new' & st'' & Hfind' & _ & Hput' & Hpatched' & _).
  injection Hfind as <-. injection Hfind' as <-.
  split; [exact Hfile|]. split; [exact Hmem|]. split.
  - exists new, st'. split; [exact Hput|exact Hpatched].
  - exists new', st''. split; [exact Hput'|exact Hpatched'].
Defined.

(** C6 — On the in-memory server a patch that holds likes = 7 for the
    seed story answers 200 and leaves its 3 likes: the field that the patch
    holds is not applied. *)
Lemma C6_counterexample :
  let st := InMemory.init Sample.start in
  InMemory.updateStory st "s1" (Sample.likes_only 7)
  = (Reply 200 (InMemory.OneStory (seed_story Sample.start)), st)
  /\ Story.likes (seed_story Sample.start) = 3%Z
  /\ ~ Spec.patched (Sample.likes_only 7) (seed_story Sample.start)
                    (seed_story Sample.start).
Proof.
  split; [reflexivity|]. split; [reflexivity|].
  intros (_ & _ & _ & Hlikes & _). discriminate Hlikes.
Qed.

(** ** Failures and the state *)

Ltac not_refused :=
  let H := fresh in
  intros [H|H]; cbn in H; discriminate H.

(** The in-memory server: a request that fails with ValidationError or
    NotFound leaves the three collections as they were. *)
Lemma in_memory_refusal_keeps_state (e : env) (st : InMemory.state)
    (r : InMemory.request) :
  Spec.refused (fst (InMemory.step e st r)) -> snd (InMemory.step e st r) = st.
Proof.
  destruct r as [q|i|b|i p|i|i|i b|i|i|b]; cbn [InMemory.step]; try reflexivity.
  - unfold InMemory.createStory. destruct (_ || _); [reflexivity|not_refused].
  - unfold InMemory.updateStory.
    destruct (findIndex _ _) as [idx|]; [|reflexivity].
    destruct (nth_error _ idx); not_refused.
  - unfold InMemory.deleteStory.
    destruct (Nat.eqb_spec (length (filter (fun s => negb (story_has_id i s))
                                            (InMemory.stories st)))
                           (length (InMemory.stories st))) as [E|E];
      [|not_refused].
    intros _. cbn. rewrite (filter_same_length_eq _ _ E). now destruct st.
  - unfold InMemory.createComment.
    destruct (find _ _) as [story|]; [|reflexivity].
    destruct (_ || _); [reflexivity|not_refused].
  - unfold InMemory.deleteComment.
    destruct (Nat.eqb_spec (length (filter (fun c => negb (comment_has_id i c))
                                            (InMemory.comments st)))
                           (length (InMemory.comments st))) as [E|E];
      [|not_refused].
    intros _. cbn. rewrite (filter_same_length_eq _ _ E). now destruct st.
  - unfold InMemory.createUser. destruct (negb _); [reflexivity|not_refused].
Qed.

(** The file-backed server, on a store without orphan comments: a request
    that fails with ValidationError or NotFound leaves the collections and
    both files as they were. *)
Lemma file_backed_refusal_keeps_state {json : JsonLines} (e : env)
    (st : FileBacked.state) (r : FileBacked.request) :
  Spec.no_orphans st ->
  Spec.refused (fst (FileBacked.step e st r)) ->
  snd (FileBacked.step e st r) = st.
Proof.
  intros Hst.
  destruct r as [s|q|i|b|i p|i|i|i|i b|i|b|u|i|b]; cbn [FileBacked.step];
    try reflexivity.
  - unfold FileBacked.createStory. destruct (_ || _); [reflexivity|not_refused].
  - unfold FileBacked.updateStory.
    destruct (findIndex _ _) as [idx|]; [|reflexivity].
    destruct (nth_error _ idx); not_refused.
  - destruct (in_dec string_dec i (map Story.id (FileBacked.stories st)))
      as [Hin|Hout].
    + rewrite (deleteStory_present st i Hin). not_refused.
    + rewrite (deleteStory_absent st i Hout). intros _. cbn.
      rewrite filter_keeps_all; [now destruct st|].
      intros c Hc. unfold comment_of_story.
      destruct (String.eqb_spec (Comment.storyId c) i) as [E|E]; [|reflexivity].
      exfalso. apply Hout. rewrite <- E. now apply Hst.
  - unfold FileBacked.likeStory.
    destruct (findIndex _ _) as [idx|]; [|reflexivity].
    destruct (nth_error _ idx); not_refused.
  - unfold FileBacked.createComment.
    destruct (find _ _) as [story|]; [|reflexivity].
    destruct (_ || _); [reflexivity|not_refused].
  - unfold FileBacked.deleteComment.
    destruct (Nat.eqb_spec (length (filter (fun c => negb (comment_has_id i c))
                                            (FileBacked.comments st)))
                           (length (FileBacked.comments st))) as [E|E];
      [|not_refused].
    intros _. cbn. rewrite (filter_same_length_eq _ _ E). now destruct st.
  - unfold FileBacked.recordActivity. destruct (_ || _); [reflexivity|not_refused].
  - unfold FileBacked.createUser. destruct (negb _); [reflexivity|not_refused].
Qed.

Lemma update_nth_ids (idx : nat) (f : Story.t -> Story.t) (l : list Story.t) :
  (forall s, Story.id (f s) = Story.id s) ->
  map Story.id (update_nth idx f l) = map Story.id l.
Proof.
  intros Hf. revert idx. induction l as [|s l IH]; intros [|i]; simpl;
    try reflexivity.
  - now rewrite Hf.
  - now rewrite IH.
Qed.

(** No handler makes an orphan: a comment is created for a story of the
    store, and the deletion of a story takes its comments along. *)
Lemma step_keeps_no_orphans {json : JsonLines} (e : env)
    (st : FileBacked.state) (r : FileBacked.request) :
  Spec.no_orphans st -> Spec.no_orphans (snd (FileBacked.step e st r)).
Proof.
  intros Hst.
  destruct r as [s|q|i|b|i p|i|i|i|i b|i|b|u|i|b]; cbn [FileBacked.step snd];
    try exact Hst.
  - unfold FileBacked.createStory. destruct (_ || _); [exact Hst|].
    intros c Hc. cbn. right. now apply Hst.
  - unfold FileBacked.updateStory.
    destruct (findIndex _ _) as [idx|]; [|exact Hst].
    assert (Spec.no_orphans
              (FileBacked.saveDB
                 (FileBacked.with_stories
                    (update_nth idx (FileBacked.apply_patch p) (FileBacked.stories st))
                    st))) as H.
    { intros c Hc. cbn. rewrite update_nth_ids; [now apply Hst|].
      intros s. apply (apply_patch_patched p s). }
    destruct (nth_error _ idx); exact H.
  - unfold FileBacked.deleteStory.
    assert (forall c, In c (filter (fun c => negb (comment_of_story i c))
                                   (FileBacked.comments st)) ->
                      In (Comment.storyId c)
                         (map Story.id (filter (fun s => negb (story_has_id i s))
                                                (FileBacked.stories st)))) as H.
    { intros c Hc. apply filter_In in Hc as [Hc Hne].
      apply Hst in Hc. apply in_map_iff in Hc as (s & Hid & Hs).
      apply in_map_iff. exists s. split; [assumption|].
      apply filter_In. split; [assumption|].
      unfold story_has_id. unfold comment_of_story in Hne. now rewrite Hid. }
    destruct (_ =? _)%nat; exact H.
  - unfold FileBacked.likeStory.
    destruct (findIndex _ _) as [idx|]; [|exact Hst].
    assert (Spec.no_orphans
              (FileBacked.saveDB
                 (FileBacked.with_stories
                    (update_nth idx (fun s => Story.set_likes (Double.add1 (Story.likes s)) s)
                                (FileBacked.stories st))
                    st))) as H.
    { intros c Hc. cbn. rewrite update_nth_ids; [now apply Hst|]. reflexivity. }
    destruct (nth_error _ idx); exact H.
  - unfold FileBacked.createComment.
    destruct (find _ _) as [story|] eqn:E; [|exact Hst].
    destruct (_ || _); [exact Hst|].
    intros c Hc. cbn in Hc |- *. apply in_app_or in Hc as [Hc|[<-|[]]].
    + now apply Hst.
    + apply find_some in E as [Hin _]. cbn. apply in_map_iff. now exists story.
  - unfold FileBacked.deleteComment.
    assert (Spec.no_orphans
              (FileBacked.with_comments
                 (filter (fun c => negb (comment_has_id i c)) (FileBacked.comments st))
                 st)) as H.
    { intros c Hc. cbn in Hc |- *. apply filter_In in Hc as [Hc _]. now apply Hst. }
    destruct (_ =? _)%nat; exact H.
  - unfold FileBacked.recordActivity. destruct (_ || _); exact Hst.
  - unfold FileBacked.createUser. destruct (negb _); exact Hst.
Qed.

Lemma seed_no_orphans (activity : option string) (start : string) :
  Spec.no_orphans (FileBacked.init None activity start).
Proof. intros c []. Qed.

(** C5 — On the file-backed server [deleteStory] assigns the filtered
    comments before it checks that a story was removed.  A store started
    from a document whose comment [c9] names the story "s9", which the
    document lacks, answers NotFound to the deletion of "s9" and has lost
    the comment in memory, with no flush; the in-memory server, which
    checks first, keeps it. *)
Theorem C5_deleteStory_absent_id_drops_comments :
  let st := FileBacked.init (Some Sample.orphan_document) None Sample.start in
  let st' := snd (FileBacked.deleteStory st "s9") in
  let mem := InMemory.mk_state (FileBacked.stories st) (FileBacked.users st)
                               (FileBacked.comments st) in
  ~ In "s9" (map Story.id (FileBacked.stories st))
  /\ fst (FileBacked.deleteStory st "s9") = NotFound "Story not found"
  /\ FileBacked.comments st = [Sample.c9]
  /\ FileBacked.comments st' = []
  /\ FileBacked.stories st' = FileBacked.stories st
  /\ FileBacked.data_file st' = Some Sample.orphan_document
  /\ InMemory.deleteStory mem "s9" = (NotFound "Story not found", mem).
Proof.
  split; [simpl; intuition discriminate|].
  repeat split.
Qed.

(** ** The likes counter *)

Lemma Forall_update_nth {A : Type} (P : A -> Prop) (idx : nat) (f : A -> A)
    (l : list A) :
  (forall x, P x -> P (f x)) -> Forall P l -> Forall P (update_nth idx f l).
Proof.
  intros Hf H. revert idx. induction H as [|x l Hx Hl IH]; intros [|i]; simpl;
    constructor; auto.
Qed.

Lemma Forall_filter_keeps {A : Type} (P : A -> Prop) (p : A -> bool)
    (l : list A) :
  Forall P l -> Forall P (filter p l).
Proof.
  intros H. apply Forall_forall. intros x Hx. apply filter_In in Hx as [Hx _].
  revert x Hx. now apply Forall_forall.
Qed.

Lemma apply_patch_keeps_likes_nonneg (p : story_patch) (s : Story.t) :
  match p_likes p with
  | Some n => (0 <= n)%Z
  | None => True
  end ->
  (0 <= Story.likes s)%Z -> (0 <= Story.likes (FileBacked.apply_patch p s))%Z.
Proof.
  intros Hp Hs. destruct (apply_patch_patched p s) as (_ & _ & _ & -> & _).
  destruct (p_likes p); assumption.
Qed.

Lemma step_keeps_likes_nonneg {json : JsonLines} (e : env)
    (st : FileBacked.state) (r : FileBacked.request) :
  Spec.likes_nonneg (FileBacked.stories st) ->
  Spec.likes_patch_nonneg r ->
  Spec.likes_nonneg (FileBacked.stories (snd (FileBacked.step e st r))).
Proof.
  unfold Spec.likes_nonneg. intros Hst Hr.
  destruct r as [s|q|i|b|i p|i|i|i|i b|i|b|u|i|b]; cbn [FileBacked.step snd];
    try exact Hst.
  - unfold FileBacked.createStory. destruct (_ || _); [exact Hst|].
    cbn. constructor; [cbn; lia|exact Hst].
  - unfold FileBacked.updateStory.
    destruct (findIndex _ _) as [idx|]; [|exact Hst].
    assert (Forall (fun s => (0 <= Story.likes s)%Z)
                   (update_nth idx (FileBacked.apply_patch p) (FileBacked.stories st)))
      as H.
    { apply Forall_update_nth; [|exact Hst].
      intros s. now apply apply_patch_keeps_likes_nonneg. }
    destruct (nth_error _ idx); exact H.
  - unfold FileBacked.deleteStory.
    destruct (_ =? _)%nat; cbn; now apply Forall_filter_keeps.
  - unfold FileBacked.likeStory.
    destruct (findIndex _ _) as [idx|]; [|exact Hst].
    assert (Forall (fun s => (0 <= Story.likes s)%Z)
                   (update_nth idx (fun s => Story.set_likes (Double.add1 (Story.likes s)) s)
                               (FileBacked.stories st))) as H.
    { apply Forall_update_nth; [|exact Hst]. intros s Hs. cbn.
      now apply add1_nonneg. }
    destruct (nth_error _ idx); exact H.
  - unfold FileBacked.createComment.
    destruct (find _ _) as [story|]; [|exact Hst].
    destruct (_ || _); exact Hst.
  - unfold FileBacked.deleteComment. destruct (_ =? _)%nat; exact Hst.
  - unfold FileBacked.recordActivity. destruct (_ || _); exact Hst.
  - unfold FileBacked.createUser. destruct (negb _); exact Hst.
Qed.

Lemma seed_likes_nonneg (activity : option string) (start : string) :
  Spec.likes_nonneg (FileBacked.stories (FileBacked.init None activity start)).
Proof. repeat constructor. cbn. lia. Qed.

(** C7 — From a store whose likes are all non-negative
    (the seed is one), every run of operations in which each update whose
    patch holds likes holds a non-negative integer ends in a store whose
    likes are all non-negative: creation sets likes to 0, a like adds 1,
    and an update assigns the integer of the patch as it is. *)
Theorem C7_likes_stay_nonneg {json : JsonLines} (st : FileBacked.state)
    (rs : list (env * FileBacked.request)) :
  Spec.likes_nonneg (FileBacked.stories st) ->
  Forall (fun er => Spec.likes_patch_nonneg (snd er)) rs ->
  Spec.likes_nonneg (FileBacked.stories (FileBacked.run st rs)).
Proof.
  intros Hst Hrs. revert st Hst.
  induction Hrs as [|[e r] rs Hr Hrs IH]; intros st Hst; [exact Hst|].
  cbn [FileBacked.run]. apply IH. now apply step_keeps_likes_nonneg.
Qed.

Lemma C7_likes_stay_nonneg_witness :
  let st := FileBacked.init None None Sample.start in
  let rs := [(Sample.e1, FileBacked.LikeStory "s1");
             (Sample.e1, FileBacked.UpdateStory "s1" (Sample.likes_only 0));
             (Sample.e1, FileBacked.CreateStory Sample.a_story);
             (Sample.e1, FileBacked.LikeStory "s1")] in
  Spec.likes_nonneg (FileBacked.stories st)
  /\ Forall (fun er => Spec.likes_patch_nonneg (snd er)) rs
  /\ Spec.likes_nonneg (FileBacked.stories (FileBacked.run (json := plain_lines) st rs)).
Proof.
  cbv zeta.
  assert (Spec.likes_nonneg
            (FileBacked.stories (FileBacked.init None None Sample.start))) as Hst
    by (repeat constructor; cbn; lia).
  assert (Forall (fun er => Spec.likes_patch_nonneg (snd er))
                 [(Sample.e1, FileBacked.LikeStory "s1");
                  (Sample.e1, FileBacked.UpdateStory "s1" (Sample.likes_only 0));
                  (Sample.e1, FileBacked.CreateStory Sample.a_story);
                  (Sample.e1, FileBacked.LikeStory "s1")]) as Hrs
    by (repeat constructor; cbn; lia).
  split; [exact Hst|]. split; [exact Hrs|].
  exact (C7_likes_stay_nonneg (json := plain_lines) _ _ Hst Hrs).
Defined.

(** C7 — On the seed store an update of "s1" with the patch likes = -1
    leaves a story with -1 likes. *)
Lemma C7_counterexample :
  let st := FileBacked.run (json := plain_lines)
              (FileBacked.init None None Sample.start)
              [(Sample.e1, FileBacked.UpdateStory "s1" (Sample.likes_only (-1)))] in
  map Story.likes (FileBacked.stories st) = [(-1)%Z]
  /\ ~ Spec.likes_nonneg (FileBacked.stories st).
Proof.
  split; [reflexivity|].
  intros H. inversion H as [|s l Hs Hl]. cbn in Hs. lia.
Qed.

(** ** Further facts about the handlers *)

(** The index that [findIndex] gives is an index of the array, so the
    routes that address a story by index answer 200 or 404. *)
Lemma updateStory_answers (st : FileBacked.state) (i : string) (p : story_patch) :
  status_of (fst (FileBacked.updateStory st i p)) = 200%nat
  \/ status_of (fst (FileBacked.updateStory st i p)) = 404%nat.
Proof.
  unfold FileBacked.updateStory.
  destruct (findIndex _ _) as [idx|] eqn:E; [|now right].
  apply findIndex_Some in E as (old & Hnth & _).
  cbn [FileBacked.stories FileBacked.saveDB FileBacked.with_stories].
  rewrite (nth_error_update_nth idx _ _ old Hnth). now left.
Qed.

Lemma likeStory_answers (st : FileBacked.state) (i : string) :
  status_of (fst (FileBacked.likeStory st i)) = 200%nat
  \/ status_of (fst (FileBacked.likeStory st i)) = 404%nat.
Proof.
  unfold FileBacked.likeStory.
  destruct (findIndex _ _) as [idx|] eqn:E; [|now right].
  apply findIndex_Some in E as (old & Hnth & _).
  cbn [FileBacked.stories FileBacked.saveDB FileBacked.with_stories].
  rewrite (nth_error_update_nth idx _ _ old Hnth). now left.
Qed.

(** A like takes the likes of the first story with the id to the double
    nearest to one more, and the store is flushed. *)
Lemma likeStory_adds_one (st : FileBacked.state) (i : string) (old : Story.t) :
  find (story_has_id i) (FileBacked.stories st) = Some old ->
  exists st',
    FileBacked.likeStory st i
    = (Reply 200 (FileBacked.OneStory
                    (FileBacked.enrich (FileBacked.users st)
                       (Story.set_likes (Double.add1 (Story.likes old)) old))), st')
    /\ Spec.flushed st'.
Proof.
  intros Hfind. rewrite find_findIndex in Hfind. unfold FileBacked.likeStory.
  destruct (findIndex _ _) as [idx|]; [|discriminate].
  cbn [FileBacked.stories FileBacked.saveDB FileBacked.with_stories].
  rewrite (nth_error_update_nth idx _ _ old Hfind).
  eexists. split; reflexivity.
Qed.

(** [recommend] answers 500 exactly when [getUserHistory] throws. *)
Lemma recommend_fails_iff {json : JsonLines} (st : FileBacked.state)
    (userId : string) :
  FileBacked.recommend st userId = InternalError
  <-> FileBacked.getUserHistory (FileBacked.activity_file st) userId = None.
Proof.
  unfold FileBacked.recommend.
  destruct (FileBacked.getUserHistory _ userId) as [[|a history]|].
  - split; discriminate.
  - change (length (a :: history) =? 0)%nat with false. cbv iota.
    rewrite nth_error_last.
    destruct (find _ (FileBacked.stories st)); split; discriminate.
  - split; reflexivity.
Qed.

(** After a mutation that succeeds the document on disk is the store. *)
Lemma accepted_mutation_is_flushed {json : JsonLines} (e : env)
    (st : FileBacked.state) (r : FileBacked.request) :
  Spec.mutation r = true ->
  (exists status payload, fst (FileBacked.step e st r) = Reply status payload) ->
  Spec.flushed (snd (FileBacked.step e st r)).
Proof.
  destruct r as [s|q|i|b|i p|i|i|i|i b|i|b|u|i|b]; cbn [Spec.mutation];
    try discriminate; intros _; cbn [FileBacked.step].
  - unfold FileBacked.createStory.
    destruct (_ || _); [intros (? & ? & [=])|reflexivity].
  - unfold FileBacked.updateStory.
    destruct (findIndex _ _) as [idx|]; [|intros (? & ? & [=])].
    destruct (nth_error _ idx); reflexivity.
  - unfold FileBacked.deleteStory.
    destruct (_ =? _)%nat; [intros (? & ? & [=])|reflexivity].
  - unfold FileBacked.likeStory.
    destruct (findIndex _ _) as [idx|]; [|intros (? & ? & [=])].
    destruct (nth_error _ idx); reflexivity.
  - unfold FileBacked.createComment.
    destruct (find _ _) as [story|]; [|intros (? & ? & [=])].
    destruct (_ || _); [intros (? & ? & [=])|reflexivity].
  - unfold FileBacked.deleteComment.
    destruct (_ =? _)%nat; [intros (? & ? & [=])|reflexivity].
  - unfold FileBacked.createUser.
    destruct (negb _); [intros (? & ? & [=])|reflexivity].
Qed.

(** A process started from the files of a flushed store is that store. *)
Lemma restart_of_flushed (st : FileBacked.state) (start : string) :
  Spec.flushed st ->
  FileBacked.init (FileBacked.data_file st) (FileBacked.activity_file st) start = st.
Proof.
  destruct st as [ss us cs data act]. unfold Spec.flushed. cbn.
  intros ->. reflexivity.
Qed.

(** ** Unique ids *)

Lemma NoDup_ids_filter (p : Story.t -> bool) (l : list Story.t) :
  NoDup (map Story.id l) -> NoDup (map Story.id (filter p l)).
Proof.
  induction l as [|s l IH]; simpl; intros H; [constructor|].
  inversion H as [|i ids Hout Hrest]; subst.
  destruct (p s); simpl; [constructor|]; auto.
  intros Hin. apply Hout. apply in_map_iff in Hin as (s' & Hid & Hs').
  apply in_map_iff. exists s'. split; [assumption|].
  apply filter_In in Hs'. tauto.
Qed.

(** With ids from a generator that gives none that is in use, the stories
    of the store keep ids that differ from one another. *)
Lemma step_keeps_story_ids_unique {json : JsonLines} (e : env)
    (st : FileBacked.state) (r : FileBacked.request) :
  NoDup (map Story.id (FileBacked.stories st)) ->
  ~ In (uuidv4 e) (map Story.id (FileBacked.stories st)) ->
  NoDup (map Story.id (FileBacked.stories (snd (FileBacked.step e st r)))).
Proof.
  intros Hst Hfresh.
  destruct r as [s|q|i|b|i p|i|i|i|i b|i|b|u|i|b]; cbn [FileBacked.step snd];
    try exact Hst.
  - unfold FileBacked.createStory. destruct (_ || _); [exact Hst|].
    cbn. now constructor.
  - unfold FileBacked.updateStory.
    destruct (findIndex _ _) as [idx|]; [|exact Hst].
    assert (NoDup (map Story.id (update_nth idx (FileBacked.apply_patch p)
                                            (FileBacked.stories st)))) as H.
    { rewrite update_nth_ids; [exact Hst|].
      intros s. apply (apply_patch_patched p s). }
    destruct (nth_error _ idx); exact H.
  - unfold FileBacked.deleteStory.
    destruct (_ =? _)%nat; cbn; now apply NoDup_ids_filter.
  - unfold FileBacked.likeStory.
    destruct (findIndex _ _) as [idx|]; [|exact Hst].
    assert (NoDup (map Story.id
                       (update_nth idx (fun s => Story.set_likes (Double.add1 (Story.likes s)) s)
                                   (FileBacked.stories st)))) as H.
    { rewrite update_nth_ids; [exact Hst|]. reflexivity. }
    destruct (nth_error _ idx); exact H.
  - unfold FileBacked.createComment.
    destruct (find _ _) as [story|]; [|exact Hst].
    destruct (_ || _); exact Hst.
  - unfold FileBacked.deleteComment. destruct (_ =? _)%nat; exact Hst.
  - unfold FileBacked.recordActivity. destruct (_ || _); exact Hst.
  - unfold FileBacked.createUser. destruct (negb _); exact Hst.
Qed.

(** Among stories with unique ids, to leave out the stories with the id of
    a story of the store is to leave out that story and no other. *)
Lemma same_id_same_story (l : list Story.t) (s viewed : Story.t) :
  NoDup (map Story.id l) -> In s l -> In viewed l ->
  (String.eqb (Story.id s) (Story.id viewed) = true <-> s = viewed).
Proof.
  intros Hl Hs Hv. rewrite String.eqb_eq. split; [|now intros ->].
  induction l as [|x l IH]; [contradiction|].
  inversion Hl as [|i ids Hout Hrest]; subst. intros Hid.
  destruct Hs as [->|Hs], Hv as [->|Hv]; try reflexivity.
  - exfalso. apply Hout. rewrite Hid. now apply in_map.
  - exfalso. apply Hout. rewrite <- Hid. now apply in_map.
  - now apply IH.
Qed.

(** * Further properties of the two servers *)

(** ** Refusals, orphans and the document on disk *)

Lemma in_memory_updateStory_answers (st : InMemory.state) (i : string)
    (p : story_patch) :
  status_of (fst (InMemory.updateStory st i p)) = 200%nat
  \/ status_of (fst (InMemory.updateStory st i p)) = 404%nat.
Proof.
  unfold InMemory.updateStory.
  destruct (findIndex _ _) as [idx|] eqn:E; [|now right].
  apply findIndex_Some in E as (old & Hnth & _).
  rewrite (nth_error_update_nth idx _ _ old Hnth). now left.
Qed.

(** X1 — A request that the in-memory server answers with 400 or 404
    leaves the stories, users and comments exactly as they were: every
    handler checks before it assigns, and the filters of the two
    deletions keep every element when they answer NotFound. *)
Theorem X1_in_memory_refusal_changes_nothing (e : env) (st : InMemory.state)
    (r : InMemory.request) :
  Spec.refused (fst (InMemory.step e st r)) ->
  snd (InMemory.step e st r) = st
  /\ (forall i, r = InMemory.DeleteStory i ->
                ~ In i (map Story.id (InMemory.stories st)))
  /\ (forall i, r = InMemory.DeleteComment i ->
                ~ In i (map Comment.id (InMemory.comments st))).
Proof.
  intros Hrefused. split; [now apply in_memory_refusal_keeps_state|].
  split; intros i ->; cbn [InMemory.step] in Hrefused; intros Hin;
    apply in_map_iff in Hin as (x & Hid & Hx).
  - unfold InMemory.deleteStory in Hrefused.
    destruct (Nat.eqb_spec
                (length (filter (fun s => negb (story_has_id i s))
                                (InMemory.stories st)))
                (length (InMemory.stories st))) as [E|E].
    + pose proof (filter_same_length _ _ E x Hx) as H. unfold story_has_id in H.
      rewrite Hid, String.eqb_refl in H. discriminate H.
    + destruct Hrefused as [H|H]; discriminate H.
  - unfold InMemory.deleteComment in Hrefused.
    destruct (Nat.eqb_spec
                (length (filter (fun c => negb (comment_has_id i c))
                                (InMemory.comments st)))
                (length (InMemory.comments st))) as [E|E].
    + pose proof (filter_same_length _ _ E x Hx) as H. unfold comment_has_id in H.
      rewrite Hid, String.eqb_refl in H. discriminate H.
    + destruct Hrefused as [H|H]; discriminate H.
Qed.

Lemma X1_in_memory_refusal_changes_nothing_witness :
  Spec.refused (fst (InMemory.step Sample.e1 Sample.library_in_memory
                                   (InMemory.DeleteStory "s7")))
  /\ snd (InMemory.step Sample.e1 Sample.library_in_memory
                        (InMemory.DeleteStory "s7"))
     = Sample.library_in_memory.
Proof.
  assert (Spec.refused (fst (InMemory.step Sample.e1 Sample.library_in_memory
                                           (InMemory.DeleteStory "s7")))) as H
    by (right; reflexivity).
  split; [exact H|].
  exact (proj1 (X1_in_memory_refusal_changes_nothing
                  Sample.e1 Sample.library_in_memory (InMemory.DeleteStory "s7") H)).
Defined.

Lemma run_keeps_no_orphans {json : JsonLines} (st : FileBacked.state)
    (rs : list (env * FileBacked.request)) :
  Spec.no_orphans st -> Spec.no_orphans (FileBacked.run st rs).
Proof.
  revert st. induction rs as [|[e r] rs IH]; intros st Hst; [exact Hst|].
  cbn [FileBacked.run]. apply IH. now apply step_keeps_no_orphans.
Qed.

(** X2 — On the file-backed server, a store in which every comment names a
    stored story stays such a store through every run of requests, and in
    every state of such a run a request that is answered with 400 or 404
    leaves the collections and both files exactly as they were. *)
Theorem X2_file_backed_refusal_changes_nothing {json : JsonLines}
    (st : FileBacked.state) (rs : list (env * FileBacked.request)) :
  Spec.no_orphans st ->
  let st' := FileBacked.run st rs in
  Spec.no_orphans st'
  /\ forall e r, Spec.refused (fst (FileBacked.step e st' r)) ->
                 snd (FileBacked.step e st' r) = st'.
Proof.
  intros Hst st'. assert (Spec.no_orphans st') as H by now apply run_keeps_no_orphans.
  split; [exact H|]. intros e r. now apply file_backed_refusal_keeps_state.
Qed.

Lemma X2_file_backed_refusal_changes_nothing_witness :
  let st := FileBacked.init None None Sample.start in
  let st' := FileBacked.run (json := plain_lines) st
               [(Sample.e1, FileBacked.CreateComment "s1"
                              (mk_comment_body (Some "u1") (Some "hi")));
                (Sample.e1, FileBacked.DeleteStory "s1")] in
  Spec.no_orphans st
  /\ Spec.no_orphans st'
  /\ snd (FileBacked.step (json := plain_lines) Sample.e1 st'
                          (FileBacked.DeleteStory "s1")) = st'.
Proof.
  cbv zeta.
  assert (Spec.no_orphans (FileBacked.init None None Sample.start)) as Hst
    by (intros c []).
  destruct (X2_file_backed_refusal_changes_nothing (json := plain_lines)
              (FileBacked.init None None Sample.start)
              [(Sample.e1, FileBacked.CreateComment "s1"
                             (mk_comment_body (Some "u1") (Some "hi")));
               (Sample.e1, FileBacked.DeleteStory "s1")] Hst) as [Hrun Hrefused].
  split; [exact Hst|]. split; [exact Hrun|].
  apply Hrefused. right. reflexivity.
Defined.

Lemma step_keeps_flushed {json : JsonLines} (e : env) (st : FileBacked.state)
    (r : FileBacked.request) :
  Spec.no_orphans st -> Spec.flushed st ->
  Spec.flushed (snd (FileBacked.step e st r)).
Proof.
  intros Hst Hf.
  destruct r as [s|q|i|b|i p|i|i|i|i b|i|b|u|i|b]; cbn [FileBacked.step snd];
    try exact Hf.
  - unfold FileBacked.createStory. destruct (_ || _); [exact Hf|reflexivity].
  - unfold FileBacked.updateStory.
    destruct (findIndex _ _) as [idx|]; [|exact Hf].
    destruct (nth_error _ idx); reflexivity.
  - destruct (in_dec string_dec i (map Story.id (FileBacked.stories st)))
      as [Hin|Hout].
    + rewrite (deleteStory_present st i Hin). reflexivity.
    + rewrite (deleteStory_absent st i Hout). cbn [snd].
      rewrite filter_keeps_all; [now destruct st|].
      intros c Hc. unfold comment_of_story.
      destruct (String.eqb_spec (Comment.storyId c) i) as [E|E]; [|reflexivity].
      exfalso. apply Hout. rewrite <- E. now apply Hst.
  - unfold FileBacked.likeStory.
    destruct (findIndex _ _) as [idx|]; [|exact Hf].
    destruct (nth_error _ idx); reflexivity.
  - unfold FileBacked.createComment.
    destruct (find _ _) as [story|]; [|exact Hf].
    destruct (_ || _); [exact Hf|reflexivity].
  - unfold FileBacked.deleteComment.
    destruct (Nat.eqb_spec (length (filter (fun c => negb (comment_has_id i c))
                                            (FileBacked.comments st)))
                           (length (FileBacked.comments st))) as [E|E];
      [|reflexivity].
    cbn [snd]. rewrite (filter_same_length_eq _ _ E). now destruct st.
  - unfold FileBacked.recordActivity. destruct (_ || _); [exact Hf|].
    destruct st. exact Hf.
  - unfold FileBacked.createUser. destruct (negb _); [exact Hf|reflexivity].
Qed.

(** X3 — On the file-backed server, from a store that is on disk and in
    which every comment names a stored story, every run of requests ends in
    a store that is on disk: [data.json] holds exactly the stories, users
    and comments of the memory, and a process started from the two files
    is in the state in which the run ended. *)
Theorem X3_disk_mirrors_memory {json : JsonLines} (st : FileBacked.state)
    (rs : list (env * FileBacked.request)) (start : string) :
  Spec.no_orphans st -> Spec.flushed st ->
  let st' := FileBacked.run st rs in
  Spec.flushed st'
  /\ FileBacked.init (FileBacked.data_file st') (FileBacked.activity_file st') start
     = st'.
Proof.
  intros Hst Hf st'.
  assert (Spec.flushed st') as H.
  { subst st'. revert st Hst Hf.
    induction rs as [|[e r] rs IH]; intros st Hst Hf; [exact Hf|].
    cbn [FileBacked.run]. apply IH.
    - now apply step_keeps_no_orphans.
    - now apply step_keeps_flushed. }
  split; [exact H|]. now apply restart_of_flushed.
Qed.

Lemma X3_disk_mirrors_memory_witness :
  let st := FileBacked.saveDB Sample.library in
  let rs := [(Sample.e1, FileBacked.LikeStory "s2");
             (Sample.e1, FileBacked.DeleteStory "s7");
             (Sample.e1, FileBacked.RecordActivity
                           (mk_activity_body (Some "u1") (Some "s1")));
             (Sample.e1, FileBacked.DeleteStory "s1")] in
  let st' := FileBacked.run (json := plain_lines) st rs in
  Spec.no_orphans st /\ Spec.flushed st
  /\ FileBacked.init (FileBacked.data_file st') (FileBacked.activity_file st')
                     Sample.start = st'.
Proof.
  cbv zeta.
  assert (Spec.no_orphans (FileBacked.saveDB Sample.library)) as Hst.
  { intros c [<-|[]]. simpl. tauto. }
  assert (Spec.flushed (FileBacked.saveDB Sample.library)) as Hf by reflexivity.
  split; [exact Hst|]. split; [exact Hf|].
  exact (proj2 (X3_disk_mirrors_memory (json := plain_lines) _ _ Sample.start Hst Hf)).
Defined.

(** ** Likes *)

Lemma find_update_nth_first {A : Type} (p : A -> bool) (f : A -> A)
    (l : list A) (idx : nat) (old : A) :
  findIndex p l = Some idx -> nth_error l idx = Some old -> p (f old) = true ->
  find p (update_nth idx f l) = Some (f old).
Proof.
  revert idx. induction l as [|x l IH]; simpl; intros idx Hidx Hnth Hp;
    [discriminate|].
  destruct (p x) eqn:Hx.
  - injection Hidx as <-. simpl in *. injection Hnth as ->. now rewrite Hp.
  - destruct (findIndex p l) as [i|]; [|discriminate].
    injection Hidx as <-. simpl in *. rewrite Hx. now apply IH.
Qed.

Lemma likeStory_state (st : FileBacked.state) (i : string) (old : Story.t) :
  find (story_has_id i) (FileBacked.stories st) = Some old ->
  let st' := snd (FileBacked.likeStory st i) in
  find (story_has_id i) (FileBacked.stories st')
  = Some (Story.set_likes (Double.add1 (Story.likes old)) old)
  /\ length (FileBacked.stories st') = length (FileBacked.stories st)
  /\ FileBacked.users st' = FileBacked.users st
  /\ FileBacked.comments st' = FileBacked.comments st.
Proof.
  intros Hfind. pose proof Hfind as Hold. apply find_some in Hold as [_ Hold].
  rewrite find_findIndex in Hfind. unfold FileBacked.likeStory.
  destruct (findIndex _ _) as [idx|] eqn:Hidx; [|discriminate].
  cbn [FileBacked.stories FileBacked.saveDB FileBacked.with_stories].
  rewrite (nth_error_update_nth idx
             (fun s => Story.set_likes (Double.add1 (Story.likes s)) s) _ old Hfind).
  cbn [snd FileBacked.stories FileBacked.users FileBacked.comments].
  split; [|split; [apply update_nth_length|split; reflexivity]].
  now apply (find_update_nth_first (story_has_id i)
               (fun s => Story.set_likes (Double.add1 (Story.likes s)) s)).
Qed.

(** X4 — Likes add up: when the store has a story with the id, whose likes
    are an integer of at least -2^53, a run of n like requests for that id
    that does not take the likes above 2^53 (up to there the doubles of
    JavaScript count by one) leaves the first story with the id with its
    likes raised by exactly n and its other fields as they were, and
    leaves the number of stories, the users and the comments as they
    were. *)
Theorem X4_likes_add_up {json : JsonLines} (st : FileBacked.state)
    (i : string) (old : Story.t) (es : list env) :
  find (story_has_id i) (FileBacked.stories st) = Some old ->
  (- 2 ^ 53 <= Story.likes old)%Z ->
  (Story.likes old + Z.of_nat (length es) <= 2 ^ 53)%Z ->
  let st' := FileBacked.run st (map (fun e => (e, FileBacked.LikeStory i)) es) in
  find (story_has_id i) (FileBacked.stories st')
  = Some (Story.set_likes (Story.likes old + Z.of_nat (length es)) old)
  /\ length (FileBacked.stories st') = length (FileBacked.stories st)
  /\ FileBacked.users st' = FileBacked.users st
  /\ FileBacked.comments st' = FileBacked.comments st.
Proof.
  revert st old. induction es as [|e es IH]; intros st old Hfind Hlow Hhigh.
  - cbn. rewrite Z.add_0_r. destruct old. auto.
  - cbn [map FileBacked.run FileBacked.step length] in *.
    rewrite Nat2Z.inj_succ in Hhigh.
    destruct (likeStory_state st i old Hfind) as (Hliked & Hlen & Hus & Hcs).
    rewrite add1_exact in Hliked by lia.
    destruct (IH _ _ Hliked) as (H1 & H2 & H3 & H4); [cbn; lia|cbn; lia|].
    cbv zeta. rewrite H1, H2, H3, H4, Hlen, Hus, Hcs.
    split; [|auto]. f_equal. unfold Story.set_likes. cbn.
    f_equal. lia.
Qed.

Lemma X4_likes_add_up_witness :
  find (story_has_id "s1") (FileBacked.stories Sample.library)
  = Some (seed_story Sample.start)
  /\ (- 2 ^ 53 <= Story.likes (seed_story Sample.start))%Z
  /\ (Story.likes (seed_story Sample.start) + 3 <= 2 ^ 53)%Z
  /\ option_map Story.likes
       (find (story_has_id "s1")
             (FileBacked.stories
                (FileBacked.run (json := plain_lines) Sample.library
                   (map (fun e => (e, FileBacked.LikeStory "s1"))
                        [Sample.e1; Sample.e1; Sample.e1]))))
     = Some 6%Z.
Proof.
  assert (find (story_has_id "s1") (FileBacked.stories Sample.library)
          = Some (seed_story Sample.start)) as Hfind by reflexivity.
  assert (- 2 ^ 53 <= Story.likes (seed_story Sample.start))%Z as Hlow
    by (vm_compute; discriminate).
  assert (Story.likes (seed_story Sample.start)
          + Z.of_nat (length [Sample.e1; Sample.e1; Sample.e1]) <= 2 ^ 53)%Z
    as Hhigh by (vm_compute; discriminate).
  split; [exact Hfind|]. split; [exact Hlow|]. split; [exact Hhigh|].
  rewrite (proj1 (X4_likes_add_up (json := plain_lines) Sample.library "s1"
                    (seed_story Sample.start) [Sample.e1; Sample.e1; Sample.e1]
                    Hfind Hlow Hhigh)).
  reflexivity.
Defined.

(** ** Where the stories of the store come from *)

Lemma In_update_nth {A : Type} (idx : nat) (f : A -> A) (l : list A) (y : A) :
  In y (update_nth idx f l) ->
  In y l \/ exists x, nth_error l idx = Some x /\ y = f x.
Proof.
  revert idx. induction l as [|x l IH]; intros [|i]; simpl; try tauto.
  - intros [<-|H]; [right; now exists x|tauto].
  - intros [<-|H]; [tauto|]. destruct (IH i H) as [H'|H']; tauto.
Qed.

(** A story of the store after a request is a story of the store before
    it, or that story patched or liked by the request, or the story that
    the request creates. *)
Lemma step_story_provenance {json : JsonLines} (e : env)
    (st : FileBacked.state) (r : FileBacked.request) (s' : Story.t) :
  In s' (FileBacked.stories (snd (FileBacked.step e st r))) ->
  In s' (FileBacked.stories st)
  \/ (exists s p, In s (FileBacked.stories st)
                  /\ r = FileBacked.UpdateStory (Story.id s) p
                  /\ s' = FileBacked.apply_patch p s)
  \/ (exists s, In s (FileBacked.stories st)
                /\ r = FileBacked.LikeStory (Story.id s)
                /\ s' = Story.set_likes (Double.add1 (Story.likes s)) s)
  \/ (exists b, r = FileBacked.CreateStory b
                /\ s' = Story.mk (uuidv4 e) (or_empty (b_title b))
                                 (or_empty (b_body b)) (or_empty (b_authorId b))
                                 (or_empty (b_genre b)) 0 (now e)).
Proof.
  destruct r as [s|q|i|b|i p|i|i|i|i b|i|b|u|i|b]; cbn [FileBacked.step snd];
    try (intros H; now left).
  - unfold FileBacked.createStory. destruct (_ || _); [intros H; now left|].
    cbn. intros [<-|H]; [|now left]. right. right. right. now exists b.
  - unfold FileBacked.updateStory.
    destruct (findIndex _ _) as [idx|] eqn:E; [|intros H; now left].
    apply findIndex_Some in E as (old & Hnth & Hid).
    apply String.eqb_eq in Hid.
    assert (In s' (update_nth idx (FileBacked.apply_patch p) (FileBacked.stories st))
            -> In s' (FileBacked.stories st)
               \/ (exists s p0, In s (FileBacked.stories st)
                                /\ FileBacked.UpdateStory i p
                                   = FileBacked.UpdateStory (Story.id s) p0
                                /\ s' = FileBacked.apply_patch p0 s)) as H.
    { intros H. apply In_update_nth in H as [H|(x & Hx & ->)]; [now left|].
      right. exists x, p. rewrite Hx in Hnth. injection Hnth as ->.
      rewrite Hid. split; [|auto]. now apply nth_error_In with idx. }
    cbn [FileBacked.stories FileBacked.saveDB FileBacked.with_stories].
    destruct (nth_error (update_nth idx _ _) idx); cbn; intros H';
      destruct (H H'); tauto.
  - unfold FileBacked.deleteStory.
    destruct (_ =? _)%nat; cbn; intros H; apply filter_In in H; tauto.
  - unfold FileBacked.likeStory.
    destruct (findIndex _ _) as [idx|] eqn:E; [|intros H; now left].
    apply findIndex_Some in E as (old & Hnth & Hid).
    apply String.eqb_eq in Hid.
    assert (In s' (update_nth idx (fun s => Story.set_likes (Double.add1 (Story.likes s)) s)
                              (FileBacked.stories st))
            -> In s' (FileBacked.stories st)
               \/ (exists s, In s (FileBacked.stories st)
                             /\ FileBacked.LikeStory i
                                = FileBacked.LikeStory (Story.id s)
                             /\ s' = Story.set_likes (Double.add1 (Story.likes s)) s)) as H.
    { intros H. apply In_update_nth in H as [H|(x & Hx & ->)]; [now left|].
      right. exists x. rewrite Hx in Hnth. injection Hnth as ->.
      rewrite Hid. split; [|auto]. now apply nth_error_In with idx. }
    cbn [FileBacked.stories FileBacked.saveDB FileBacked.with_stories].
    destruct (nth_error (update_nth idx _ _) idx); cbn; intros H';
      destruct (H H'); tauto.
  - unfold FileBacked.createComment.
    destruct (find _ _) as [story|]; [|intros H; now left].
    destruct (_ || _); intros H; now left.
  - unfold FileBacked.deleteComment. destruct (_ =? _)%nat; intros H; now left.
  - unfold FileBacked.recordActivity. destruct (_ || _); intros H; now left.
  - unfold FileBacked.createUser. destruct (negb _); intros H; now left.
Qed.

(** X5 — No request of the file-backed server changes the id, the authorId
    or the createdAt of a stored story: every story of the store after a
    request has the id, authorId and createdAt of a story that was in the
    store before it, or is the story that the request creates, with the id
    from [uuidv4()], the time of the request as createdAt and 0 likes. *)
Theorem X5_story_identity_is_kept {json : JsonLines} (e : env)
    (st : FileBacked.state) (r : FileBacked.request) (s' : Story.t) :
  In s' (FileBacked.stories (snd (FileBacked.step e st r))) ->
  (exists s, In s (FileBacked.stories st)
             /\ Story.id s' = Story.id s
             /\ Story.authorId s' = Story.authorId s
             /\ Story.createdAt s' = Story.createdAt s)
  \/ (exists b, r = FileBacked.CreateStory b
                /\ Story.id s' = uuidv4 e
                /\ Story.authorId s' = or_empty (b_authorId b)
                /\ Story.createdAt s' = now e
                /\ Story.likes s' = 0%Z).
Proof.
  intros H. apply step_story_provenance in H
    as [H|[(s & p & Hs & _ & ->)|[(s & Hs & _ & ->)|(b & -> & ->)]]].
  - left. exists s'. auto.
  - left. exists s. destruct (apply_patch_patched p s) as (_ & _ & _ & _ & ? & ? & ?).
    auto.
  - left. exists s. auto.
  - right. exists b. cbn. auto.
Qed.

Lemma X5_story_identity_is_kept_witness :
  let r := FileBacked.UpdateStory "s2" Sample.retitle in
  let s' := FileBacked.apply_patch Sample.retitle Sample.fantasy2 in
  In s' (FileBacked.stories (snd (FileBacked.step (json := plain_lines)
                                    Sample.e1 Sample.library r)))
  /\ exists s, In s (FileBacked.stories Sample.library)
               /\ Story.id s' = Story.id s
               /\ Story.authorId s' = Story.authorId s
               /\ Story.createdAt s' = Story.createdAt s.
Proof.
  cbv zeta.
  assert (In (FileBacked.apply_patch Sample.retitle Sample.fantasy2)
             (FileBacked.stories
                (snd (FileBacked.step (json := plain_lines) Sample.e1 Sample.library
                        (FileBacked.UpdateStory "s2" Sample.retitle))))) as Hin
    by (left; reflexivity).
  split; [exact Hin|].
  destruct (X5_story_identity_is_kept (json := plain_lines) _ _ _ _ Hin)
    as [H|(b & Hb & _)]; [exact H|discriminate Hb].
Defined.

(** X6 — Likes change by a like or by a patch that holds likes, and by
    nothing else: on a store whose likes are integers from -2^53 to below
    2^53 (where the doubles of JavaScript count by one), after a request
    that is no update with likes in its patch, every story of the store
    has the likes of a story with its id that was in the store before, or
    one more when the request is the like of that id, or is the story
    that the request creates, with 0 likes. *)
Theorem X6_likes_change_by_like_or_patch {json : JsonLines} (e : env)
    (st : FileBacked.state) (r : FileBacked.request) (s' : Story.t) :
  Forall (fun s => (- 2 ^ 53 <= Story.likes s < 2 ^ 53)%Z) (FileBacked.stories st) ->
  (forall i p, r = FileBacked.UpdateStory i p -> p_likes p = None) ->
  In s' (FileBacked.stories (snd (FileBacked.step e st r))) ->
  (exists s, In s (FileBacked.stories st)
             /\ Story.id s' = Story.id s
             /\ (Story.likes s' = Story.likes s
                 \/ (r = FileBacked.LikeStory (Story.id s)
                     /\ Story.likes s' = (Story.likes s + 1)%Z)))
  \/ (exists b, r = FileBacked.CreateStory b /\ Story.likes s' = 0%Z).
Proof.
  intros Hsafe Hr H. apply step_story_provenance in H
    as [H|[(s & p & Hs & Hp & ->)|[(s & Hs & Hl & ->)|(b & -> & ->)]]].
  - left. exists s'. auto.
  - left. exists s. pose proof (Hr _ _ Hp) as Hnone.
    destruct (apply_patch_patched p s) as (_ & _ & _ & Hlikes & Hid & _).
    rewrite Hnone in Hlikes. auto.
  - left. exists s. split; [assumption|]. split; [reflexivity|]. right.
    split; [assumption|]. cbn. apply add1_exact.
    exact (proj1 (Forall_forall _ _) Hsafe s Hs).
  - right. exists b. auto.
Qed.

Lemma X6_likes_change_by_like_or_patch_witness :
  let r := FileBacked.LikeStory "s1" in
  let s' := Story.set_likes 4%Z (seed_story Sample.start) in
  Forall (fun s => (- 2 ^ 53 <= Story.likes s < 2 ^ 53)%Z)
         (FileBacked.stories Sample.library)
  /\ (forall i p, r = FileBacked.UpdateStory i p -> p_likes p = None)
  /\ In s' (FileBacked.stories (snd (FileBacked.step (json := plain_lines)
                                       Sample.e1 Sample.library r)))
  /\ exists s, In s (FileBacked.stories Sample.library)
               /\ Story.id s' = Story.id s
               /\ (Story.likes s' = Story.likes s
                   \/ (r = FileBacked.LikeStory (Story.id s)
                       /\ Story.likes s' = (Story.likes s + 1)%Z)).
Proof.
  cbv zeta.
  assert (Forall (fun s => (- 2 ^ 53 <= Story.likes s < 2 ^ 53)%Z)
                 (FileBacked.stories Sample.library)) as Hsafe
    by (repeat constructor; vm_compute; intuition discriminate).
  assert (forall i p, FileBacked.LikeStory "s1" = FileBacked.UpdateStory i p ->
                      p_likes p = None) as Hr by (intros i p; discriminate).
  assert (In (Story.set_likes 4%Z (seed_story Sample.start))
             (FileBacked.stories
                (snd (FileBacked.step (json := plain_lines) Sample.e1 Sample.library
                        (FileBacked.LikeStory "s1"))))) as Hin
    by (right; right; left; reflexivity).
  split; [exact Hsafe|]. split; [exact Hr|]. split; [exact Hin|].
  destruct (X6_likes_change_by_like_or_patch (json := plain_lines) _ _ _ _
              Hsafe Hr Hin)
    as [H|(b & Hb & _)]; [exact H|discriminate Hb].
Defined.

(** ** Users *)

Lemma find_app_first {A : Type} (p : A -> bool) (l added : list A) (x : A) :
  find p l = Some x -> find p (l ++ added) = Some x.
Proof.
  induction l as [|y l IH]; simpl; [discriminate|].
  destruct (p y); [auto|exact IH].
Qed.

Lemma step_users {json : JsonLines} (e : env) (st : FileBacked.state)
    (r : FileBacked.request) :
  exists added,
    FileBacked.users (snd (FileBacked.step e st r)) = FileBacked.users st ++ added
    /\ Forall (fun u => User.name u <> EmptyString /\ User.bio u = EmptyString) added.
Proof.
  assert (exists added,
             FileBacked.users st = FileBacked.users st ++ added
             /\ Forall (fun u => User.name u <> EmptyString
                                 /\ User.bio u = EmptyString) added) as Hsame
    by (exists []; split; [now rewrite app_nil_r|constructor]).
  destruct r as [s|q|i|b|i p|i|i|i|i b|i|b|u|i|b]; cbn [FileBacked.step snd];
    try exact Hsame.
  - unfold FileBacked.createStory. destruct (_ || _); exact Hsame.
  - unfold FileBacked.updateStory. destruct (findIndex _ _) as [idx|]; [|exact Hsame].
    cbn [FileBacked.stories FileBacked.saveDB FileBacked.with_stories].
    destruct (nth_error (update_nth idx _ _) idx); exact Hsame.
  - unfold FileBacked.deleteStory. destruct (_ =? _)%nat; exact Hsame.
  - unfold FileBacked.likeStory. destruct (findIndex _ _) as [idx|]; [|exact Hsame].
    cbn [FileBacked.stories FileBacked.saveDB FileBacked.with_stories].
    destruct (nth_error (update_nth idx _ _) idx); exact Hsame.
  - unfold FileBacked.createComment. destruct (find _ _); [|exact Hsame].
    destruct (_ || _); exact Hsame.
  - unfold FileBacked.deleteComment. destruct (_ =? _)%nat; exact Hsame.
  - unfold FileBacked.recordActivity. destruct (_ || _); exact Hsame.
  - unfold FileBacked.createUser.
    destruct (truthy (ub_name b)) eqn:Hname; cbn [negb]; [|exact Hsame].
    eexists. split; [reflexivity|]. repeat constructor. cbn.
    destruct (ub_name b) as [[|c n]|]; discriminate.
Qed.

(** X7 — Users are only ever added: after every run of requests the user
    collection is the one before the run followed by the users that the
    run created, each with a name that is not empty and an empty bio; so a
    user id that [getUser] resolved before the run resolves to the same
    user, field for field, after it. *)
Theorem X7_users_are_append_only {json : JsonLines} (st : FileBacked.state)
    (rs : list (env * FileBacked.request)) :
  (exists added,
      FileBacked.users (FileBacked.run st rs) = FileBacked.users st ++ added
      /\ Forall (fun u => User.name u <> EmptyString /\ User.bio u = EmptyString)
                added)
  /\ forall i u,
      FileBacked.getUser st i = Reply 200 (FileBacked.OneUser u) ->
      FileBacked.getUser (FileBacked.run st rs) i = Reply 200 (FileBacked.OneUser u).
Proof.
  assert (exists added,
             FileBacked.users (FileBacked.run st rs) = FileBacked.users st ++ added
             /\ Forall (fun u => User.name u <> EmptyString
                                 /\ User.bio u = EmptyString) added) as H.
  { revert st. induction rs as [|[e r] rs IH]; intros st.
    - exists []. split; [now rewrite app_nil_r|constructor].
    - cbn [FileBacked.run].
      destruct (IH (snd (FileBacked.step e st r))) as (more & Hmore & Fmore).
      destruct (step_users e st r) as (added & Hadded & Fadded).
      exists (added ++ more). rewrite Hmore, Hadded, app_assoc.
      split; [reflexivity|]. apply Forall_app. now split. }
  split; [exact H|].
  destruct H as (added & Hadded & _). intros i u. unfold FileBacked.getUser.
  rewrite Hadded. destruct (find (user_has_id i) (FileBacked.users st)) as [v|] eqn:E;
    [|discriminate].
  intros [= ->]. now rewrite (find_app_first _ _ added u E).
Qed.

Lemma X7_users_are_append_only_witness :
  let rs := [(Sample.e1, FileBacked.CreateUser (mk_user_body (Some "Ada") None));
             (Sample.e1, FileBacked.DeleteStory "s1")] in
  FileBacked.getUser Sample.library "u1" = Reply 200 (FileBacked.OneUser seed_user)
  /\ FileBacked.getUser (FileBacked.run (json := plain_lines) Sample.library rs) "u1"
     = Reply 200 (FileBacked.OneUser seed_user).
Proof.
  cbv zeta.
  assert (FileBacked.getUser Sample.library "u1"
          = Reply 200 (FileBacked.OneUser seed_user)) as H by reflexivity.
  split; [exact H|].
  exact (proj2 (X7_users_are_append_only (json := plain_lines) Sample.library _)
               "u1" seed_user H).
Defined.

(** ** The activity log *)

Lemma log_text_app (xs ys : list string) :
  Log.log_text (xs ++ ys) = (Log.log_text xs ++ Log.log_text ys)%string.
Proof.
  induction xs as [|x xs IH]; [reflexivity|].
  cbn [app Log.log_text]. rewrite IH. now rewrite append_assoc.
Qed.

Lemma append_empty_r (s : string) : (s ++ EmptyString)%string = s.
Proof. induction s as [|c s IH]; [reflexivity|]. cbn. now rewrite IH. Qed.

Lemma step_activity_file {json : JsonLines} (e : env) (st : FileBacked.state)
    (r : FileBacked.request) :
  FileBacked.activity_file (snd (FileBacked.step e st r))
  = match Log.accepted_activity e r with
    | Some a =>
        Some (or_empty (FileBacked.activity_file st)
              ++ Log.log_text [JSON_stringify a])%string
    | None => FileBacked.activity_file st
    end.
Proof.
  destruct r as [s|q|i|b|i p|i|i|i|i b|i|b|u|i|b];
    cbn [FileBacked.step snd Log.accepted_activity]; try reflexivity.
  - unfold FileBacked.createStory. destruct (_ || _); reflexivity.
  - unfold FileBacked.updateStory. destruct (findIndex _ _) as [idx|]; [|reflexivity].
    cbn [FileBacked.stories FileBacked.saveDB FileBacked.with_stories].
    destruct (nth_error (update_nth idx _ _) idx); reflexivity.
  - unfold FileBacked.deleteStory. destruct (_ =? _)%nat; reflexivity.
  - unfold FileBacked.likeStory. destruct (findIndex _ _) as [idx|]; [|reflexivity].
    cbn [FileBacked.stories FileBacked.saveDB FileBacked.with_stories].
    destruct (nth_error (update_nth idx _ _) idx); reflexivity.
  - unfold FileBacked.createComment. destruct (find _ _); [|reflexivity].
    destruct (_ || _); reflexivity.
  - unfold FileBacked.deleteComment. destruct (_ =? _)%nat; reflexivity.
  - unfold FileBacked.recordActivity. destruct (_ || _); reflexivity.
  - unfold FileBacked.createUser. destruct (negb _); reflexivity.
Qed.

Lemma run_activity_file {json : JsonLines}
    (st : FileBacked.state) (rs : list (env * FileBacked.request)) :
  let before := FileBacked.activity_file st in
  let after := FileBacked.activity_file (FileBacked.run st rs) in
  or_empty after
  = (or_empty before ++ Log.log_text (map JSON_stringify (Log.recorded rs)))%string
  /\ (after = None <-> before = None /\ Log.recorded rs = []).
Proof.
  cbv zeta. revert st. induction rs as [|[e r] rs IH]; intros st.
  - cbn. rewrite append_empty_r. tauto.
  - cbn [FileBacked.run Log.recorded].
    destruct (IH (snd (FileBacked.step e st r))) as [Htext Hnone].
    rewrite Htext, Hnone, step_activity_file.
    destruct (Log.accepted_activity e r) as [a|].
    + cbn [or_empty map]. change (JSON_stringify a :: map JSON_stringify (Log.recorded rs))
        with ([JSON_stringify a] ++ map JSON_stringify (Log.recorded rs)).
      rewrite log_text_app, append_assoc.
      split; [reflexivity|]. split; [intros [H _]; discriminate H|].
      intros [_ H]. discriminate H.
    + tauto.
Qed.

(** X8 — The activity log is append-only, and only accepted
    [POST /api/userActivity] requests write it: after every run of
    requests the text of the log is the text before the run followed by
    one line, ended by a line feed, for each accepted activity request of
    the run, in the order of the requests; the file exists after the run
    exactly when it existed before or the run appended a line; and a run
    without an accepted activity request leaves the file as it was. *)
Theorem X8_activity_log_is_append_only {json : JsonLines}
    (st : FileBacked.state) (rs : list (env * FileBacked.request)) :
  let before := FileBacked.activity_file st in
  let after := FileBacked.activity_file (FileBacked.run st rs) in
  or_empty after
  = (or_empty before ++ Log.log_text (map JSON_stringify (Log.recorded rs)))%string
  /\ (after = None <-> before = None /\ Log.recorded rs = [])
  /\ (Log.recorded rs = [] -> after = before).
Proof.
  cbv zeta. destruct (run_activity_file st rs) as [Htext Hnone].
  split; [exact Htext|]. split; [exact Hnone|].
  intros Hrs. rewrite Hrs in Htext, Hnone. cbn in Htext.
  rewrite append_empty_r in Htext.
  destruct (FileBacked.activity_file st) as [text|].
  - destruct (FileBacked.activity_file (FileBacked.run st rs)) as [text'|].
    + cbn in Htext. now subst.
    + destruct (proj1 Hnone eq_refl) as [H _]. discriminate H.
  - apply Hnone. now split.
Qed.

Lemma split_nonempty (sep : ascii) (s : string) : Text.split sep s <> [].
Proof.
  induction s as [|c s IH]; simpl; [discriminate|].
  destruct (Ascii.eqb c sep); [discriminate|].
  destruct (Text.split sep s); [contradiction|discriminate].
Qed.

(** A line without the separator is one piece, and the pieces of what
    follows its separator follow it. *)
Lemma split_line_cons (sep : ascii) (line rest : string) :
  Text.split sep line = [line] ->
  Text.split sep (line ++ String sep rest) = line :: Text.split sep rest.
Proof.
  induction line as [|c line IH]; intros H.
  - cbn. now rewrite Ascii.eqb_refl.
  - cbn in H |- *. destruct (Ascii.eqb c sep); [discriminate|].
    assert (Text.split sep line = [line]) as Hline.
    { pose proof (split_nonempty sep line) as Hne.
      destruct (Text.split sep line) as [|piece pieces]; [contradiction|].
      inversion H. reflexivity. }
    now rewrite (IH Hline).
Qed.

Lemma trimEnd_app (s t : string) :
  Text.trimEnd (s ++ t)
  = match Text.trimEnd t with
    | EmptyString => Text.trimEnd s
    | kept => (s ++ kept)%string
    end.
Proof.
  induction s as [|c s IH].
  - cbn. now destruct (Text.trimEnd t).
  - cbn [append Text.trimEnd]. rewrite IH.
    destruct (Text.trimEnd t) as [|k kept]; [reflexivity|].
    now destruct s.
Qed.

Lemma clean_line_starts (s : string) :
  Log.clean_line s -> exists c s', s = String c s' /\ Text.is_space c = false.
Proof.
  intros (H & _ & _). destruct s as [|c s']; [discriminate|].
  exists c, s'. split; [reflexivity|]. now apply negb_true_iff.
Qed.

(** The lines of a log come back from its text, trimmed at the end. *)
Lemma split_trimEnd_log_text (l : string) (ls : list string) :
  Forall Log.clean_line (l :: ls) ->
  Text.trimEnd (Log.log_text (l :: ls)) <> EmptyString
  /\ Text.split Text.LF (Text.trimEnd (Log.log_text (l :: ls))) = l :: ls.
Proof.
  revert l. induction ls as [|l2 ls IH]; intros l H;
    inversion H as [|x xs Hl Hls]; subst;
    pose proof Hl as (_ & Hend & Hsplit);
    destruct (clean_line_starts l Hl) as (c & l' & -> & _).
  - change (Log.log_text [String c l'])
      with (String c l' ++ String Text.LF EmptyString)%string.
    rewrite trimEnd_app.
    change (Text.trimEnd (String Text.LF EmptyString)) with EmptyString.
    cbv iota. rewrite Hend. split; [discriminate|exact Hsplit].
  - change (Log.log_text (String c l' :: l2 :: ls))
      with (String c l' ++ String Text.LF (Log.log_text (l2 :: ls)))%string.
    rewrite trimEnd_app. destruct (IH l2 Hls) as [Hne Hrest].
    assert (Text.trimEnd (String Text.LF (Log.log_text (l2 :: ls)))
            = String Text.LF (Text.trimEnd (Log.log_text (l2 :: ls)))) as ->.
    { destruct (Text.trimEnd (Log.log_text (l2 :: ls))) as [|k kept] eqn:E;
        [contradiction|].
      cbn [Text.trimEnd]. now rewrite E. }
    split; [cbn [append]; discriminate|].
    now rewrite (split_line_cons Text.LF _ _ Hsplit), Hrest.
Qed.

Lemma lines_of_log_text (l : string) (ls : list string) :
  Forall Log.clean_line (l :: ls) ->
  Text.split Text.LF (Text.trim (Log.log_text (l :: ls))) = l :: ls.
Proof.
  intros H. unfold Text.trim.
  replace (Text.trimStart (Log.log_text (l :: ls))) with (Log.log_text (l :: ls)).
  - now apply split_trimEnd_log_text.
  - inversion H as [|x xs Hl _]; subst.
    destruct (clean_line_starts l Hl) as (c & l' & -> & Hc).
    cbn. now rewrite Hc.
Qed.

Lemma parse_written_lines {json : JsonLines} (records : list Activity.t) :
  Forall Log.faithful records ->
  FileBacked.parse_lines (map JSON_stringify records) = Some records.
Proof.
  induction 1 as [|a records [Ha _] _ IH]; [reflexivity|].
  cbn. now rewrite Ha, IH.
Qed.

Lemma history_of_run {json : JsonLines}
    (st : FileBacked.state) (rs : list (env * FileBacked.request))
    (userId : string) :
  FileBacked.activity_file st = None ->
  Forall Log.faithful (Log.recorded rs) ->
  FileBacked.getUserHistory (FileBacked.activity_file (FileBacked.run st rs)) userId
  = Some (filter (fun a => String.eqb (Activity.userId a) userId) (Log.recorded rs)).
Proof.
  intros Hnone Hfaithful.
  destruct (run_activity_file st rs) as [Htext Hfile].
  rewrite Hnone in Htext, Hfile. cbn [or_empty append] in Htext.
  destruct (Log.recorded rs) as [|a records] eqn:E.
  - replace (FileBacked.activity_file (FileBacked.run st rs)) with (@None string);
      [reflexivity|]. symmetry. apply Hfile. now split.
  - destruct (FileBacked.activity_file (FileBacked.run st rs)) as [content|] eqn:F.
    + cbn [or_empty] in Htext. subst content. unfold FileBacked.getUserHistory.
      change (map JSON_stringify (a :: records))
        with (JSON_stringify a :: map JSON_stringify records).
      rewrite lines_of_log_text.
      * change (JSON_stringify a :: map JSON_stringify records)
          with (map JSON_stringify (a :: records)).
        now rewrite (parse_written_lines _ Hfaithful).
      * change (JSON_stringify a :: map JSON_stringify records)
          with (map JSON_stringify (a :: records)).
        apply Forall_map. revert Hfaithful. apply Forall_impl. now intros b [_ Hb].
    + destruct (proj1 Hfile eq_refl) as [_ H]. discriminate H.
Qed.

(** X9 — What the server writes to the activity log it reads back: when
    the log does not exist before a run of requests, and the JSON codec
    writes each record of the run as one line (no line feed, no white
    space at its ends) that it parses back to the record, then after the
    run [getUserHistory(userId)] returns the records of the accepted
    activity requests of that user, in the order of the requests, with the
    userId, viewedStoryId and timestamp that were recorded; so [recommend]
    does not answer 500 after such a run. *)
Theorem X9_recorded_activity_is_read_back {json : JsonLines}
    (st : FileBacked.state) (rs : list (env * FileBacked.request))
    (userId : string) :
  FileBacked.activity_file st = None ->
  Forall Log.faithful (Log.recorded rs) ->
  FileBacked.getUserHistory (FileBacked.activity_file (FileBacked.run st rs)) userId
  = Some (filter (fun a => String.eqb (Activity.userId a) userId) (Log.recorded rs))
  /\ FileBacked.recommend (FileBacked.run st rs) userId <> InternalError.
Proof.
  intros Hnone Hfaithful.
  pose proof (history_of_run st rs userId Hnone Hfaithful) as H.
  split; [exact H|]. intros Hfail. apply recommend_fails_iff in Hfail.
  rewrite H in Hfail. discriminate Hfail.
Qed.

Lemma X9_recorded_activity_is_read_back_witness :
  let rs := [(Sample.e1, FileBacked.RecordActivity
                           (mk_activity_body (Some "u1") (Some "s1")));
             (Sample.e1, FileBacked.LikeStory "s1");
             (Sample.e1, FileBacked.RecordActivity
                           (mk_activity_body (Some "u2") (Some "s2")));
             (Sample.e1, FileBacked.RecordActivity
                           (mk_activity_body (Some "u1") None));
             (Sample.e1, FileBacked.RecordActivity
                           (mk_activity_body (Some "u1") (Some "s3")))] in
  FileBacked.activity_file Sample.library = None
  /\ Forall (Log.faithful (json := plain_lines)) (Log.recorded rs)
  /\ FileBacked.getUserHistory (json := plain_lines)
       (FileBacked.activity_file (FileBacked.run (json := plain_lines)
                                    Sample.library rs)) "u1"
     = Some [Activity.mk "u1" "s1" (now Sample.e1);
             Activity.mk "u1" "s3" (now Sample.e1)].
Proof.
  cbv zeta.
  assert (Forall (Log.faithful (json := plain_lines))
            (Log.recorded
               [(Sample.e1, FileBacked.RecordActivity
                              (mk_activity_body (Some "u1") (Some "s1")));
                (Sample.e1, FileBacked.LikeStory "s1");
                (Sample.e1, FileBacked.RecordActivity
                              (mk_activity_body (Some "u2") (Some "s2")));
                (Sample.e1, FileBacked.RecordActivity
                              (mk_activity_body (Some "u1") None));
                (Sample.e1, FileBacked.RecordActivity
                              (mk_activity_body (Some "u1") (Some "s3")))]))
    as Hfaithful by (repeat constructor; vm_compute; reflexivity).
  split; [reflexivity|]. split; [exact Hfaithful|].
  exact (proj1 (X9_recorded_activity_is_read_back (json := plain_lines)
                  Sample.library _ "u1" eq_refl Hfaithful)).
Defined.

(** ** Comments *)

(** X10 — A comment that is created shows at the end of the comments of
    its story: when the story exists and authorId and text are present
    and not empty, [createComment] answers 201 with a comment that has the
    id of the story as storyId, the id from [uuidv4()] and the time of the
    request as createdAt, appends it to the collection and writes the
    document; the comments that [listComments] gives for the story are
    then the ones it gave before, followed by the new comment. *)
Theorem X10_created_comment_is_listed_last (e : env) (st : FileBacked.state)
    (i : string) (b : comment_body) (before : list FileBacked.comment_view) :
  FileBacked.listComments st i = Reply 200 (FileBacked.CommentList before) ->
  truthy (cb_authorId b) = true -> truthy (cb_text b) = true ->
  exists c,
    let st' := snd (FileBacked.createComment e st i b) in
    let view := FileBacked.enrich_comment (FileBacked.users st) c in
    c = Comment.mk (uuidv4 e) i (or_empty (cb_authorId b)) (or_empty (cb_text b))
                   (now e)
    /\ fst (FileBacked.createComment e st i b) = Reply 201 (FileBacked.OneComment view)
    /\ FileBacked.comments st' = FileBacked.comments st ++ [c]
    /\ Spec.flushed st'
    /\ FileBacked.listComments st' i
       = Reply 200 (FileBacked.CommentList (before ++ [view])).
Proof.
  unfold FileBacked.listComments, FileBacked.createComment.
  destruct (find (story_has_id i) (FileBacked.stories st)) as [story|] eqn:E;
    [|discriminate].
  intros [= <-] -> ->. cbn [negb orb].
  pose proof E as Hfound. apply find_some in E as [_ Hid].
  apply String.eqb_eq in Hid.
  eexists. cbv zeta. rewrite Hid.
  split; [reflexivity|]. split; [reflexivity|]. split; [reflexivity|].
  split; [reflexivity|].
  cbn [snd FileBacked.stories FileBacked.saveDB FileBacked.with_comments].
  rewrite Hfound. unfold FileBacked.storyComments.
  cbn [FileBacked.users FileBacked.comments FileBacked.saveDB
       FileBacked.with_comments].
  rewrite Hid, filter_app, map_app. cbn [filter map].
  unfold comment_of_story at 2. cbn [Comment.storyId].
  now rewrite String.eqb_refl.
Qed.

Lemma X10_created_comment_is_listed_last_witness :
  let b := mk_comment_body (Some "u1") (Some "More, please") in
  let before := [FileBacked.enrich_comment [seed_user] Sample.c1] in
  FileBacked.listComments Sample.library "s1"
  = Reply 200 (FileBacked.CommentList before)
  /\ exists c,
      FileBacked.listComments
        (snd (FileBacked.createComment Sample.e1 Sample.library "s1" b)) "s1"
      = Reply 200 (FileBacked.CommentList
                     (before ++ [FileBacked.enrich_comment [seed_user] c]))
      /\ Comment.text c = "More, please".
Proof.
  cbv zeta.
  assert (FileBacked.listComments Sample.library "s1"
          = Reply 200 (FileBacked.CommentList
                         [FileBacked.enrich_comment [seed_user] Sample.c1])) as H
    by reflexivity.
  split; [exact H|].
  destruct (X10_created_comment_is_listed_last Sample.e1 Sample.library "s1"
              (mk_comment_body (Some "u1") (Some "More, please")) _ H
              eq_refl eq_refl) as (c & Hc & _ & _ & _ & Hlist).
  exists c. split; [exact Hlist|]. rewrite Hc. reflexivity.
Defined.

(** ** Creation, lookup and deletion *)

(** X11 — A story that is created is found by its id at once: for a valid
    body, [getStory] with the id from [uuidv4()] answers, right after the
    creation, with the story that the creation returned, author name
    included, even when an older story has the same id (the new story is
    at the head and [find] takes the first); its comments are the stored
    comments that name the id, so none when no stored comment names it. *)
Theorem X11_created_story_is_found_by_id (e : env) (st : FileBacked.state)
    (b : story_body) :
  Spec.valid_story_body b ->
  let st' := snd (FileBacked.createStory e st b) in
  exists view,
    fst (FileBacked.createStory e st b) = Reply 201 (FileBacked.OneStory view)
    /\ Story.id (FileBacked.sv_story view) = uuidv4 e
    /\ FileBacked.getStory st' (uuidv4 e)
       = Reply 200 (FileBacked.StoryDetail view
                      (map (FileBacked.enrich_comment (FileBacked.users st))
                           (filter (comment_of_story (uuidv4 e))
                                   (FileBacked.comments st))))
    /\ ((forall c, In c (FileBacked.comments st) -> Comment.storyId c <> uuidv4 e) ->
        FileBacked.getStory st' (uuidv4 e)
        = Reply 200 (FileBacked.StoryDetail view [])).
Proof.
  intros Hvalid. unfold FileBacked.createStory.
  rewrite (valid_story_body_accepted b Hvalid). cbv zeta.
  eexists. split; [reflexivity|]. split; [reflexivity|].
  unfold FileBacked.getStory.
  cbn [snd fst FileBacked.stories FileBacked.users FileBacked.comments
       FileBacked.saveDB FileBacked.with_stories find].
  unfold story_has_id at 1. cbn [Story.id]. rewrite String.eqb_refl.
  unfold story_has_id at 1. cbn [Story.id]. rewrite String.eqb_refl.
  unfold FileBacked.storyComments.
  cbn [FileBacked.stories FileBacked.users FileBacked.comments
       FileBacked.saveDB FileBacked.with_stories Story.id].
  split; [reflexivity|]. intros Hnone.
  replace (filter (comment_of_story (uuidv4 e)) (FileBacked.comments st))
    with (@nil Comment.t); [reflexivity|].
  symmetry. induction (FileBacked.comments st) as [|c cs IH]; [reflexivity|].
  cbn [filter]. unfold comment_of_story at 1.
  destruct (String.eqb_spec (Comment.storyId c) (uuidv4 e)) as [E|E].
  - exfalso. apply (Hnone c); [now left|exact E].
  - apply IH. intros c' Hc'. apply Hnone. now right.
Qed.

Lemma X11_created_story_is_found_by_id_witness :
  Spec.valid_story_body Sample.a_story
  /\ exists view,
      FileBacked.getStory
        (snd (FileBacked.createStory Sample.e1 Sample.library Sample.a_story))
        (uuidv4 Sample.e1)
      = Reply 200 (FileBacked.StoryDetail view [])
      /\ Story.title (FileBacked.sv_story view) = "T"
      /\ FileBacked.sv_authorName view = "Meghana M".
Proof.
  assert (Spec.valid_story_body Sample.a_story) as Hvalid
    by (repeat split; reflexivity).
  split; [exact Hvalid|].
  destruct (X11_created_story_is_found_by_id Sample.e1 Sample.library
              Sample.a_story Hvalid) as (view & Hcreated & _ & _ & Hget).
  exists view. split.
  - apply Hget. intros c [<-|[]]. discriminate.
  - injection Hcreated as <-. split; reflexivity.
Defined.

Lemma filter_absent_comments (X : string) (st : FileBacked.state) :
  Spec.no_orphans st -> ~ In X (map Story.id (FileBacked.stories st)) ->
  filter (fun c => negb (comment_of_story X c)) (FileBacked.comments st)
  = FileBacked.comments st.
Proof.
  intros Hst Hout. apply filter_keeps_all. intros c Hc. unfold comment_of_story.
  destruct (String.eqb_spec (Comment.storyId c) X) as [E|E]; [|reflexivity].
  exfalso. apply Hout. rewrite <- E. now apply Hst.
Qed.

(** X12 — Deletion undoes creation: on a store in which every comment
    names a stored story, the creation of a story with an id that no
    stored story has, followed by the deletion of that id, answers 204 and
    leaves the stories, users and comments as they were before the
    creation, written to disk. *)
Theorem X12_delete_undoes_create (e : env) (st : FileBacked.state)
    (b : story_body) :
  Spec.valid_story_body b ->
  Spec.no_orphans st ->
  ~ In (uuidv4 e) (map Story.id (FileBacked.stories st)) ->
  FileBacked.deleteStory (snd (FileBacked.createStory e st b)) (uuidv4 e)
  = (Reply 204 FileBacked.Empty, FileBacked.saveDB st).
Proof.
  intros Hvalid Hst Hfresh. unfold FileBacked.createStory.
  rewrite (valid_story_body_accepted b Hvalid). cbn [snd].
  rewrite deleteStory_present; [|cbn; now left].
  cbn [FileBacked.stories FileBacked.comments FileBacked.saveDB
       FileBacked.with_stories FileBacked.with_comments FileBacked.users
       FileBacked.activity_file FileBacked.data_file filter].
  unfold story_has_id at 1. cbn [Story.id negb]. rewrite String.eqb_refl.
  cbn [negb]. rewrite (filter_absent_story _ _ Hfresh).
  now rewrite (filter_absent_comments _ st Hst Hfresh).
Qed.

Lemma X12_delete_undoes_create_witness :
  Spec.valid_story_body Sample.a_story
  /\ Spec.no_orphans Sample.library
  /\ ~ In (uuidv4 Sample.e1) (map Story.id (FileBacked.stories Sample.library))
  /\ FileBacked.deleteStory
       (snd (FileBacked.createStory Sample.e1 Sample.library Sample.a_story))
       (uuidv4 Sample.e1)
     = (Reply 204 FileBacked.Empty, FileBacked.saveDB Sample.library).
Proof.
  assert (Spec.valid_story_body Sample.a_story) as Hvalid
    by (repeat split; reflexivity).
  assert (Spec.no_orphans Sample.library) as Hst
    by (intros c [<-|[]]; simpl; tauto).
  assert (~ In (uuidv4 Sample.e1) (map Story.id (FileBacked.stories Sample.library)))
    as Hfresh by (simpl; intuition discriminate).
  split; [exact Hvalid|]. split; [exact Hst|]. split; [exact Hfresh|].
  exact (X12_delete_undoes_create Sample.e1 Sample.library Sample.a_story
           Hvalid Hst Hfresh).
Defined.

Lemma find_app_new {A : Type} (p : A -> bool) (l : list A) (x : A) :
  find p l = None -> p x = true -> find p (l ++ [x]) = Some x.
Proof.
  induction l as [|y l IH]; simpl; intros Hnone Hx; [now rewrite Hx|].
  destruct (p y); [discriminate|auto].
Qed.

(** X13 — [createUser] refuses a body without a name, or with an empty
    one, with 400 and changes nothing; otherwise it answers 201 with a
    user that has the id from [uuidv4()], the name, the email of the body
    or the empty text, an empty bio and no avatarUrl, appends it to the
    users and writes the document; when no stored user has that id,
    [getUser] with it then answers with the new user. *)
Theorem X13_created_user_is_found (e : env) (st : FileBacked.state)
    (b : user_body) :
  let u := User.mk (uuidv4 e) (or_empty (ub_name b)) (Some (or_empty (ub_email b)))
                   EmptyString None in
  (truthy (ub_name b) = false ->
   FileBacked.createUser e st b = (ValidationError "name required", st))
  /\ (truthy (ub_name b) = true ->
      let st' := snd (FileBacked.createUser e st b) in
      fst (FileBacked.createUser e st b) = Reply 201 (FileBacked.OneUser u)
      /\ FileBacked.users st' = FileBacked.users st ++ [u]
      /\ Spec.flushed st'
      /\ (~ In (uuidv4 e) (map User.id (FileBacked.users st)) ->
          FileBacked.getUser st' (uuidv4 e) = Reply 200 (FileBacked.OneUser u))).
Proof.
  cbv zeta. unfold FileBacked.createUser. split; intros ->; cbn [negb];
    [reflexivity|].
  split; [reflexivity|]. split; [reflexivity|]. split; [reflexivity|].
  intros Hfresh. apply find_user_absent in Hfresh. unfold FileBacked.getUser.
  cbn [snd FileBacked.users FileBacked.saveDB FileBacked.with_users].
  rewrite (find_app_new _ _ _ Hfresh); [reflexivity|].
  unfold user_has_id. cbn. apply String.eqb_refl.
Qed.

Lemma X13_created_user_is_found_witness :
  let b := mk_user_body (Some "Ada") None in
  truthy (ub_name b) = true
  /\ ~ In (uuidv4 Sample.e1) (map User.id (FileBacked.users Sample.library))
  /\ FileBacked.getUser (snd (FileBacked.createUser Sample.e1 Sample.library b))
                        (uuidv4 Sample.e1)
     = Reply 200 (FileBacked.OneUser
                    (User.mk (uuidv4 Sample.e1) "Ada" (Some EmptyString)
                             EmptyString None))
  /\ truthy (ub_name (mk_user_body (Some EmptyString) (Some "a@b.c"))) = false
  /\ FileBacked.createUser Sample.e1 Sample.library
       (mk_user_body (Some EmptyString) (Some "a@b.c"))
     = (ValidationError "name required", Sample.library).
Proof.
  cbv zeta.
  assert (~ In (uuidv4 Sample.e1) (map User.id (FileBacked.users Sample.library)))
    as Hfresh by (simpl; intuition discriminate).
  split; [reflexivity|]. split; [exact Hfresh|]. split.
  - destruct (proj2 (X13_created_user_is_found Sample.e1 Sample.library
                       (mk_user_body (Some "Ada") None)) eq_refl)
      as (_ & _ & _ & Hget).
    exact (Hget Hfresh).
  - split; [reflexivity|].
    exact (proj1 (X13_created_user_is_found Sample.e1 Sample.library
                    (mk_user_body (Some EmptyString) (Some "a@b.c"))) eq_refl).
Defined.

Lemma filter_other_comments (i : string) (l : list Comment.t) (c : Comment.t) :
  In c (filter (fun c => negb (comment_has_id i c)) l)
  <-> In c l /\ Comment.id c <> i.
Proof.
  rewrite filter_In. unfold comment_has_id.
  destruct (String.eqb_spec (Comment.id c) i); simpl; intuition congruence.
Qed.

Lemma filter_absent_comment (i : string) (l : list Comment.t) :
  ~ In i (map Comment.id l) ->
  filter (fun c => negb (comment_has_id i c)) l = l.
Proof.
  intros Hout. apply filter_keeps_all. intros c Hc. unfold comment_has_id.
  destruct (String.eqb_spec (Comment.id c) i) as [E|E]; [|reflexivity].
  exfalso. apply Hout. apply in_map_iff. now exists c.
Qed.

(** X14 — [deleteComment] with an id that some comment has answers 204,
    removes every comment with that id and no other, leaves stories and
    users alone and writes the document, and a second deletion of the id
    is answered with NotFound; with an id that no comment has it answers
    NotFound and changes nothing. *)
Theorem X14_deleteComment_removes_the_comment (st : FileBacked.state)
    (i : string) :
  (In i (map Comment.id (FileBacked.comments st)) ->
   let st' := snd (FileBacked.deleteComment st i) in
   fst (FileBacked.deleteComment st i) = Reply 204 FileBacked.Empty
   /\ (forall c, In c (FileBacked.comments st')
                 <-> In c (FileBacked.comments st) /\ Comment.id c <> i)
   /\ FileBacked.stories st' = FileBacked.stories st
   /\ FileBacked.users st' = FileBacked.users st
   /\ Spec.flushed st'
   /\ FileBacked.deleteComment st' i = (NotFound "Comment not found", st'))
  /\ (~ In i (map Comment.id (FileBacked.comments st)) ->
      FileBacked.deleteComment st i = (NotFound "Comment not found", st)).
Proof.
  assert (forall st0 : FileBacked.state,
             ~ In i (map Comment.id (FileBacked.comments st0)) ->
             FileBacked.deleteComment st0 i = (NotFound "Comment not found", st0))
    as Habsent.
  { intros st0 Hout. unfold FileBacked.deleteComment.
    rewrite (filter_absent_comment i _ Hout), Nat.eqb_refl. now destruct st0. }
  split; [|apply Habsent].
  intros Hin. apply in_map_iff in Hin as (c0 & Hid & Hc0).
  unfold FileBacked.deleteComment at 1 2.
  destruct (Nat.eqb_spec
              (length (filter (fun c => negb (comment_has_id i c))
                              (FileBacked.comments st)))
              (length (FileBacked.comments st))) as [E|E].
  { exfalso. revert E. apply (filter_shorter _ _ c0 Hc0).
    unfold comment_has_id. rewrite Hid, String.eqb_refl. reflexivity. }
  cbv zeta. cbn [fst snd].
  split; [reflexivity|].
  split; [intros c; apply filter_other_comments|].
  split; [reflexivity|]. split; [reflexivity|]. split; [reflexivity|].
  apply Habsent. cbn. intros Hx. apply in_map_iff in Hx as (c & Hc & Hx).
  apply filter_other_comments in Hx. tauto.
Qed.

Lemma X14_deleteComment_removes_the_comment_witness :
  In "c1" (map Comment.id (FileBacked.comments Sample.library))
  /\ FileBacked.deleteComment Sample.library "c1"
     = (Reply 204 FileBacked.Empty,
        FileBacked.saveDB (FileBacked.with_comments [] Sample.library))
  /\ ~ In "c7" (map Comment.id (FileBacked.comments Sample.library))
  /\ FileBacked.deleteComment Sample.library "c7"
     = (NotFound "Comment not found", Sample.library).
Proof.
  assert (In "c1" (map Comment.id (FileBacked.comments Sample.library))) as Hin
    by (simpl; tauto).
  assert (~ In "c7" (map Comment.id (FileBacked.comments Sample.library))) as Hout
    by (simpl; intuition discriminate).
  destruct (X14_deleteComment_removes_the_comment Sample.library "c1")
    as [Hpresent _].
  destruct (X14_deleteComment_removes_the_comment Sample.library "c7")
    as [_ Habsent].
  destruct (Hpresent Hin) as (H204 & _).
  split; [exact Hin|]. split; [reflexivity|]. split; [exact Hout|].
  exact (Habsent Hout).
Defined.

(** X15 — The in-memory server deletes a story with its comments: with an
    id that some story has, [deleteStory] answers 204 and keeps exactly
    the stories that do not have the id and the comments that do not name
    it, after which the story and its comments are NotFound and a second
    deletion is NotFound; with an id that no story has, it answers
    NotFound and changes no story and no comment. *)
Theorem X15_in_memory_deleteStory_cascades (st : InMemory.state) (X : string) :
  (In X (map Story.id (InMemory.stories st)) ->
   let st' := snd (InMemory.deleteStory st X) in
   fst (InMemory.deleteStory st X) = Reply 204 InMemory.Empty
   /\ (forall s, In s (InMemory.stories st')
                 <-> In s (InMemory.stories st) /\ Story.id s <> X)
   /\ (forall c, In c (InMemory.comments st')
                 <-> In c (InMemory.comments st) /\ Comment.storyId c <> X)
   /\ InMemory.users st' = InMemory.users st
   /\ InMemory.getStory st' X = NotFound "Story not found"
   /\ InMemory.listComments st' X = NotFound "Story not found"
   /\ InMemory.deleteStory st' X = (NotFound "Story not found", st'))
  /\ (~ In X (map Story.id (InMemory.stories st)) ->
      InMemory.deleteStory st X = (NotFound "Story not found", st)).
Proof.
  assert (forall st0 : InMemory.state,
             ~ In X (map Story.id (InMemory.stories st0)) ->
             InMemory.deleteStory st0 X = (NotFound "Story not found", st0))
    as Habsent.
  { intros st0 Hout. unfold InMemory.deleteStory.
    rewrite (filter_absent_story X _ Hout), Nat.eqb_refl. now destruct st0. }
  split; [|apply Habsent].
  intros Hin. apply in_map_iff in Hin as (s0 & Hid & Hs0).
  unfold InMemory.deleteStory at 1 2.
  destruct (Nat.eqb_spec
              (length (filter (fun s => negb (story_has_id X s))
                              (InMemory.stories st)))
              (length (InMemory.stories st))) as [E|E].
  { exfalso. revert E. apply (filter_shorter _ _ s0 Hs0).
    unfold story_has_id. rewrite Hid, String.eqb_refl. reflexivity. }
  cbv zeta. cbn [fst snd InMemory.stories InMemory.users InMemory.comments].
  assert (forall s, In s (filter (fun s => negb (story_has_id X s))
                                 (InMemory.stories st))
                    <-> In s (InMemory.stories st) /\ Story.id s <> X) as Hs.
  { intros s. rewrite filter_In. unfold story_has_id.
    destruct (String.eqb_spec (Story.id s) X); simpl; intuition congruence. }
  assert (~ In X (map Story.id (filter (fun s => negb (story_has_id X s))
                                       (InMemory.stories st)))) as Hgone.
  { intros Hx. apply in_map_iff in Hx as (s & Hsid & Hx). apply Hs in Hx. tauto. }
  split; [reflexivity|]. split; [exact Hs|]. split.
  { intros c. rewrite filter_In. unfold comment_of_story.
    destruct (String.eqb_spec (Comment.storyId c) X); simpl; intuition congruence. }
  split; [reflexivity|].
  apply find_story_absent in Hgone as Hfind.
  split; [unfold InMemory.getStory; cbn [InMemory.stories]; now rewrite Hfind|].
  split; [unfold InMemory.listComments; cbn [InMemory.stories]; now rewrite Hfind|].
  now apply Habsent.
Qed.

Lemma X15_in_memory_deleteStory_cascades_witness :
  In "s1" (map Story.id (InMemory.stories Sample.library_in_memory))
  /\ InMemory.deleteStory Sample.library_in_memory "s1"
     = (Reply 204 InMemory.Empty,
        InMemory.mk_state [Sample.fantasy2; Sample.horror] [seed_user] [])
  /\ ~ In "s7" (map Story.id (InMemory.stories Sample.library_in_memory))
  /\ InMemory.deleteStory Sample.library_in_memory "s7"
     = (NotFound "Story not found", Sample.library_in_memory).
Proof.
  assert (In "s1" (map Story.id (InMemory.stories Sample.library_in_memory)))
    as Hin by (simpl; tauto).
  assert (~ In "s7" (map Story.id (InMemory.stories Sample.library_in_memory)))
    as Hout by (simpl; intuition discriminate).
  destruct (X15_in_memory_deleteStory_cascades Sample.library_in_memory "s1")
    as [Hpresent _].
  destruct (X15_in_memory_deleteStory_cascades Sample.library_in_memory "s7")
    as [_ Habsent].
  destruct (Hpresent Hin) as (H204 & _).
  split; [exact Hin|]. split; [reflexivity|]. split; [exact Hout|].
  exact (Habsent Hout).
Defined.

(** ** The search of the listing *)

Lemma prefix_iff (q s : string) :
  String.prefix q s = true <-> exists post, s = (q ++ post)%string.
Proof.
  revert s. induction q as [|a q IH]; intros s.
  - destruct s; cbn; (split; [intros _; eexists; reflexivity|intros _; reflexivity]).
  - destruct s as [|b s]; cbn.
    + split; [discriminate|]. intros (post & H). discriminate H.
    + destruct (Ascii.ascii_dec a b) as [->|Hab].
      * rewrite IH. split; intros (post & H); exists post; congruence.
      * split; [discriminate|]. intros (post & H). congruence.
Qed.

(** [includes] finds the text exactly when it occurs somewhere. *)
Lemma includes_iff (s q : string) :
  Text.includes s q = true
  <-> exists pre post, s = (pre ++ q ++ post)%string.
Proof.
  induction s as [|c s IH]; cbn [Text.includes]; rewrite orb_true_iff, prefix_iff.
  - split.
    + intros [(post & H)|H]; [|discriminate]. now exists EmptyString, post.
    + intros ([|x pre] & post & H); [left; now exists post|discriminate H].
  - rewrite IH. split.
    + intros [(post & H)|(pre & post & H)].
      * now exists EmptyString, post.
      * exists (String c pre), post. cbn. now rewrite H.
    + intros ([|x pre] & post & H).
      * left. now exists post.
      * right. exists pre, post. cbn in H. congruence.
Qed.

Lemma lower_char_idempotent (c : ascii) :
  Text.lower_char (Text.lower_char c) = Text.lower_char c.
Proof.
  destruct c as [[] [] [] [] [] [] [] []]; reflexivity.
Qed.

Lemma toLowerCase_idempotent (s : string) :
  Text.toLowerCase (Text.toLowerCase s) = Text.toLowerCase s.
Proof.
  induction s as [|c s IH]; [reflexivity|].
  cbn. now rewrite lower_char_idempotent, IH.
Qed.

Lemma toLowerCase_app (a b : string) :
  Text.toLowerCase (a ++ b) = (Text.toLowerCase a ++ Text.toLowerCase b)%string.
Proof.
  induction a as [|c a IH]; [reflexivity|]. cbn. now rewrite IH.
Qed.

(** X16 — The search of [GET /api/stories?q=], on text in the ASCII
    range (a query and stories whose titles and bodies hold no character
    of 128 or more): the response lists, with their author names and
    their count as total, all the stories when the query is missing or
    empty, and otherwise exactly the stories in which the query occurs,
    the case of the letters A to Z set aside, somewhere in the title, a
    space and the body put together; the letter case of the query makes
    no difference. *)
Theorem X16_search_lists_what_holds_the_query (st : FileBacked.state)
    (q : option string) :
  Charset.is_ascii (or_empty q) = true ->
  Forall Charset.ascii_story (FileBacked.stories st) ->
  let needle := Text.toLowerCase (or_empty q) in
  let found := search q (FileBacked.stories st) in
  FileBacked.listStories st q
  = Reply 200 (FileBacked.StoryList (map (FileBacked.enrich (FileBacked.users st)) found)
                                    (length found))
  /\ (needle = EmptyString -> found = FileBacked.stories st)
  /\ (needle <> EmptyString ->
      forall s, In s found
                <-> In s (FileBacked.stories st)
                    /\ exists pre post,
                        (Text.toLowerCase (Story.title s) ++ " "
                         ++ Text.toLowerCase (Story.body s))%string
                        = (pre ++ needle ++ post)%string)
  /\ search (Some needle) (FileBacked.stories st) = found.
Proof.
  intros _ _. cbv zeta. split; [|split; [|split]].
  - unfold FileBacked.listStories. now rewrite length_map.
  - unfold search. now intros ->.
  - intros Hne s. unfold search.
    destruct (Text.toLowerCase (or_empty q)) as [|c needle]; [contradiction|].
    rewrite filter_In. unfold matches_query.
    rewrite includes_iff, !toLowerCase_app. reflexivity.
  - unfold search at 1. cbn [or_empty]. now rewrite toLowerCase_idempotent.
Qed.

Lemma X16_search_lists_what_holds_the_query_witness :
  Charset.is_ascii (or_empty (Some "DRAGON")) = true
  /\ Forall Charset.ascii_story (FileBacked.stories Sample.library)
  /\ Text.toLowerCase (or_empty (Some "DRAGON")) <> EmptyString
  /\ In Sample.fantasy2 (search (Some "DRAGON") (FileBacked.stories Sample.library))
  /\ ~ In Sample.horror (search (Some "DRAGON") (FileBacked.stories Sample.library)).
Proof.
  assert (Charset.is_ascii (or_empty (Some "DRAGON")) = true) as Hq by reflexivity.
  assert (Forall Charset.ascii_story (FileBacked.stories Sample.library)) as Hst
    by (repeat constructor; reflexivity).
  assert (Text.toLowerCase (or_empty (Some "DRAGON")) <> EmptyString) as Hne
    by discriminate.
  destruct (X16_search_lists_what_holds_the_query Sample.library (Some "DRAGON")
              Hq Hst) as (_ & _ & Hfound & _).
  split; [exact Hq|]. split; [exact Hst|]. split; [exact Hne|]. split.
  - apply (Hfound Hne). split; [simpl; tauto|].
    exists EmptyString, "s a dragon slept.". reflexivity.
  - vm_compute. intros [H|[]]. discriminate H.
Defined.

(** ** Recommendations *)

Lemma In_firstn {A : Type} (n : nat) (l : list A) (x : A) :
  In x (firstn n l) -> In x l.
Proof.
  intros H. rewrite <- (firstn_skipn n l). apply in_or_app. now left.
Qed.

(** X17 — What [recommend] answers with 200 is a list of at most three
    stories of the store; when the list is not empty, the log holds a
    record of the user whose viewed story is in the store, and every
    story of the list has the genre of that story and another id. *)
Theorem X17_recommendations_share_the_genre {json : JsonLines}
    (st : FileBacked.state) (userId : string) (l : list Story.t) :
  FileBacked.recommend st userId = Reply 200 (FileBacked.Recommendations l) ->
  (length l <= 3)%nat
  /\ (forall s, In s l -> In s (FileBacked.stories st))
  /\ (l <> [] ->
      exists history a viewed,
        FileBacked.getUserHistory (FileBacked.activity_file st) userId = Some history
        /\ In a history
        /\ Activity.userId a = userId
        /\ In viewed (FileBacked.stories st)
        /\ Story.id viewed = Activity.viewedStoryId a
        /\ forall s, In s l ->
                     Story.genre s = Story.genre viewed
                     /\ Story.id s <> Story.id viewed).
Proof.
  unfold FileBacked.recommend.
  destruct (FileBacked.getUserHistory _ userId) as [history|] eqn:Hh;
    [|discriminate].
  assert (forall a, In a history -> Activity.userId a = userId) as Huser.
  { unfold FileBacked.getUserHistory in Hh.
    destruct (FileBacked.activity_file st) as [content|].
    - destruct (FileBacked.parse_lines _) as [all|]; [|discriminate].
      injection Hh as <-. intros a Ha. apply filter_In in Ha as [_ Ha].
      now apply String.eqb_eq.
    - injection Hh as <-. intros a []. }
  destruct (length history =? 0)%nat.
  { intros [= <-]. split; [simpl; lia|]. split; [intros s []|]. now intros []. }
  destruct (nth_error history _) as [a|] eqn:Ha; [|discriminate].
  destruct (find _ (FileBacked.stories st)) as [viewed|] eqn:Hv.
  - set (recs := firstn 3 (filter _ (FileBacked.stories st))).
    intros H. injection H as <-. subst recs.
    split; [apply firstn_le_length|].
    split; [intros s Hs; apply In_firstn, filter_In in Hs; tauto|].
    intros _. exists history, a, viewed. apply nth_error_In in Ha.
    apply find_some in Hv as [Hin Hid]. apply String.eqb_eq in Hid.
    split; [reflexivity|]. split; [exact Ha|]. split; [now apply Huser|].
    split; [exact Hin|]. split; [exact Hid|].
    intros s Hs. apply In_firstn, filter_In in Hs as [_ Hs].
    apply andb_true_iff in Hs as [Hg Hi]. apply String.eqb_eq in Hg.
    split; [exact Hg|]. apply negb_true_iff, String.eqb_neq in Hi. exact Hi.
  - intros [= <-]. split; [simpl; lia|]. split; [intros s []|]. now intros [].
Qed.

Lemma X17_recommendations_share_the_genre_witness :
  let st := snd (FileBacked.recordActivity (json := plain_lines) Sample.e1
                   Sample.library (mk_activity_body (Some "u1") (Some "s1"))) in
  FileBacked.recommend (json := plain_lines) st "u1"
  = Reply 200 (FileBacked.Recommendations [Sample.fantasy2])
  /\ forall s, In s [Sample.fantasy2] -> In s (FileBacked.stories st).
Proof.
  cbv zeta.
  assert (FileBacked.recommend (json := plain_lines)
            (snd (FileBacked.recordActivity (json := plain_lines) Sample.e1
                    Sample.library (mk_activity_body (Some "u1") (Some "s1"))))
            "u1"
          = Reply 200 (FileBacked.Recommendations [Sample.fantasy2])) as H
    by reflexivity.
  split; [exact H|].
  exact (proj1 (proj2 (X17_recommendations_share_the_genre
                         (json := plain_lines) _ _ _ H))).
Defined.

Lemma parse_lines_None {json : JsonLines} (lines : list string) :
  FileBacked.parse_lines lines = None
  <-> exists line, In line lines /\ JSON_parse line = None.
Proof.
  induction lines as [|x lines IH]; cbn.
  - split; [discriminate|intros (line & [] & _)].
  - destruct (JSON_parse x) as [a|] eqn:Ex.
    + destruct (FileBacked.parse_lines lines) as [l|].
      * split; [discriminate|]. intros (line & [<-|Hin] & Hline).
        -- congruence.
        -- assert (Some l = None) as H; [|discriminate H].
           apply IH. now exists line.
      * split; [|reflexivity]. intros _.
        destruct (proj1 IH eq_refl) as (line & Hin & Hline).
        exists line. auto.
    + split; [|reflexivity]. intros _. exists x. auto.
Qed.

(** X18 — One line of the activity log that [JSON.parse] rejects fails the
    recommendations of every user: when the log exists, holds text in the
    ASCII range, and one of the lines of its trimmed text does not parse,
    [getUserHistory] throws and [recommend] answers 500, whoever the user
    is and whatever the store holds. *)
Theorem X18_one_bad_line_fails_every_recommendation {json : JsonLines}
    (st : FileBacked.state) (userId content line : string) :
  FileBacked.activity_file st = Some content ->
  Charset.is_ascii content = true ->
  In line (Text.split Text.LF (Text.trim content)) ->
  JSON_parse line = None ->
  FileBacked.getUserHistory (FileBacked.activity_file st) userId = None
  /\ FileBacked.recommend st userId = Fail 500 "Internal server error".
Proof.
  intros Hfile _ Hin Hline.
  assert (FileBacked.getUserHistory (FileBacked.activity_file st) userId = None)
    as H.
  { rewrite Hfile. unfold FileBacked.getUserHistory.
    replace (FileBacked.parse_lines _) with (@None (list Activity.t));
      [reflexivity|].
    symmetry. apply parse_lines_None. now exists line. }
  split; [exact H|]. now apply recommend_fails_iff.
Qed.

Lemma X18_one_bad_line_fails_every_recommendation_witness :
  let written := snd (FileBacked.recordActivity (json := plain_lines) Sample.e1
                        Sample.library (mk_activity_body (Some "u1") (Some "s1"))) in
  let content := (or_empty (FileBacked.activity_file written) ++ "oops")%string in
  let st := FileBacked.with_activity_file (Some content) written in
  Charset.is_ascii content = true
  /\ In "oops" (Text.split Text.LF (Text.trim content))
  /\ JSON_parse (JsonLines := plain_lines) "oops" = None
  /\ FileBacked.recommend (json := plain_lines) st "u2"
     = Fail 500 "Internal server error".
Proof.
  intros written content st.
  assert (In "oops" (Text.split Text.LF (Text.trim content))) as Hin
    by (vm_compute; tauto).
  split; [reflexivity|]. split; [exact Hin|]. split; [reflexivity|].
  exact (proj2 (X18_one_bad_line_fails_every_recommendation (json := plain_lines)
                  st "u2" content "oops" eq_refl eq_refl Hin eq_refl)).
Defined.

(** ** The two servers side by side *)

Lemma bare_stories (us : list User.t) (l : list Story.t) :
  map FileBacked.sv_story (map (FileBacked.enrich us) l) = l.
Proof. rewrite map_map. cbn. apply map_id. Qed.

Lemma bare_comments (us : list User.t) (l : list Comment.t) :
  map FileBacked.cv_comment (map (FileBacked.enrich_comment us) l) = l.
Proof. rewrite map_map. cbn. apply map_id. Qed.

Lemma apply_patch_without_likes (p : story_patch) (idx : nat)
    (l : list Story.t) :
  p_likes p = None ->
  update_nth idx (FileBacked.apply_patch p) l
  = update_nth idx (InMemory.apply_patch p) l.
Proof.
  intros Hp. destruct p as [t b g k]. cbn in Hp. subst k. reflexivity.
Qed.

(** X19 — On the routes that both servers have, the file-backed server
    does to its stories, users and comments what the in-memory server
    does, and answers with the same status and the same records, to which
    it adds the author names: this holds for every request but an update
    whose patch holds likes, on every store in which each comment names a
    stored story. *)
Theorem X19_file_backed_refines_in_memory {json : JsonLines} (e : env)
    (st : FileBacked.state) (r : FileBacked.request) (r' : InMemory.request) :
  Erase.shared r = Some r' ->
  (forall i p, r = FileBacked.UpdateStory i p -> p_likes p = None) ->
  Spec.no_orphans st ->
  Erase.bare_response (fst (FileBacked.step e st r))
  = Some (fst (InMemory.step e (Erase.memory st) r'))
  /\ Erase.memory (snd (FileBacked.step e st r))
     = snd (InMemory.step e (Erase.memory st) r').
Proof.
  intros Hshared Hpatch Hst.
  destruct r as [s|q|i|b|i p|i|i|i|i b|i|b|u|i|b]; cbn in Hshared;
    try discriminate; injection Hshared as <-;
    cbn [FileBacked.step InMemory.step].
  - unfold FileBacked.listStories, InMemory.listStories. cbn.
    now rewrite length_map, bare_stories.
  - unfold FileBacked.getStory, InMemory.getStory, FileBacked.storyComments. cbn.
    destruct (find _ _); cbn; [|auto]. now rewrite bare_comments.
  - unfold FileBacked.createStory, InMemory.createStory. cbn.
    destruct (_ || _); cbn; auto.
  - unfold FileBacked.updateStory, InMemory.updateStory. cbn.
    destruct (findIndex _ _) as [idx|]; cbn; [|auto].
    rewrite (apply_patch_without_likes p idx _ (Hpatch i p eq_refl)).
    destruct (nth_error _ idx); cbn; auto.
  - unfold FileBacked.deleteStory, InMemory.deleteStory. cbn.
    destruct (Nat.eqb_spec
                (length (filter (fun s => negb (story_has_id i s))
                                (FileBacked.stories st)))
                (length (FileBacked.stories st))) as [E|E]; cbn; [|auto].
    split; [reflexivity|]. unfold Erase.memory. cbn. f_equal.
    apply filter_absent_comments; [exact Hst|].
    intros Hin. apply in_map_iff in Hin as (s & Hid & Hs).
    pose proof (filter_same_length _ _ E s Hs) as H. unfold story_has_id in H.
    rewrite Hid, String.eqb_refl in H. discriminate H.
  - unfold FileBacked.listComments, InMemory.listComments, FileBacked.storyComments.
    cbn. destruct (find _ _); cbn; [|auto]. now rewrite bare_comments.
  - unfold FileBacked.createComment, InMemory.createComment. cbn.
    destruct (find _ _); cbn; [|auto]. destruct (_ || _); cbn; auto.
  - unfold FileBacked.deleteComment, InMemory.deleteComment. cbn.
    destruct (_ =? _)%nat; cbn; auto.
  - unfold FileBacked.getUser, InMemory.getUser. cbn. destruct (find _ _); cbn; auto.
  - unfold FileBacked.createUser, InMemory.createUser. cbn.
    destruct (negb _); cbn; auto.
Qed.

Lemma X19_file_backed_refines_in_memory_witness :
  let r := FileBacked.DeleteStory "s1" in
  Erase.shared r = Some (InMemory.DeleteStory "s1")
  /\ (forall i p, r = FileBacked.UpdateStory i p -> p_likes p = None)
  /\ Spec.no_orphans Sample.library
  /\ Erase.memory (snd (FileBacked.step (json := plain_lines) Sample.e1
                          Sample.library r))
     = snd (InMemory.step Sample.e1 Sample.library_in_memory
                          (InMemory.DeleteStory "s1")).
Proof.
  cbv zeta.
  assert (forall i p, FileBacked.DeleteStory "s1" = FileBacked.UpdateStory i p ->
                      p_likes p = None) as Hr by (intros i p; discriminate).
  assert (Spec.no_orphans Sample.library) as Hst
    by (intros c [<-|[]]; simpl; tauto).
  split; [reflexivity|]. split; [exact Hr|]. split; [exact Hst|].
  exact (proj2 (X19_file_backed_refines_in_memory (json := plain_lines)
                  Sample.e1 Sample.library (FileBacked.DeleteStory "s1")
                  (InMemory.DeleteStory "s1") eq_refl Hr Hst)).
Defined.

(** ** Updates *)

Lemma findIndex_update_nth {A : Type} (p : A -> bool) (f : A -> A)
    (idx : nat) (l : list A) :
  (forall x, p (f x) = p x) ->
  findIndex p (update_nth idx f l) = findIndex p l.
Proof.
  intros Hf. revert idx. induction l as [|x l IH]; intros [|i]; simpl;
    try reflexivity.
  - now rewrite Hf.
  - now rewrite IH.
Qed.

Lemma update_nth_twice {A : Type} (f : A -> A) (idx : nat) (l : list A) :
  (forall x, f (f x) = f x) ->
  update_nth idx f (update_nth idx f l) = update_nth idx f l.
Proof.
  intros Hf. revert idx. induction l as [|x l IH]; intros [|i]; simpl;
    try reflexivity.
  - now rewrite Hf.
  - now rewrite IH.
Qed.

Lemma apply_patch_twice (p : story_patch) (s : Story.t) :
  FileBacked.apply_patch p (FileBacked.apply_patch p s) = FileBacked.apply_patch p s
  /\ InMemory.apply_patch p (InMemory.apply_patch p s) = InMemory.apply_patch p s.
Proof. destruct p as [[t|] [b|] [g|] [k|]]; split; reflexivity. Qed.

(** X20 — [PUT /api/stories/:id] is idempotent on both servers: the same
    update sent a second time gets the answer of the first (the updated
    story, or NotFound) and leaves the state in which the first left it. *)
Theorem X20_update_is_idempotent (i : string) (p : story_patch) :
  (forall st : FileBacked.state,
      FileBacked.updateStory (snd (FileBacked.updateStory st i p)) i p
      = (fst (FileBacked.updateStory st i p), snd (FileBacked.updateStory st i p)))
  /\ (forall st : InMemory.state,
      InMemory.updateStory (snd (InMemory.updateStory st i p)) i p
      = (fst (InMemory.updateStory st i p), snd (InMemory.updateStory st i p))).
Proof.
  split; intros st.
  - unfold FileBacked.updateStory at 2 3 4.
    destruct (findIndex (story_has_id i) (FileBacked.stories st)) as [idx|] eqn:E.
    + cbn [FileBacked.stories FileBacked.users FileBacked.saveDB
           FileBacked.with_stories].
      apply findIndex_Some in E as Hold. destruct Hold as (old & Hnth & _).
      rewrite (nth_error_update_nth idx (FileBacked.apply_patch p) _ old Hnth).
      cbn [fst snd]. unfold FileBacked.updateStory.
      cbn [FileBacked.stories FileBacked.users FileBacked.comments
           FileBacked.activity_file FileBacked.saveDB FileBacked.with_stories].
      rewrite findIndex_update_nth, E.
      * rewrite update_nth_twice; [|intros x; apply apply_patch_twice].
        now rewrite (nth_error_update_nth idx (FileBacked.apply_patch p) _ old Hnth).
      * intros x. unfold story_has_id.
        now destruct (apply_patch_patched p x) as (_ & _ & _ & _ & -> & _).
    + cbn [fst snd]. unfold FileBacked.updateStory. now rewrite E.
  - unfold InMemory.updateStory at 2 3 4.
    destruct (findIndex (story_has_id i) (InMemory.stories st)) as [idx|] eqn:E.
    + apply findIndex_Some in E as Hold. destruct Hold as (old & Hnth & _).
      rewrite (nth_error_update_nth idx (InMemory.apply_patch p) _ old Hnth).
      cbn [fst snd]. unfold InMemory.updateStory.
      cbn [InMemory.stories InMemory.users InMemory.comments].
      rewrite findIndex_update_nth, E.
      * rewrite update_nth_twice; [|intros x; apply apply_patch_twice].
        now rewrite (nth_error_update_nth idx (InMemory.apply_patch p) _ old Hnth).
      * intros x. unfold story_has_id.
        now destruct (apply_patch_but_likes p x) as (_ & _ & _ & _ & -> & _).
    + cbn [fst snd]. unfold InMemory.updateStory. now rewrite E.
Qed.

(** ** From the recorded views to the recommendations *)

Lemma recommend_of_history {json : JsonLines} (st : FileBacked.state)
    (userId : string) (history : list Activity.t) :
  FileBacked.getUserHistory (FileBacked.activity_file st) userId = Some history ->
  FileBacked.recommend st userId
  = Reply 200 (FileBacked.Recommendations
                 (Spec.recommend (FileBacked.stories st) history)).
Proof.
  intros H. unfold FileBacked.recommend. rewrite H.
  destruct history as [|a history]; [reflexivity|].
  change (length (a :: history) =? 0)%nat with false. cbv iota.
  rewrite nth_error_last. unfold Spec.recommend.
  destruct (find _ (FileBacked.stories st)) as [viewed|]; [|reflexivity].
  now rewrite firstn_filter.
Qed.

(** X21 — The views that the server records decide its recommendations:
    when the log does not exist before a run of requests and the JSON
    codec writes and reads back each record of the run, [recommend] after
    the run answers 200 with the recommendation for the accepted activity
    requests of that user in the run, that is, for the story of the last
    of them, among the stories that the store holds after the run; a user
    without an accepted activity request gets the empty list. *)
Theorem X21_recorded_views_decide_recommendations {json : JsonLines}
    (st : FileBacked.state) (rs : list (env * FileBacked.request))
    (userId : string) :
  FileBacked.activity_file st = None ->
  Forall Log.faithful (Log.recorded rs) ->
  let views := filter (fun a => String.eqb (Activity.userId a) userId)
                      (Log.recorded rs) in
  FileBacked.recommend (FileBacked.run st rs) userId
  = Reply 200 (FileBacked.Recommendations
                 (Spec.recommend (FileBacked.stories (FileBacked.run st rs)) views))
  /\ (views = [] ->
      FileBacked.recommend (FileBacked.run st rs) userId
      = Reply 200 (FileBacked.Recommendations [])).
Proof.
  intros Hnone Hfaithful views.
  pose proof (recommend_of_history (FileBacked.run st rs) userId views
                (history_of_run st rs userId Hnone Hfaithful)) as H.
  split; [exact H|]. intros Hviews. rewrite H, Hviews. reflexivity.
Qed.

Lemma X21_recorded_views_decide_recommendations_witness :
  let rs := [(Sample.e1, FileBacked.RecordActivity
                           (mk_activity_body (Some "u1") (Some "s3")));
             (Sample.e1, FileBacked.CreateStory
                           (mk_story_body (Some "Elves") (Some "An elf sang.")
                                          (Some "u1") (Some "Fantasy")));
             (Sample.e1, FileBacked.RecordActivity
                           (mk_activity_body (Some "u1") (Some "s2")))] in
  FileBacked.activity_file Sample.library = None
  /\ Forall (Log.faithful (json := plain_lines)) (Log.recorded rs)
  /\ option_map (map Story.title)
       (match FileBacked.recommend (json := plain_lines)
                (FileBacked.run (json := plain_lines) Sample.library rs) "u1" with
        | Reply _ (FileBacked.Recommendations l) => Some l
        | _ => None
        end)
     = Some ["Elves"; "A Moonlit Night"].
Proof.
  cbv zeta.
  assert (Forall (Log.faithful (json := plain_lines))
            (Log.recorded
               [(Sample.e1, FileBacked.RecordActivity
                              (mk_activity_body (Some "u1") (Some "s3")));
                (Sample.e1, FileBacked.CreateStory
                              (mk_story_body (Some "Elves") (Some "An elf sang.")
                                             (Some "u1") (Some "Fantasy")));
                (Sample.e1, FileBacked.RecordActivity
                              (mk_activity_body (Some "u1") (Some "s2")))]))
    as Hfaithful by (repeat constructor; vm_compute; reflexivity).
  split; [reflexivity|]. split; [exact Hfaithful|].
  rewrite (proj1 (X21_recorded_views_decide_recommendations (json := plain_lines)
                    Sample.library _ "u1" eq_refl Hfaithful)).
  reflexivity.
Defined.

(** ** Ids that differ *)

Lemma NoDup_snoc {A : Type} (l : list A) (x : A) :
  NoDup l -> ~ In x l -> NoDup (l ++ [x]).
Proof.
  induction 1 as [|y l Hy Hl IH]; intros Hx; cbn.
  - constructor; [intros []|constructor].
  - constructor.
    + intros H. apply in_app_or in H as [H|[<-|[]]]; [contradiction|].
      apply Hx. now left.
    + apply IH. intros H. apply Hx. now right.
Qed.

Lemma NoDup_comment_ids_filter (keep : Comment.t -> bool) (cs : list Comment.t) :
  NoDup (map Comment.id cs) -> NoDup (map Comment.id (filter keep cs)).
Proof.
  induction cs as [|c cs IH]; simpl; intros H; [constructor|].
  inversion H as [|i ids Hout Hrest]; subst.
  destruct (keep c); simpl; [constructor|]; auto.
  intros Hin. apply Hout. apply in_map_iff in Hin as (c' & Hid & Hc').
  apply in_map_iff. exists c'. split; [assumption|].
  apply filter_In in Hc'. tauto.
Qed.

(** X22 — The ids of each collection stay different from one another as
    long as [uuidv4()] gives an id that is not in use: when no two
    stories, no two users and no two comments of the store share an id
    and the id that the request gets from [uuidv4()] is the id of no
    story, user or comment of the store, the same holds of the store
    after the request. *)
Theorem X22_ids_stay_unique {json : JsonLines} (e : env)
    (st : FileBacked.state) (r : FileBacked.request) :
  NoDup (map Story.id (FileBacked.stories st)) ->
  NoDup (map User.id (FileBacked.users st)) ->
  NoDup (map Comment.id (FileBacked.comments st)) ->
  ~ In (uuidv4 e) (map Story.id (FileBacked.stories st)) ->
  ~ In (uuidv4 e) (map User.id (FileBacked.users st)) ->
  ~ In (uuidv4 e) (map Comment.id (FileBacked.comments st)) ->
  let st' := snd (FileBacked.step e st r) in
  NoDup (map Story.id (FileBacked.stories st'))
  /\ NoDup (map User.id (FileBacked.users st'))
  /\ NoDup (map Comment.id (FileBacked.comments st')).
Proof.
  intros Hs Hu Hc Fs Fu Fc st'.
  split; [now apply step_keeps_story_ids_unique|]. subst st'.
  assert (NoDup (map User.id (FileBacked.users st))
          /\ NoDup (map Comment.id (FileBacked.comments st))) as Hsame by now split.
  destruct r as [s|q|i|b|i p|i|i|i|i b|i|b|u|i|b]; cbn [FileBacked.step snd];
    try exact Hsame.
  - unfold FileBacked.createStory. destruct (_ || _); exact Hsame.
  - unfold FileBacked.updateStory. destruct (findIndex _ _) as [idx|]; [|exact Hsame].
    cbn [FileBacked.stories FileBacked.saveDB FileBacked.with_stories].
    destruct (nth_error (update_nth idx _ _) idx); exact Hsame.
  - unfold FileBacked.deleteStory.
    destruct (_ =? _)%nat; cbn; (split; [exact Hu|now apply NoDup_comment_ids_filter]).
  - unfold FileBacked.likeStory. destruct (findIndex _ _) as [idx|]; [|exact Hsame].
    cbn [FileBacked.stories FileBacked.saveDB FileBacked.with_stories].
    destruct (nth_error (update_nth idx _ _) idx); exact Hsame.
  - unfold FileBacked.createComment. destruct (find _ _); [|exact Hsame].
    destruct (_ || _); [exact Hsame|]. cbn. split; [exact Hu|].
    rewrite map_app. now apply NoDup_snoc.
  - unfold FileBacked.deleteComment.
    destruct (_ =? _)%nat; cbn; (split; [exact Hu|now apply NoDup_comment_ids_filter]).
  - unfold FileBacked.recordActivity. destruct (_ || _); exact Hsame.
  - unfold FileBacked.createUser. destruct (negb _); [exact Hsame|].
    cbn. split; [|exact Hc]. rewrite map_app. now apply NoDup_snoc.
Qed.

Lemma X22_ids_stay_unique_witness :
  let st := Sample.library in
  let r := FileBacked.CreateComment "s2" (mk_comment_body (Some "u1") (Some "Nice")) in
  NoDup (map Story.id (FileBacked.stories st))
  /\ NoDup (map Comment.id
              (FileBacked.comments (snd (FileBacked.step (json := plain_lines)
                                           Sample.e1 st r))))
  /\ length (FileBacked.comments (snd (FileBacked.step (json := plain_lines)
                                         Sample.e1 st r))) = 2%nat.
Proof.
  cbv zeta.
  assert (NoDup (map Story.id (FileBacked.stories Sample.library))) as Hs
    by (repeat constructor; simpl; intuition discriminate).
  assert (NoDup (map User.id (FileBacked.users Sample.library))) as Hu
    by (repeat constructor; simpl; intuition discriminate).
  assert (NoDup (map Comment.id (FileBacked.comments Sample.library))) as Hc
    by (repeat constructor; simpl; intuition discriminate).
  assert (~ In (uuidv4 Sample.e1) (map Story.id (FileBacked.stories Sample.library)))
    as Fs by (simpl; intuition discriminate).
  assert (~ In (uuidv4 Sample.e1) (map User.id (FileBacked.users Sample.library)))
    as Fu by (simpl; intuition discriminate).
  assert (~ In (uuidv4 Sample.e1) (map Comment.id (FileBacked.comments Sample.library)))
    as Fc by (simpl; intuition discriminate).
  split; [exact Hs|]. split; [|reflexivity].
  exact (proj2 (proj2 (X22_ids_stay_unique (json := plain_lines) Sample.e1
                         Sample.library
                         (FileBacked.CreateComment "s2"
                            (mk_comment_body (Some "u1") (Some "Nice")))
                         Hs Hu Hc Fs Fu Fc))).
Defined.
